(** * Batch/playlist download orchestration and retry subsystem

    A shallow embedding of the queue manager ([batchmode.py]), the retry
    handler ([retry_handler.py]) and the batch pump of the main window
    ([main.py], [process.py]), together with the properties the
    specification states about them.

    Conventions of the embedding.
    - A Python [str] is a [string]; every character is read as a code point
      below 256, which covers all literals of the source.
    - A Python [int] is a [Z].
    - [None] is the [None] of [option]; a raised exception is carried by
      the [Exn] constructor together with its [str(e)] text.
    - A Qt signal emission is recorded, in order, in a list of signals.
    - Console output, log entries and the texts written to labels have no
      effect on the queue or on the pump and are left out. *)

From Stdlib Require Import ZArith List String Ascii Bool Lia Permutation.
From Stdlib Require Import Numbers.DecimalString Numbers.DecimalPos.
Import ListNotations.

Open Scope string_scope.
Open Scope Z_scope.

(** ** Python values shared by all modules *)

(** Normal completion or an exception with its message. *)
Inductive PyResult (A : Type) : Type :=
| Ok (a : A)
| Exn (msg : string).
Arguments Ok {A} a.
Arguments Exn {A} msg.

Module Py.

(** [str(n)] for an integer. *)
Definition str_int (n : Z) : string := NilZero.string_of_int (Z.to_int n).

(** [len(l)] *)
Definition len {A : Type} (l : list A) : Z := Z.of_nat (List.length l).

(** [l[i]] with Python's negative indices; [None] stands for IndexError. *)
Definition getitem {A : Type} (l : list A) (i : Z) : option A :=
  if (0 <=? i) && (i <? len l) then nth_error l (Z.to_nat i)
  else if (- len l <=? i) && (i <? 0) then nth_error l (Z.to_nat (len l + i))
  else None.

(** [c.lower()] on a single character: A-Z and the Latin-1 capitals. *)
Definition lower_char (c : ascii) : ascii :=
  let n := N_of_ascii c in
  if ((65 <=? n) && (n <=? 90))%N then ascii_of_N (n + 32)
  else if ((192 <=? n) && (n <=? 222) && negb (n =? 215))%N then ascii_of_N (n + 32)
  else c.

(** [s.lower()] *)
Fixpoint lower (s : string) : string :=
  match s with
  | EmptyString => EmptyString
  | String c s' => String (lower_char c) (lower s')
  end.

(** [sub in s] for strings. *)
Fixpoint contains (sub s : string) : bool :=
  if String.prefix sub s then true
  else match s with
       | EmptyString => false
       | String _ s' => contains sub s'
       end.

(** [c.isspace()] *)
Definition isspace (c : ascii) : bool :=
  let n := N_of_ascii c in
  (((9 <=? n) && (n <=? 13)) || ((28 <=? n) && (n <=? 32))
   || (n =? 133) || (n =? 160))%N.

Fixpoint lstrip (s : string) : string :=
  match s with
  | EmptyString => EmptyString
  | String c s' => if isspace c then lstrip s' else s
  end.

Fixpoint rstrip (s : string) : string :=
  match s with
  | EmptyString => EmptyString
  | String c s' =>
      match rstrip s' with
      | EmptyString => if isspace c then EmptyString else String c EmptyString
      | r => String c r
      end
  end.

(** [s.strip()] *)
Definition strip (s : string) : string := rstrip (lstrip s).

(** [s.split(sep)[-1]]: what follows the last separator. *)
Fixpoint split_last (sep : ascii) (s : string) : string :=
  match s with
  | EmptyString => EmptyString
  | String c s' =>
      if contains (String sep EmptyString) s' then split_last sep s'
      else if Ascii.eqb c sep then s'
      else s
  end.

Definition digit_value (c : ascii) : option Z :=
  let n := N_of_ascii c in
  if ((48 <=? n) && (n <=? 57))%N then Some (Z.of_N (n - 48)) else None.

Fixpoint digits_value (acc : Z) (s : string) : option Z :=
  match s with
  | EmptyString => Some acc
  | String c s' =>
      match digit_value c with
      | Some d => digits_value (10 * acc + d) s'
      | None => None
      end
  end.

(** The blanks [int()] skips at both ends of its argument: tab to carriage
    return and the space, and of the characters beyond ASCII the blanks of
    Unicode, 133 and 160.  The separators 28 to 31, which [str.strip()]
    removes, are not among them. *)
Definition int_isspace (c : ascii) : bool :=
  let n := N_of_ascii c in
  (((9 <=? n) && (n <=? 13)) || (n =? 32) || (n =? 133) || (n =? 160))%N.

Fixpoint int_lstrip (s : string) : string :=
  match s with
  | EmptyString => EmptyString
  | String c s' => if int_isspace c then int_lstrip s' else s
  end.

Fixpoint int_rstrip (s : string) : string :=
  match s with
  | EmptyString => EmptyString
  | String c s' =>
      match int_rstrip s' with
      | EmptyString => if int_isspace c then EmptyString else String c EmptyString
      | r => String c r
      end
  end.

(** [int(s)] for a string without underscores: optional blanks around an
    optional sign and at least one decimal digit; [None] is ValueError. *)
Definition int_of_str (s : string) : option Z :=
  match int_rstrip (int_lstrip s) with
  | EmptyString => None
  | String c rest =>
      if Ascii.eqb c "-" then
        match rest with
        | EmptyString => None
        | _ => option_map Z.opp (digits_value 0 rest)
        end
      else if Ascii.eqb c "+" then
        match rest with
        | EmptyString => None
        | _ => digits_value 0 rest
        end
      else digits_value 0 (String c rest)
  end.

(** Truth value of a string: non-empty. *)
Definition truthy (s : string) : bool :=
  match s with EmptyString => false | _ => true end.

End Py.

(** ** retry_handler.py *)

Module Retry.

(** Signals of [RetryHandler]. *)
Inductive Signal : Type :=
| retry_attempt (current_attempt max_attempts : Z) (error_msg : string)
| retry_success (msg : string)
| retry_failed (msg : string).

(** What one run of [execute_with_retry] does to the outside, in order:
    a signal, a [time.sleep(delay)], or a call of [func] with the way the
    call ended ([None]: it returned, [Some e]: it raised [e]). *)
Inductive Effect : Type :=
| Emit (s : Signal)
| Sleep (delay : Z)
| Invoke (raised : option string).

Record RetryHandler : Type := mkRetryHandler {
  max_retries : Z;
  retry_delays : list Z;
  _is_cancelled : bool
}.

(** [RetryHandler.__init__]; [retry_delays or [30, 60, 180]]. *)
Definition init (max_retries : Z) (retry_delays : option (list Z)) : RetryHandler :=
  {| max_retries := max_retries;
     retry_delays := match retry_delays with
                     | Some (d :: ds) => d :: ds
                     | _ => [30; 60; 180]
                     end;
     _is_cancelled := false |}.

(** [create_download_retry_handler(max_retries, retry_delays)] *)
Definition create_download_retry_handler (max_retries : Z) (retry_delays : option (list Z))
  : RetryHandler :=
  init max_retries (Some match retry_delays with
                         | None => [30; 60; 180]
                         | Some ds => ds
                         end).

Definition cancel (h : RetryHandler) : RetryHandler :=
  {| max_retries := max_retries h; retry_delays := retry_delays h; _is_cancelled := true |}.

Definition reset (h : RetryHandler) : RetryHandler :=
  {| max_retries := max_retries h; retry_delays := retry_delays h; _is_cancelled := false |}.

Definition retryable_patterns : list string :=
  [ "connection"; "timeout"; "network"; "unreachable";
    "temporary failure"; "service unavailable"; "bad gateway";
    "gateway timeout"; "connection reset"; "connection refused";
    "dns"; "resolve"; "interrupted"; "broken pipe";
    "http error 5"; "http error 429";
    "unable to download"; "download error" ].

Definition non_retryable_patterns : list string :=
  [ "video unavailable"; "private video"; "video removed";
    "copyright"; "blocked"; "not found"; "invalid url";
    "unsupported url"; "age restricted"; "login required";
    "cancelled by user"; "sign in to confirm you're not a bot" ].

(** [_is_retryable_error(exception)]; the exception is given by [str(exception)]. *)
Definition _is_retryable_error (exception : string) : bool :=
  let error_msg := Py.lower exception in
  if existsb (fun pattern => Py.contains pattern error_msg) non_retryable_patterns
  then false
  else if existsb (fun pattern => Py.contains pattern error_msg) retryable_patterns
  then true
  else true.

Section Execute.

(** [W]: everything outside the handler that [func] and the passing of
    time can change; [V]: what [func] returns. *)
Variables W V : Type.

(** One call [func(...)]: how it ends, the world after it and
    whether [cancel()] was called on the handler meanwhile (the only
    method the repository calls on a running handler, process.py:582). *)
Variable func : W -> PyResult V * W * bool.

(** What happens during [time.sleep(delay)]: the world after it and
    whether [cancel()] was called meanwhile. *)
Variable sleep : Z -> W -> W * bool.

Record Run : Type := mkRun {
  handler : RetryHandler;
  world : W;
  effects : list Effect
}.

Definition emit (s : Signal) (r : Run) : Run :=
  {| handler := handler r; world := world r; effects := effects r ++ [Emit s] |}.

Definition note_cancel (c : bool) (h : RetryHandler) : RetryHandler :=
  if c then cancel h else h.

(** [time.sleep(delay)]; a negative delay raises ValueError. *)
Definition do_sleep (delay : Z) (r : Run) : PyResult unit * Run :=
  if delay <? 0 then (Exn "sleep length must be non-negative", r)
  else
    let '(w', c) := sleep delay (world r) in
    (Ok tt, {| handler := note_cancel c (handler r); world := w';
               effects := effects r ++ [Sleep delay] |}).

Definition call_func (r : Run) : PyResult V * Run :=
  let '(res, w', c) := func (world r) in
  (res, {| handler := note_cancel c (handler r); world := w';
           effects := effects r ++ [Invoke match res with
                                           | Ok _ => None
                                           | Exn e => Some e
                                           end] |}).

(** [str(last_exception)] *)
Definition str_exception (last_exception : option string) : string :=
  match last_exception with
  | None => "None"
  | Some e => e
  end.

(** The body of the [try:] of one iteration. *)
Definition try_body (attempt : Z) (last_exception : option string) (r : Run)
  : PyResult V * Run :=
  let h := handler r in
  let before_call : PyResult unit * Run :=
    if 0 <? attempt then
      match Py.getitem (retry_delays h)
              (Z.min (attempt - 1) (Py.len (retry_delays h) - 1)) with
      | None => (Exn "list index out of range", r)
      | Some delay =>
          do_sleep delay
            (emit (retry_attempt attempt (max_retries h) (str_exception last_exception)) r)
      end
    else (Ok tt, r) in
  match before_call with
  | (Exn e, r1) => (Exn e, r1)
  | (Ok _, r1) =>
      match call_func r1 with
      | (Exn e, r2) => (Exn e, r2)
      | (Ok result, r2) =>
          (Ok result,
           if 0 <? attempt then
             emit (retry_success ("Download succeeded after " ++ Py.str_int attempt
                                  ++ " retry attempts")) r2
           else r2)
      end
  end.

(** The [for attempt in range(self.max_retries + 1)] loop, entered with
    [n] iterations left, followed by the final [raise last_exception]. *)
Fixpoint attempts (n : nat) (attempt : Z) (last_exception : option string) (r : Run)
  : PyResult V * Run :=
  match n with
  | O =>
      (Exn match last_exception with
           | Some e => e
           | None => "exceptions must derive from BaseException"
           end, r)
  | S n' =>
      if _is_cancelled (handler r) then (Exn "Retry cancelled by user", r)
      else
        match try_body attempt last_exception r with
        | (Ok result, r1) => (Ok result, r1)
        | (Exn e, r1) =>
            if negb (_is_retryable_error e) then (Exn e, r1)
            else if attempt =? max_retries (handler r1) then
              (Exn e,
               emit (retry_failed ("Download failed after "
                                   ++ Py.str_int (max_retries (handler r1))
                                   ++ " retry attempts: " ++ e)) r1)
            else attempts n' (attempt + 1) (Some e) r1
        end
  end.

(** [execute_with_retry(func, ...)] *)
Definition execute_with_retry (h : RetryHandler) (w : W) : PyResult V * Run :=
  attempts (Z.to_nat (max_retries h + 1)) 0 None
           {| handler := h; world := w; effects := [] |}.

(** The calls of [func] among the effects, with how each ended. *)
Definition invocations (es : list Effect) : list (option string) :=
  flat_map (fun e => match e with Invoke r => [r] | _ => [] end) es.

(** The sleeps among the effects. *)
Definition sleeps (es : list Effect) : list Z :=
  flat_map (fun e => match e with Sleep d => [d] | _ => [] end) es.

End Execute.

Arguments handler {W}.
Arguments world {W}.
Arguments effects {W}.
Arguments mkRun {W}.

End Retry.

(** ** batchmode.py *)

Module Batch.

(** The [batch_settings] dictionary. *)
Module Settings.
Record t : Type := mk {
  resolution : string;
  download_subs : bool;
  download_path : string;
  container_override : option string;
  audio_override : option string
}.
End Settings.

(** The [playlist_data] dictionary built by [PlaylistInfoExtractor.run]. *)
Module Info.
Record t : Type := mk {
  title : string;
  uploader : string;
  video_count : Z;
  url : string;
  id : string;
  entries : list string;
  list_id : string;
  is_mix : bool
}.
End Info.

(** The dictionary returned by [_build_batch_item_data]. *)
Module Item.
Record t : Type := mk {
  url : string;
  resolution : string;
  download_subs : bool;
  download_path : string;
  container_override : option string;
  audio_override : option string
}.
End Item.

(** [urllib.parse.urlparse] result, the three parts the code reads. *)
Record ParseResult : Type := mkParseResult {
  netloc : string;
  path : string;
  query : string
}.

(** A started [PlaylistInfoExtractor(url, max_items)], with the
    [queue_limit] its completion callback was connected with. *)
Record PlaylistInfoExtractor : Type := mkExtractor {
  extractor_url : string;
  extractor_max_items : option Z;
  extractor_queue_limit : option Z
}.

Inductive Signal : Type :=
| batch_status_changed (enabled : bool)
| batch_progress_updated (current total : Z)
| batch_completed (successful total : Z)
| playlist_detected (info : Info.t)
| playlist_loading (msg : string)
| queue_updated
| queue_limit_reached (size : Z)
| queue_limit_warning (size limit : Z).

Record BatchModeManager : Type := mkManager {
  is_batch_mode : bool;
  batch_queue : list string;
  current_batch_index : Z;
  successful_downloads : Z;
  failed_downloads : Z;
  batch_settings : Settings.t;
  extractor : option PlaylistInfoExtractor;
  current_playlist_info : option Info.t;
  playlist_current_index : Z;
  playlist_max_items : option Z;
  emitted : list Signal
}.

(** Field assignments [self.f = v]. *)
Definition set_is_batch_mode (v : bool) (m : BatchModeManager) : BatchModeManager :=
  mkManager v (batch_queue m) (current_batch_index m) (successful_downloads m)
    (failed_downloads m) (batch_settings m) (extractor m) (current_playlist_info m)
    (playlist_current_index m) (playlist_max_items m) (emitted m).

Definition set_batch_queue (v : list string) (m : BatchModeManager) : BatchModeManager :=
  mkManager (is_batch_mode m) v (current_batch_index m) (successful_downloads m)
    (failed_downloads m) (batch_settings m) (extractor m) (current_playlist_info m)
    (playlist_current_index m) (playlist_max_items m) (emitted m).

Definition set_current_batch_index (v : Z) (m : BatchModeManager) : BatchModeManager :=
  mkManager (is_batch_mode m) (batch_queue m) v (successful_downloads m)
    (failed_downloads m) (batch_settings m) (extractor m) (current_playlist_info m)
    (playlist_current_index m) (playlist_max_items m) (emitted m).

Definition set_successful_downloads (v : Z) (m : BatchModeManager) : BatchModeManager :=
  mkManager (is_batch_mode m) (batch_queue m) (current_batch_index m) v
    (failed_downloads m) (batch_settings m) (extractor m) (current_playlist_info m)
    (playlist_current_index m) (playlist_max_items m) (emitted m).

Definition set_failed_downloads (v : Z) (m : BatchModeManager) : BatchModeManager :=
  mkManager (is_batch_mode m) (batch_queue m) (current_batch_index m)
    (successful_downloads m) v (batch_settings m) (extractor m) (current_playlist_info m)
    (playlist_current_index m) (playlist_max_items m) (emitted m).

Definition set_batch_settings (v : Settings.t) (m : BatchModeManager) : BatchModeManager :=
  mkManager (is_batch_mode m) (batch_queue m) (current_batch_index m)
    (successful_downloads m) (failed_downloads m) v (extractor m) (current_playlist_info m)
    (playlist_current_index m) (playlist_max_items m) (emitted m).

Definition set_extractor (v : option PlaylistInfoExtractor) (m : BatchModeManager)
  : BatchModeManager :=
  mkManager (is_batch_mode m) (batch_queue m) (current_batch_index m)
    (successful_downloads m) (failed_downloads m) (batch_settings m) v
    (current_playlist_info m) (playlist_current_index m) (playlist_max_items m) (emitted m).

Definition set_current_playlist_info (v : option Info.t) (m : BatchModeManager)
  : BatchModeManager :=
  mkManager (is_batch_mode m) (batch_queue m) (current_batch_index m)
    (successful_downloads m) (failed_downloads m) (batch_settings m) (extractor m) v
    (playlist_current_index m) (playlist_max_items m) (emitted m).

Definition set_playlist_current_index (v : Z) (m : BatchModeManager) : BatchModeManager :=
  mkManager (is_batch_mode m) (batch_queue m) (current_batch_index m)
    (successful_downloads m) (failed_downloads m) (batch_settings m) (extractor m)
    (current_playlist_info m) v (playlist_max_items m) (emitted m).

Definition set_playlist_max_items (v : option Z) (m : BatchModeManager) : BatchModeManager :=
  mkManager (is_batch_mode m) (batch_queue m) (current_batch_index m)
    (successful_downloads m) (failed_downloads m) (batch_settings m) (extractor m)
    (current_playlist_info m) (playlist_current_index m) v (emitted m).

(** [self.<signal>.emit(...)] *)
Definition emit (s : Signal) (m : BatchModeManager) : BatchModeManager :=
  mkManager (is_batch_mode m) (batch_queue m) (current_batch_index m)
    (successful_downloads m) (failed_downloads m) (batch_settings m) (extractor m)
    (current_playlist_info m) (playlist_current_index m) (playlist_max_items m)
    (emitted m ++ [s]).

(** [BatchModeManager.__init__] *)
Definition init : BatchModeManager :=
  {| is_batch_mode := false;
     batch_queue := [];
     current_batch_index := 0;
     successful_downloads := 0;
     failed_downloads := 0;
     batch_settings := Settings.mk "720p" false "" None None;
     extractor := None;
     current_playlist_info := None;
     playlist_current_index := 0;
     playlist_max_items := None;
     emitted := [] |}.

(** [x or None] for an optional string. *)
Definition or_None (x : option string) : option string :=
  match x with
  | Some s => if Py.truthy s then Some s else None
  | None => None
  end.

(** [enable_batch_mode(resolution, download_subs, download_path,
    container_override, audio_override)] *)
Definition enable_batch_mode (resolution : string) (download_subs : bool)
    (download_path : string) (container_override audio_override : option string)
    (m : BatchModeManager) : BatchModeManager :=
  let m := set_is_batch_mode true m in
  let m := set_batch_settings
             (Settings.mk resolution download_subs download_path
                          (or_None container_override) (or_None audio_override)) m in
  let m := set_batch_queue [] m in
  let m := set_current_batch_index 0 m in
  let m := set_successful_downloads 0 m in
  let m := set_failed_downloads 0 m in
  emit (batch_status_changed true) m.

(** [update_batch_settings(...)]: every argument is optional. *)
Definition update_batch_settings (resolution : option string) (download_subs : option bool)
    (download_path : option string) (container_override audio_override : option string)
    (m : BatchModeManager) : BatchModeManager :=
  if negb (is_batch_mode m) then m
  else
    let s := batch_settings m in
    set_batch_settings
      (Settings.mk
         (match resolution with Some v => v | None => Settings.resolution s end)
         (match download_subs with Some v => v | None => Settings.download_subs s end)
         (match download_path with Some v => v | None => Settings.download_path s end)
         (match container_override with
          | Some v => Some v | None => Settings.container_override s end)
         (match audio_override with
          | Some v => Some v | None => Settings.audio_override s end)) m.

Definition disable_batch_mode (m : BatchModeManager) : BatchModeManager :=
  let m := set_is_batch_mode false m in
  let m := set_batch_queue [] m in
  let m := set_current_batch_index 0 m in
  let m := set_successful_downloads 0 m in
  let m := set_failed_downloads 0 m in
  let m := set_current_playlist_info None m in
  let m := set_playlist_current_index 0 m in
  emit (batch_status_changed false) m.

(** [isinstance(x, int) and x > 0] for an optional integer. *)
Definition positive_int (x : option Z) : bool :=
  match x with
  | Some v => 0 <? v
  | None => false
  end.

(** The placeholders [f"PLAYLIST_ITEM_{i + 1}"] for [i] in [range(max_items)]. *)
Definition placeholders (max_items : Z) : list string :=
  map (fun i => "PLAYLIST_ITEM_" ++ Py.str_int (Z.of_nat i + 1))
      (seq 0 (Z.to_nat max_items)).

(** [on_playlist_info_extracted(playlist_info, queue_limit)] *)
Definition on_playlist_info_extracted (playlist_info : Info.t) (queue_limit : option Z)
    (m : BatchModeManager) : BatchModeManager :=
  let m := set_current_playlist_info (Some playlist_info) m in
  let m := set_playlist_current_index 0 m in
  let m := emit (playlist_detected playlist_info) m in
  let m := if negb (is_batch_mode m)
           then enable_batch_mode "720p" false "" None None m else m in
  let m := set_batch_queue [] m in
  let total := Info.video_count playlist_info in
  let max_items := total in
  let max_items := match queue_limit with
                   | Some q => if 0 <? q then Z.min max_items q else max_items
                   | None => max_items
                   end in
  let max_items := match playlist_max_items m with
                   | Some p => if 0 <? p then Z.min max_items p else max_items
                   | None => max_items
                   end in
  let m := set_batch_queue (batch_queue m ++ placeholders max_items) m in
  let title := Info.title playlist_info in
  let count := max_items in
  let m := emit (playlist_loading ("Playlist '" ++ title ++ "' ready: "
                                   ++ Py.str_int count ++ " videos queued for download")) m in
  let m := emit queue_updated m in
  match queue_limit with
  | Some q => if q <=? Py.len (batch_queue m)
              then emit (queue_limit_reached (Py.len (batch_queue m))) m else m
  | None => m
  end.

(** [on_playlist_extraction_failed(error_msg)] *)
Definition on_playlist_extraction_failed (error_msg : string) (m : BatchModeManager)
  : BatchModeManager :=
  emit (playlist_loading ("Playlist extraction failed: " ++ error_msg)) m.

(** [get_playlist_video_url(index)] *)
Definition get_playlist_video_url (index : Z) (m : BatchModeManager) : option string :=
  match current_playlist_info m with
  | None => None
  | Some info =>
      let entries := Info.entries info in
      let entry_url :=
        if (0 <=? index) && (index <? Py.len entries)
        then Py.getitem entries index else None in
      let list_id :=
        if Py.truthy (Info.list_id info) then Info.list_id info
        else if Py.truthy (Info.id info) then Info.id info
        else "" in
      if match entry_url with Some e => Py.truthy e | None => false end then
        let e := match entry_url with Some e => e | None => "" end in
        let sep := if Py.contains "?" e then "&" else "?" in
        if Py.truthy list_id
        then Some (e ++ sep ++ "list=" ++ list_id ++ "&index=" ++ Py.str_int (index + 1))
        else Some e
      else
        let playlist_url := Info.url info in
        if Py.truthy playlist_url then
          let sep := if Py.contains "?" playlist_url then "&" else "?" in
          if Py.truthy list_id
          then Some (playlist_url ++ sep ++ "list=" ++ list_id
                     ++ "&index=" ++ Py.str_int (index + 1))
          else Some (playlist_url ++ sep ++ "index=" ++ Py.str_int (index + 1))
        else None
  end.

Definition mark_download_completed (success : bool) (m : BatchModeManager)
  : BatchModeManager :=
  if success then set_successful_downloads (successful_downloads m + 1) m
  else set_failed_downloads (failed_downloads m + 1) m.

Definition is_batch_complete (m : BatchModeManager) : bool :=
  Py.len (batch_queue m) <=? current_batch_index m.

(** [get_batch_summary()]; the float [completion_rate] is kept as the
    comparison the caller makes of it, [completion_rate >= 100]. *)
Record Summary : Type := mkSummary {
  summary_total : Z;
  summary_successful : Z;
  summary_failed : Z;
  summary_rate_full : bool;
  summary_playlist : option string
}.

Definition get_batch_summary (m : BatchModeManager) : Summary :=
  let total := Py.len (batch_queue m) in
  {| summary_total := total;
     summary_successful := successful_downloads m;
     summary_failed := failed_downloads m;
     summary_rate_full := (0 <? total) && (total <=? successful_downloads m);
     summary_playlist := option_map Info.title (current_playlist_info m) |}.

Definition clear_batch_queue (m : BatchModeManager) : BatchModeManager :=
  let m := set_batch_queue [] m in
  let m := set_current_batch_index 0 m in
  let m := set_successful_downloads 0 m in
  let m := set_failed_downloads 0 m in
  let m := set_current_playlist_info None m in
  let m := set_playlist_current_index 0 m in
  emit queue_updated m.

(** [l[:limit]] for [limit >= 0]. *)
Definition take (limit : Z) {A : Type} (l : list A) : list A :=
  firstn (Z.to_nat limit) l.

(** [trim_queue_to_limit(limit)] *)
Definition trim_queue_to_limit (limit : option Z) (m : BatchModeManager)
  : BatchModeManager :=
  match limit with
  | None => m
  | Some limit =>
      if limit <? 0 then m
      else
        let m := set_playlist_max_items (Some limit) m in
        if limit <? Py.len (batch_queue m) then
          let m := set_batch_queue (take limit (batch_queue m)) m in
          let m := if Py.len (batch_queue m) <? current_batch_index m
                   then set_current_batch_index (Py.len (batch_queue m)) m else m in
          let m := if Py.len (batch_queue m) <? playlist_current_index m
                   then set_playlist_current_index (Py.len (batch_queue m)) m else m in
          emit queue_updated m
        else m
  end.

(** [enforce_playlist_limit(limit)] *)
Definition enforce_playlist_limit (limit : option Z) (m : BatchModeManager)
  : BatchModeManager :=
  if positive_int limit then
    trim_queue_to_limit limit (set_playlist_max_items limit m)
  else m.

(** [del l[index]] and [l.pop(index)] for [0 <= index < len(l)]. *)
Definition delete_at {A : Type} (index : Z) (l : list A) : list A :=
  firstn (Z.to_nat index) l ++ skipn (S (Z.to_nat index)) l.

(** [l.insert(index, x)] for [0 <= index]. *)
Definition insert_at {A : Type} (index : Z) (x : A) (l : list A) : list A :=
  firstn (Z.to_nat index) l ++ x :: skipn (Z.to_nat index) l.

(** [remove_from_queue(index)] *)
Definition remove_from_queue (index : Z) (m : BatchModeManager) : BatchModeManager :=
  if (0 <=? index) && (index <? Py.len (batch_queue m)) then
    let m := set_batch_queue (delete_at index (batch_queue m)) m in
    let m := if index <? current_batch_index m
             then set_current_batch_index (current_batch_index m - 1) m else m in
    emit queue_updated m
  else m.

(** [move_in_queue(from_index, to_index)] *)
Definition move_in_queue (from_index to_index : Z) (m : BatchModeManager)
  : bool * BatchModeManager :=
  if negb ((0 <=? from_index) && (from_index <? Py.len (batch_queue m))) then (false, m)
  else if negb ((0 <=? to_index) && (to_index <? Py.len (batch_queue m))) then (false, m)
  else if from_index =? to_index then (true, m)
  else
    match Py.getitem (batch_queue m) from_index with
    | None => (false, m)
    | Some item =>
        let m := set_batch_queue (delete_at from_index (batch_queue m)) m in
        let m := set_batch_queue (insert_at to_index item (batch_queue m)) m in
        let m :=
          if current_batch_index m =? from_index then set_current_batch_index to_index m
          else if (from_index <? current_batch_index m) && (current_batch_index m <=? to_index)
          then set_current_batch_index (current_batch_index m - 1) m
          else if (to_index <=? current_batch_index m) && (current_batch_index m <? from_index)
          then set_current_batch_index (current_batch_index m + 1) m
          else m in
        (true, emit queue_updated m)
    end.

Definition restart_batch (m : BatchModeManager) : BatchModeManager :=
  let m := set_current_batch_index 0 m in
  let m := set_successful_downloads 0 m in
  let m := set_failed_downloads 0 m in
  set_playlist_current_index 0 m.

Section Manager.

(** The library functions [urlparse] ([None]: it raised) and [parse_qs]
    followed by [.get(key)]. *)
Variable urlparse : string -> option ParseResult.
Variable parse_qs : string -> string -> option (list string).

(** [_resolve_playlist_download_path(base_download_path)], which reads the
    stored application settings and joins paths by the rules of the
    operating system. *)
Variable _resolve_playlist_download_path : option Info.t -> string -> string.

(** [is_playlist_url(url)] *)
Definition is_playlist_url (url : string) : bool :=
  match urlparse url with
  | None => false
  | Some parsed =>
      let host := Py.lower (netloc parsed) in
      let path := Py.lower (path parsed) in
      let list_id :=
        match parse_qs (query parsed) "list" with
        | Some (v :: _) => Some v
        | _ => None
        end in
      let has_list_id :=
        match list_id with Some v => Py.truthy v | None => false end in
      if Py.contains "youtube.com" host && Py.contains "/playlist" path && has_list_id
      then true
      else if Py.contains "youtube.com" host && Py.contains "/watch" path && has_list_id
      then true
      else false
  end.

(** [handle_playlist_url(url, queue_limit)]: the extraction it starts
    completes later through [on_playlist_info_extracted] or
    [on_playlist_extraction_failed]. *)
Definition handle_playlist_url (url : string) (queue_limit : option Z)
    (m : BatchModeManager) : bool * BatchModeManager :=
  if negb (is_playlist_url url) then (false, m)
  else
    let m := emit (playlist_loading "Getting playlist information...") m in
    let eff_cap := if positive_int queue_limit then queue_limit else None in
    let eff_cap :=
      match playlist_max_items m with
      | Some p =>
          if 0 <? p then
            match eff_cap with
            | Some c => Some (Z.min c p)
            | None => Some p
            end
          else eff_cap
      | None => eff_cap
      end in
    (true,
     set_extractor
       (Some (mkExtractor url (if positive_int eff_cap then eff_cap else None)
                          queue_limit)) m).

(** [int(queue_limit * 0.8)]: the product is a double and [int] cuts it
    towards zero, which for every integer below 2^50 in size is the
    integer quotient of [4 * queue_limit] by 5. *)
Definition warning_threshold (queue_limit : Z) : Z := Z.quot (4 * queue_limit) 5.

(** [url in self.batch_queue] *)
Definition in_queue (url : string) (q : list string) : bool :=
  existsb (String.eqb url) q.

(** [add_to_batch(url, queue_limit)] *)
Definition add_to_batch (url : string) (queue_limit : option Z) (m : BatchModeManager)
  : bool * BatchModeManager :=
  if negb (Py.truthy url) || negb (Py.truthy (Py.strip url)) then (false, m)
  else
    let url := Py.strip url in
    if match queue_limit with
       | Some q => q <=? Py.len (batch_queue m)
       | None => false
       end
    then (false, emit (queue_limit_reached (Py.len (batch_queue m))) m)
    else if is_playlist_url url then handle_playlist_url url queue_limit m
    else if in_queue url (batch_queue m) then (false, m)
    else
      let m := set_batch_queue (batch_queue m ++ [url]) m in
      let m := emit queue_updated m in
      let m :=
        match queue_limit with
        | Some q =>
            if warning_threshold q <=? Py.len (batch_queue m)
            then emit (queue_limit_warning (Py.len (batch_queue m)) q) m
            else m
        | None => m
        end in
      (true, m).

(** [_build_batch_item_data(queue_item, is_playlist_item, item_index)] *)
Definition _build_batch_item_data (queue_item : string) (is_playlist_item : bool)
    (item_index : Z) (m : BatchModeManager) : option Item.t * BatchModeManager :=
  let s := batch_settings m in
  let resolution := Settings.resolution s in
  let download_subs := Settings.download_subs s in
  let download_path := Settings.download_path s in
  let container_override := Settings.container_override s in
  let audio_override := Settings.audio_override s in
  let finish (url : string) (m : BatchModeManager) :=
    let download_path :=
      if is_playlist_item && Py.truthy download_path
      then _resolve_playlist_download_path (current_playlist_info m) download_path
      else download_path in
    (Some (Item.mk url resolution download_subs download_path
                   container_override audio_override), m) in
  if is_playlist_item then
    match get_playlist_video_url item_index m with
    | None => (None, m)
    | Some actual_url =>
        if negb (Py.truthy actual_url) then (None, m)
        else finish actual_url (set_playlist_current_index (item_index + 1) m)
    end
  else finish queue_item m.

(** [get_next_batch_item()]; its closing [print] reads [item_data.get],
    which raises AttributeError when [item_data] is [None]. *)
Definition get_next_batch_item (m : BatchModeManager)
  : PyResult (option Item.t) * BatchModeManager :=
  if negb (is_batch_mode m) || (Py.len (batch_queue m) <=? current_batch_index m)
  then (Ok None, m)
  else
    match Py.getitem (batch_queue m) (current_batch_index m) with
    | None => (Exn "list index out of range", m)
    | Some queue_item =>
        let m := set_current_batch_index (current_batch_index m + 1) m in
        let '(is_playlist_item, item_index) :=
          if String.prefix "PLAYLIST_ITEM_" queue_item then
            match Py.int_of_str (Py.split_last "_" queue_item) with
            | Some i => (true, i)
            | None => (false, 0)
            end
          else (false, 0) in
        match _build_batch_item_data queue_item is_playlist_item item_index m with
        | (None, m) => (Exn "'NoneType' object has no attribute 'get'", m)
        | (Some item_data, m) => (Ok (Some item_data), m)
        end
    end.

End Manager.

End Batch.

(** ** process.py and main.py: one download per thread, pumped by the window *)

Module Main.

(** The signals of [DownloadThread] that drive the pump.  The [progress],
    [video_info], [download_progress] and [retry_info] signals only reach
    labels and the log and are left out. *)
Inductive ThreadSignal : Type :=
| download_failed (error_message : string)
| finished.

(** What waits in the event loop of the window: single-shot timers and
    signals queued from the download thread. *)
Inductive Pending : Type :=
| TimerStartBatchDownload
| TimerResetUi
| TimerThreadStart (url download_path : string)
| Queued (s : ThreadSignal).

(** The input widgets the pump reads. *)
Record Ui : Type := mkUi {
  link_input : string;
  resolution_box : string;
  subtitle_checkbox : bool;
  path_input : string
}.

Section Pump.

(** [W] is the state of the network, of the remote service and of the
    folders downloads are written to. *)
Variable W : Type.

(** [DownloadThread._download_with_ytdl] for the thread's [url]; the
    boolean tells whether [DownloadThread.cancel()] ran meanwhile. *)
Variable _download_with_ytdl : string -> W -> PyResult unit * W * bool.
Variable sleep : Z -> W -> W * bool.

(** [os.makedirs(path, exist_ok=True)]: how it ends and the world after
    it. *)
Variable makedirs : string -> W -> PyResult unit * W.

(** [self.current_video_title] as the download left it. *)
Variable current_video_title : string -> W -> option string.

Variable urlparse : string -> option Batch.ParseResult.
Variable parse_qs : string -> string -> option (list string).
Variable _resolve_playlist_download_path : option Batch.Info.t -> string -> string.

(** Stored settings and the answer of the cookie dialog. *)
Variable get_max_concurrent_downloads : Z.
Variable get_disable_cookies : bool.
Variable show_cookie_detection_dialog : option (string * string).

Record MainWindow : Type := mkMainWindow {
  batch_manager : Batch.BatchModeManager;
  is_downloading : bool;
  _block_batch_after_cancel : bool;
  ui : Ui;
  current_cookie_file : option string;
  thread : option string;
  pending : list Pending;
  world : W;
  (** every finished [DownloadThread.run]: its url and what its retry
      handler did *)
  runs : list (string * list Retry.Effect);
  (** the summaries [complete_batch] has logged *)
  completed : list Batch.Summary;
  (** exceptions that left a slot *)
  uncaught : list string
}.

Definition set_batch_manager (v : Batch.BatchModeManager) (a : MainWindow) : MainWindow :=
  mkMainWindow v (is_downloading a) (_block_batch_after_cancel a) (ui a)
    (current_cookie_file a) (thread a) (pending a) (world a) (runs a) (completed a)
    (uncaught a).

Definition set_is_downloading (v : bool) (a : MainWindow) : MainWindow :=
  mkMainWindow (batch_manager a) v (_block_batch_after_cancel a) (ui a)
    (current_cookie_file a) (thread a) (pending a) (world a) (runs a) (completed a)
    (uncaught a).

Definition set_block_batch_after_cancel (v : bool) (a : MainWindow) : MainWindow :=
  mkMainWindow (batch_manager a) (is_downloading a) v (ui a)
    (current_cookie_file a) (thread a) (pending a) (world a) (runs a) (completed a)
    (uncaught a).

Definition set_link_input (v : string) (a : MainWindow) : MainWindow :=
  mkMainWindow (batch_manager a) (is_downloading a) (_block_batch_after_cancel a)
    (mkUi v (resolution_box (ui a)) (subtitle_checkbox (ui a)) (path_input (ui a)))
    (current_cookie_file a) (thread a) (pending a) (world a) (runs a) (completed a)
    (uncaught a).

Definition set_current_cookie_file (v : option string) (a : MainWindow) : MainWindow :=
  mkMainWindow (batch_manager a) (is_downloading a) (_block_batch_after_cancel a) (ui a)
    v (thread a) (pending a) (world a) (runs a) (completed a) (uncaught a).

Definition set_thread (v : option string) (a : MainWindow) : MainWindow :=
  mkMainWindow (batch_manager a) (is_downloading a) (_block_batch_after_cancel a) (ui a)
    (current_cookie_file a) v (pending a) (world a) (runs a) (completed a) (uncaught a).

Definition set_pending (v : list Pending) (a : MainWindow) : MainWindow :=
  mkMainWindow (batch_manager a) (is_downloading a) (_block_batch_after_cancel a) (ui a)
    (current_cookie_file a) (thread a) v (world a) (runs a) (completed a) (uncaught a).

(** [QTimer.singleShot(ms, callback)] and queued signal delivery. *)
Definition post (p : Pending) (a : MainWindow) : MainWindow :=
  set_pending (pending a ++ [p]) a.

Definition log_completed (s : Batch.Summary) (a : MainWindow) : MainWindow :=
  mkMainWindow (batch_manager a) (is_downloading a) (_block_batch_after_cancel a) (ui a)
    (current_cookie_file a) (thread a) (pending a) (world a) (runs a)
    (completed a ++ [s]) (uncaught a).

Definition log_uncaught (e : string) (a : MainWindow) : MainWindow :=
  mkMainWindow (batch_manager a) (is_downloading a) (_block_batch_after_cancel a) (ui a)
    (current_cookie_file a) (thread a) (pending a) (world a) (runs a) (completed a)
    (uncaught a ++ [e]).

(** The text [DownloadThread.run] reports for the exception [e]. *)
Definition error_msg (title : option string) (e : string) : string :=
  match title with
  | Some t => if Py.truthy t
              then "Error downloading " ++ t ++ ": " ++ e
              else "Download failed: " ++ e
  | None => "Download failed: " ++ e
  end.

(** The first statement of [DownloadThread.run],
    [os.makedirs(self.download_path, exist_ok=True)], for the
    [download_path] the thread was created with.  [__init__] takes a path
    that is not blank as it is, stripped; for a blank one it has picked a
    folder it created itself, or the working directory, so that nothing is
    left to create. *)
Definition make_download_folder (download_path : string) (w : W) : PyResult unit * W :=
  if Py.truthy download_path && Py.truthy (Py.strip download_path)
  then makedirs (Py.strip download_path) w
  else (Ok tt, w).

(** [DownloadThread.run]: the signals it emits, what its retry handler
    did and the world it leaves.  The folder is made before the [try]
    whose [finally] emits [finished]: when that raises, the exception
    leaves [run] and no signal is emitted.  [DownloadThread.cancel()] sets
    the flag of the thread and the flag of its handler together, so the
    flag of the handler stands for both. *)
Definition run (url download_path : string) (w : W)
  : list ThreadSignal * list Retry.Effect * W :=
  match make_download_folder download_path w with
  | (Exn _, w) => ([], [], w)
  | (Ok _, w) =>
      let '(res, r) :=
        Retry.execute_with_retry W unit (_download_with_ytdl url) sleep
          (Retry.create_download_retry_handler 3 (Some [30; 60; 180])) w in
      let _is_cancelled := Retry._is_cancelled (Retry.handler r) in
      let failure :=
        match res with
        | Ok _ => []
        | Exn e =>
            if negb _is_cancelled
            then [download_failed
                    (error_msg (current_video_title url (Retry.world r)) e)]
            else []
        end in
      ((failure ++ [finished])%list, Retry.effects r, Retry.world r)
  end.

(** [update_batch_mode_from_ui()] *)
Definition update_batch_mode_from_ui (a : MainWindow) : MainWindow :=
  if Batch.is_batch_mode (batch_manager a) then
    set_batch_manager
      (Batch.update_batch_settings (Some (resolution_box (ui a)))
         (Some (subtitle_checkbox (ui a))) (Some (Py.strip (path_input (ui a))))
         None None (batch_manager a)) a
  else a.

(** [reset_ui()], without what it writes to labels. *)
Definition reset_ui (a : MainWindow) : MainWindow :=
  let a := if negb (Batch.is_batch_mode (batch_manager a))
              || Batch.is_batch_complete (batch_manager a)
           then set_link_input "" a else a in
  if Batch.is_batch_mode (batch_manager a) then update_batch_mode_from_ui a else a.

(** [complete_batch()] *)
Definition complete_batch (a : MainWindow) : MainWindow :=
  let summary := Batch.get_batch_summary (batch_manager a) in
  let a := log_completed summary a in
  let a := reset_ui a in
  set_batch_manager (Batch.clear_batch_queue (batch_manager a)) a.

(** [_start_download_with_settings(url, ..., download_path, ...)]: the
    thread is created and started by a single-shot timer. *)
Definition _start_download_with_settings (url download_path : string) (a : MainWindow)
  : MainWindow :=
  let a := set_thread (Some url) a in
  let a := set_is_downloading true a in
  post (TimerThreadStart url download_path) a.

(** [start_batch_download()] *)
Definition start_batch_download (a : MainWindow) : MainWindow :=
  if is_downloading a then a
  else if _block_batch_after_cancel a then set_block_batch_after_cancel false a
  else if negb (Batch.is_batch_mode (batch_manager a)) then a
  else
    let current_url := Py.strip (link_input (ui a)) in
    let a :=
      if Py.truthy current_url && negb (Batch.is_playlist_url urlparse parse_qs current_url)
      then
        let queue_limit := get_max_concurrent_downloads in
        let '(added, m) :=
          Batch.add_to_batch urlparse parse_qs current_url (Some queue_limit)
                             (batch_manager a) in
        let a := set_batch_manager m a in
        if added then set_link_input "" a else a
      else a in
    let '(next_item, m) :=
      Batch.get_next_batch_item _resolve_playlist_download_path (batch_manager a) in
    let a := set_batch_manager m a in
    match next_item with
    | Exn e => log_uncaught e a
    | Ok (Some item) =>
        _start_download_with_settings (Batch.Item.url item)
          (Batch.Item.download_path item) a
    | Ok None =>
        if Batch.is_batch_complete (batch_manager a) then complete_batch a else a
    end.

(** The tail shared by the three places that give up on an item in batch
    mode: count it as failed, then pump again or complete the batch. *)
Definition fail_and_continue (a : MainWindow) : MainWindow :=
  let a := set_batch_manager
             (Batch.mark_download_completed false (batch_manager a)) a in
  if negb (Batch.is_batch_complete (batch_manager a))
  then post TimerStartBatchDownload a
  else complete_batch a.

(** [retry_download_with_cookies()] *)
Definition retry_download_with_cookies (a : MainWindow) : MainWindow :=
  _start_download_with_settings (Py.strip (link_input (ui a)))
    (Py.strip (path_input (ui a))) a.

(** [handle_authentication_error()] *)
Definition handle_authentication_error (a : MainWindow) : MainWindow :=
  if get_disable_cookies then
    if Batch.is_batch_mode (batch_manager a) then fail_and_continue a
    else reset_ui a
  else
    match show_cookie_detection_dialog with
    | Some (cookie_file, browser_name) =>
        if Py.truthy cookie_file then
          let a := set_current_cookie_file (Some cookie_file) a in
          if Batch.is_batch_mode (batch_manager a) then start_batch_download a
          else retry_download_with_cookies a
        else if Batch.is_batch_mode (batch_manager a) then fail_and_continue a
        else reset_ui a
    | None =>
        if Batch.is_batch_mode (batch_manager a) then fail_and_continue a
        else reset_ui a
    end.

(** [on_download_failed(error_message)] *)
Definition on_download_failed (error_message : string) (a : MainWindow) : MainWindow :=
  let a := set_is_downloading false a in
  if Py.contains "Sign in to confirm you're not a bot" error_message
  then handle_authentication_error a
  else if Batch.is_batch_mode (batch_manager a) then fail_and_continue a
  else reset_ui a.

(** [on_download_finished()] *)
Definition on_download_finished (a : MainWindow) : MainWindow :=
  let a := set_is_downloading false a in
  if Batch.is_batch_mode (batch_manager a) then
    let a := set_batch_manager
               (Batch.mark_download_completed true (batch_manager a)) a in
    if negb (Batch.is_batch_complete (batch_manager a))
    then post TimerStartBatchDownload a
    else complete_batch a
  else post TimerResetUi a.

(** The thread started by [TimerThreadStart] runs to its end; its signals
    are queued behind what already waits. *)
Definition thread_start (url download_path : string) (a : MainWindow) : MainWindow :=
  let '(signals, effects, w) := run url download_path (world a) in
  mkMainWindow (batch_manager a) (is_downloading a) (_block_batch_after_cancel a) (ui a)
    (current_cookie_file a) (thread a) (pending a ++ map Queued signals) w
    (runs a ++ [(url, effects)]) (completed a) (uncaught a).

(** One turn of the event loop: the oldest waiting entry is served.  Qt
    serves timers by their delay; every timer of the pump calls
    [start_batch_download] and the signals of a thread arrive in the order
    of their [emit], so serving in the order of posting calls the same
    slots as long as at most one timer waits. *)
Definition dispatch (p : Pending) (a : MainWindow) : MainWindow :=
  match p with
  | TimerStartBatchDownload => start_batch_download a
  | TimerResetUi => reset_ui a
  | TimerThreadStart url download_path => thread_start url download_path a
  | Queued (download_failed error_message) => on_download_failed error_message a
  | Queued finished => on_download_finished a
  end.

Definition turn (a : MainWindow) : option MainWindow :=
  match pending a with
  | [] => None
  | p :: rest => Some (dispatch p (set_pending rest a))
  end.

(** The event loop, for at most [fuel] turns; [None] when entries still
    wait after that. *)
Fixpoint event_loop (fuel : nat) (a : MainWindow) : option MainWindow :=
  match turn a with
  | None => Some a
  | Some a' =>
      match fuel with
      | O => None
      | S fuel' => event_loop fuel' a'
      end
  end.

(** A window just created, over a given world. *)
Definition new (w : W) (u : Ui) : MainWindow :=
  {| batch_manager := Batch.init;
     is_downloading := false;
     _block_batch_after_cancel := false;
     ui := u;
     current_cookie_file := None;
     thread := None;
     pending := [];
     world := w;
     runs := [];
     completed := [];
     uncaught := [] |}.

(** [self.batch_manager.add_to_batch(url, queue_limit)] with the stored
    limit, as the window calls it (main.py, lines 351, 1071 and 1239). *)
Definition queue_url (url : string) (a : MainWindow) : MainWindow :=
  set_batch_manager
    (snd (Batch.add_to_batch urlparse parse_qs url (Some get_max_concurrent_downloads)
            (batch_manager a))) a.

(** [toggle_batch_mode(2)]: the batch checkbox gets checked. *)
Definition toggle_batch_mode_on (a : MainWindow) : MainWindow :=
  set_batch_manager
    (Batch.enable_batch_mode (resolution_box (ui a)) (subtitle_checkbox (ui a))
       (Py.strip (path_input (ui a))) None None (batch_manager a)) a.

(** The calls of [_download_with_ytdl] made for [url] over all runs. *)
Definition invocations_for (url : string) (a : MainWindow) : Z :=
  Py.len (flat_map (fun r => if String.eqb (fst r) url
                             then Retry.invocations (snd r) else [])
                   (runs a)).

End Pump.

End Main.

(** * Scenarios

    Concrete executors, playlists and queues used as inputs below. *)

Module Scenario.

(** An executor that fails with a connection error at every call; its
    world counts the calls. *)
Definition always_timeout (w : nat) : PyResult unit * nat * bool :=
  (Exn "Connection timeout", S w, false).

(** An executor that reports a private video, in a text that also names a
    network problem. *)
Definition private_video (w : nat) : PyResult unit * nat * bool :=
  (Exn "ERROR: Private video (network unreachable)", S w, false).

(** A run that has made two failed calls and was cancelled meanwhile. *)
Definition cancelled_after_two_calls : Retry.Run nat :=
  Retry.mkRun (Retry.cancel (Retry.create_download_retry_handler 3 None)) 2%nat
    [ Retry.Invoke (Some "Connection timeout");
      Retry.Emit (Retry.retry_attempt 1 3 "Connection timeout");
      Retry.Sleep 30;
      Retry.Invoke (Some "Connection timeout") ].

(** Nothing happens while the handler sleeps. *)
Definition quiet_sleep {W : Type} (delay : Z) (w : W) : W * bool := (w, false).

(** [urlparse] and [parse_qs] on addresses of single videos: a host, a
    path and no query. *)
Definition urlparse (url : string) : option Batch.ParseResult :=
  Some (Batch.mkParseResult "youtu.be" "/video" "").

Definition parse_qs (query key : string) : option (list string) := None.

(** No playlist subfolder. *)
Definition _resolve_playlist_download_path (info : option Batch.Info.t) (base : string)
  : string := base.

Definition add_to_batch := Batch.add_to_batch urlparse parse_qs.
Definition get_next_batch_item := Batch.get_next_batch_item _resolve_playlist_download_path.

(** Batch mode switched on with the default settings. *)
Definition enabled : Batch.BatchModeManager :=
  Batch.enable_batch_mode "720p" false "" None None Batch.init.

(** [add_to_batch] for each address in turn. *)
Fixpoint add_all (urls : list string) (queue_limit : option Z) (m : Batch.BatchModeManager)
  : Batch.BatchModeManager :=
  match urls with
  | [] => m
  | url :: rest => add_all rest queue_limit (snd (add_to_batch url queue_limit m))
  end.

(** The queue sizes seen along [add_all], the first one included. *)
Fixpoint queue_sizes (urls : list string) (queue_limit : option Z)
    (m : Batch.BatchModeManager) : list Z :=
  Py.len (Batch.batch_queue m) ::
  match urls with
  | [] => []
  | url :: rest => queue_sizes rest queue_limit (snd (add_to_batch url queue_limit m))
  end.

(** [get_next_batch_item] called [n] times: the results, then the manager. *)
Fixpoint dequeue (n : nat) (m : Batch.BatchModeManager)
  : list (PyResult (option Batch.Item.t)) * Batch.BatchModeManager :=
  match n with
  | O => ([], m)
  | S n' =>
      let '(item, m1) := get_next_batch_item m in
      let '(items, m2) := dequeue n' m1 in
      (item :: items, m2)
  end.

(** The [url] of a dequeued job. *)
Definition source_url (r : PyResult (option Batch.Item.t)) : option string :=
  match r with
  | Ok (Some item) => Some (Batch.Item.url item)
  | _ => None
  end.

Definition five_urls : list string :=
  [ "https://youtu.be/a"; "https://youtu.be/b"; "https://youtu.be/c";
    "https://youtu.be/d"; "https://youtu.be/e" ].

(** A queue of five plain addresses, filled under a limit of five. *)
Definition full5 : Batch.BatchModeManager := add_all five_urls (Some 5) enabled.

(** A playlist of ten entries. *)
Definition playlist10 : Batch.Info.t :=
  Batch.Info.mk "Ten" "Channel" 10 "https://www.youtube.com/playlist?list=PL10" "PL10"
    [ "https://www.youtube.com/watch?v=e0"; "https://www.youtube.com/watch?v=e1";
      "https://www.youtube.com/watch?v=e2"; "https://www.youtube.com/watch?v=e3";
      "https://www.youtube.com/watch?v=e4"; "https://www.youtube.com/watch?v=e5";
      "https://www.youtube.com/watch?v=e6"; "https://www.youtube.com/watch?v=e7";
      "https://www.youtube.com/watch?v=e8"; "https://www.youtube.com/watch?v=e9" ]
    "PL10" false.

(** A playlist of two entries. *)
Definition playlist2 : Batch.Info.t :=
  Batch.Info.mk "Two" "Channel" 2 "https://www.youtube.com/playlist?list=PL2" "PL2"
    [ "https://www.youtube.com/watch?v=p0"; "https://www.youtube.com/watch?v=p1" ]
    "PL2" false.

(** Three plain addresses queued under a limit of ten and all three
    handed out. *)
Definition three_dispatched : Batch.BatchModeManager :=
  snd (dequeue 3 (add_all [ "https://youtu.be/a"; "https://youtu.be/b";
                            "https://youtu.be/c" ] (Some 10) enabled)).

(** Four items, the cursor on the third. *)
Definition abcd : Batch.BatchModeManager :=
  Batch.set_current_batch_index 2
    (Batch.set_batch_queue ["A"; "B"; "C"; "D"] enabled).

(** *** The end-to-end run

    Three plain addresses are queued under a limit of ten.  The world of
    the executor is the list of addresses it has been called with: the
    first job succeeds, the second fails once with a network error and then
    succeeds, the third fails with a private video. *)

Definition job1 : string := "https://youtu.be/a".
Definition job2 : string := "https://youtu.be/b".
Definition job3 : string := "https://youtu.be/c".

Definition executor (url : string) (calls : list string)
  : PyResult unit * list string * bool :=
  let earlier := List.length (filter (String.eqb url) calls) in
  let calls' := (calls ++ [url])%list in
  if String.eqb url job2 then
    (if Nat.eqb earlier 0 then Exn "Network unreachable" else Ok tt, calls', false)
  else if String.eqb url job3 then (Exn "ERROR: Private video", calls', false)
  else (Ok tt, calls', false).

Definition no_title (url : string) (calls : list string) : option string := None.

(** Every folder can be made. *)
Definition makedirs (path : string) (calls : list string)
  : PyResult unit * list string := (Ok tt, calls).

Definition Window : Type := Main.MainWindow (list string).

(** The window queues an address under the limit of ten. *)
Definition queue_url : string -> Window -> Window :=
  Main.queue_url (list string) urlparse parse_qs 10.

(** A new window with an empty input line, batch mode checked. *)
Definition window : Window :=
  Main.toggle_batch_mode_on (list string)
    (Main.new (list string) [] (Main.mkUi "" "720p" false "")).

Definition queued : Window := queue_url job3 (queue_url job2 (queue_url job1 window)).

Definition start_batch_download : Window -> Window :=
  Main.start_batch_download (list string) urlparse parse_qs
    _resolve_playlist_download_path 10.

Definition event_loop : nat -> Window -> option Window :=
  Main.event_loop (list string) executor quiet_sleep makedirs no_title urlparse parse_qs
    _resolve_playlist_download_path 10 false None.

(** Download is pressed and the event loop runs until nothing waits. *)
Definition end_to_end : option Window := event_loop 20 (start_batch_download queued).

End Scenario.

(** * What the specification asks of the queue *)

(** [0 <= cursor <= len(items)] *)
Definition cursor_in_range (m : Batch.BatchModeManager) : Prop :=
  0 <= Batch.current_batch_index m <= Py.len (Batch.batch_queue m).

(** The [queue_limit_warning] signals among emitted signals. *)
Definition limit_warnings (signals : list Batch.Signal) : list (Z * Z) :=
  flat_map (fun s => match s with
                     | Batch.queue_limit_warning size limit => [(size, limit)]
                     | _ => []
                     end) signals.

(** How often a sequence of queue sizes goes from below [threshold] to
    [threshold] or above. *)
Fixpoint upward_crossings (threshold : Z) (sizes : list Z) : nat :=
  match sizes with
  | a :: (b :: _) as rest =>
      let crossed := (a <? threshold) && (threshold <=? b) in
      ((if crossed then 1 else 0) + upward_crossings threshold rest)%nat
  | _ => 0%nat
  end.


(** The operations on the queue that the manager offers to its callers. *)
Inductive Operation : Type :=
| Enqueue (url : string) (queue_limit : option Z)
| DequeueNext
| Remove (index : Z)
| Move (from_index to_index : Z)
| Trim (limit : option Z)
| EnforceLimit (limit : option Z)
| Clear
| RecordOutcome (success : bool).

Section Perform.

Variable urlparse : string -> option Batch.ParseResult.
Variable parse_qs : string -> string -> option (list string).
Variable _resolve_playlist_download_path : option Batch.Info.t -> string -> string.

(** The manager after an operation, whatever the call returned. *)
Definition perform (op : Operation) (m : Batch.BatchModeManager)
  : Batch.BatchModeManager :=
  match op with
  | Enqueue url queue_limit => snd (Batch.add_to_batch urlparse parse_qs url queue_limit m)
  | DequeueNext => snd (Batch.get_next_batch_item _resolve_playlist_download_path m)
  | Remove index => Batch.remove_from_queue index m
  | Move from_index to_index => snd (Batch.move_in_queue from_index to_index m)
  | Trim limit => Batch.trim_queue_to_limit limit m
  | EnforceLimit limit => Batch.enforce_playlist_limit limit m
  | Clear => Batch.clear_batch_queue m
  | RecordOutcome success => Batch.mark_download_completed success m
  end.

End Perform.

(** An address of a single video as the queue stores it: nothing to strip,
    not empty, not of the shape of a playlist and not of the shape of a
    placeholder. *)
Definition plain_url (urlparse : string -> option Batch.ParseResult)
    (parse_qs : string -> string -> option (list string)) (url : string) : Prop :=
  Py.strip url = url /\
  Py.truthy url = true /\
  Batch.is_playlist_url urlparse parse_qs url = false /\
  String.prefix "PLAYLIST_ITEM_" url = false.

(** The delay the handler looks up before retry number [attempt]. *)
Definition scheduled_delay (delays : list Z) (attempt : Z) : option Z :=
  Py.getitem delays (Z.min (attempt - 1) (Py.len delays - 1)).

(** The sleeps and the calls among the effects of a run, in the order they
    happened; the signals are left out. *)
Definition steps (es : list Retry.Effect) : list Retry.Effect :=
  filter (fun e => match e with Retry.Emit _ => false | _ => true end) es.

(** A first call and then, for every later call, the sleep before it and
    the call. *)
Definition timeline (first : option string) (later : list (Z * option string))
  : list Retry.Effect :=
  Retry.Invoke first
  :: flat_map (fun p => [Retry.Sleep (fst p); Retry.Invoke (snd p)]) later.

Section Sequences.

Variable urlparse : string -> option Batch.ParseResult.
Variable parse_qs : string -> string -> option (list string).
Variable _resolve_playlist_download_path : option Batch.Info.t -> string -> string.

(** [add_to_batch(url, queue_limit)] for each address in turn. *)
Fixpoint enqueue_all (urls : list string) (queue_limit : option Z)
    (m : Batch.BatchModeManager) : Batch.BatchModeManager :=
  match urls with
  | [] => m
  | url :: rest =>
      enqueue_all rest queue_limit
        (snd (Batch.add_to_batch urlparse parse_qs url queue_limit m))
  end.

(** [get_next_batch_item()] called [n] times: the results in order, then
    the manager. *)
Fixpoint dequeue_n (n : nat) (m : Batch.BatchModeManager)
  : list (PyResult (option Batch.Item.t)) * Batch.BatchModeManager :=
  match n with
  | O => ([], m)
  | S n' =>
      let '(item, m1) :=
        Batch.get_next_batch_item _resolve_playlist_download_path m in
      let '(items, m2) := dequeue_n n' m1 in
      (item :: items, m2)
  end.

End Sequences.

(** The number of items a resolved playlist puts in the queue: the reported
    count, cut by the queue limit and by the sticky cap where they are
    positive. *)
Definition playlist_items (video_count : Z) (queue_limit sticky_cap : option Z) : Z :=
  let n := video_count in
  let n := match queue_limit with
           | Some q => if 0 <? q then Z.min n q else n
           | None => n
           end in
  match sticky_cap with
  | Some p => if 0 <? p then Z.min n p else n
  | None => n
  end.

(** Every character of a string passes a test. *)
Fixpoint all_chars (test : ascii -> bool) (s : string) : bool :=
  match s with
  | EmptyString => true
  | String c s' => test c && all_chars test s'
  end.

(** One of the characters 0 to 9. *)
Definition is_digit (c : ascii) : bool :=
  match Py.digit_value c with
  | Some _ => true
  | None => false
  end.

(** ** More string operations of Python *)

Module PyStr.

(** [len(s)] *)
Definition len (s : string) : Z := Z.of_nat (String.length s).

(** [s.lstrip(c)], [s.rstrip(c)] and [s.strip(c)] for a single character. *)
Fixpoint lstrip_char (c : ascii) (s : string) : string :=
  match s with
  | EmptyString => EmptyString
  | String a s' => if Ascii.eqb a c then lstrip_char c s' else s
  end.

Fixpoint rstrip_char (c : ascii) (s : string) : string :=
  match s with
  | EmptyString => EmptyString
  | String a s' =>
      match rstrip_char c s' with
      | EmptyString => if Ascii.eqb a c then EmptyString else String a EmptyString
      | r => String a r
      end
  end.

Definition strip_char (c : ascii) (s : string) : string :=
  rstrip_char c (lstrip_char c s).

(** [s[:n]] for [n >= 0]. *)
Definition take (n : Z) (s : string) : string := String.substring 0 (Z.to_nat n) s.

(** [s[:-1]] *)
Definition drop_last (s : string) : string :=
  String.substring 0 (String.length s - 1) s.

(** [s.split(sep)] for a single character. *)
Fixpoint split (sep : ascii) (s : string) : list string :=
  match s with
  | EmptyString => [EmptyString]
  | String c s' =>
      if Ascii.eqb c sep then EmptyString :: split sep s'
      else match split sep s' with
           | [] => [String c EmptyString]
           | part :: parts => String c part :: parts
           end
  end.

(** [s.endswith(suffix)] *)
Fixpoint endswith (suffix s : string) : bool :=
  if String.eqb suffix s then true
  else match s with
       | EmptyString => false
       | String _ s' => endswith suffix s'
       end.

End PyStr.

(** ** batchmode.py: folder names, status and preview *)

Module BatchView.

(** The characters of the class in the pattern of [re.sub]: backslash,
    slash, colon, star, question mark, double quote, less, greater, bar. *)
Definition invalid_path_chars : list ascii :=
  [ ascii_of_nat 92; "/"; ":"; ascii_of_nat 42; "?"; ascii_of_nat 34;
    "<"; ">"; "|" ]%char.

Definition invalid_path_char (c : ascii) : bool :=
  existsb (Ascii.eqb c) invalid_path_chars.

(** [re.sub(pattern, '_', s)] for the pattern of one or more characters of
    the class: every longest run of such characters becomes one underscore;
    [in_run] tells that the character before was of the class. *)
Fixpoint sub_invalid_runs (in_run : bool) (s : string) : string :=
  match s with
  | EmptyString => EmptyString
  | String c s' =>
      if invalid_path_char c then
        if in_run then sub_invalid_runs true s'
        else String "_" (sub_invalid_runs true s')
      else String c (sub_invalid_runs false s')
  end.

(** [_sanitize_folder_name(name)] *)
Definition _sanitize_folder_name (name : string) : string :=
  let name := sub_invalid_runs false (if Py.truthy name then name else "Playlist") in
  let name := PyStr.strip_char "." (Py.strip name) in
  if 100 <? PyStr.len name then PyStr.take 100 name else name.

(** The dictionary returned by [get_batch_status]. *)
Record Status : Type := mkStatus {
  is_active : bool;
  queue_size : Z;
  current_index : Z;
  successful : Z;
  failed : Z;
  remaining : Z;
  (** title, total_videos, current_video *)
  playlist : option (string * Z * Z)
}.

(** [get_batch_status()] *)
Definition get_batch_status (m : Batch.BatchModeManager) : Status :=
  {| is_active := Batch.is_batch_mode m;
     queue_size := Py.len (Batch.batch_queue m);
     current_index := Batch.current_batch_index m;
     successful := Batch.successful_downloads m;
     failed := Batch.failed_downloads m;
     remaining := Py.len (Batch.batch_queue m) - Batch.current_batch_index m;
     playlist :=
       match Batch.current_playlist_info m with
       | Some info =>
           Some (Batch.Info.title info, Batch.Info.video_count info,
                 Batch.playlist_current_index m)
       | None => None
       end |}.

(** One dictionary of the list returned by [get_queue_preview]. *)
Record PreviewItem : Type := mkPreviewItem {
  index : Z;
  status : string;
  title : string;
  url : string
}.

(** The body of the loop of [get_queue_preview] for entry [i]. *)
Definition preview_item (m : Batch.BatchModeManager) (i : Z) (queue_item : string)
  : PreviewItem :=
  let status := if i <? Batch.current_batch_index m then "completed" else "pending" in
  if String.prefix "PLAYLIST_ITEM_" queue_item then
    let parts := PyStr.split "_" queue_item in
    let item_index :=
      if 3 <=? Py.len parts then
        match Py.getitem parts 2 with
        | Some part =>
            match Py.int_of_str part with
            | Some n => n
            | None => i + 1
            end
        | None => i + 1
        end
      else i + 1 in
    let title :=
      match Batch.current_playlist_info m with
      | Some info => Batch.Info.title info ++ " - Video #" ++ Py.str_int item_index
      | None => "Playlist Video #" ++ Py.str_int item_index
      end in
    mkPreviewItem i status title ("Playlist item " ++ Py.str_int item_index)
  else
    mkPreviewItem i status ("Video: " ++ queue_item) queue_item.

(** [enumerate(queue)] from a start index. *)
Fixpoint enumerate_from {A : Type} (i : Z) (l : list A) : list (Z * A) :=
  match l with
  | [] => []
  | x :: rest => (i, x) :: enumerate_from (i + 1) rest
  end.

(** [get_queue_preview()] *)
Definition get_queue_preview (m : Batch.BatchModeManager) : list PreviewItem :=
  map (fun entry => preview_item m (fst entry) (snd entry))
      (enumerate_from 0 (Batch.batch_queue m)).

End BatchView.

(** ** process.py: the format selector *)

Module Process.

(** The fields of [DownloadThread] read by [get_format_selector]. *)
Record DownloadThread : Type := mkDownloadThread {
  resolution : string;
  preferred_video_format : string;
  preferred_audio_format : string;
  ffmpeg_available : bool
}.

(** [get_format_selector()], without what it writes to the log. *)
Definition get_format_selector (t : DownloadThread) : string :=
  if String.eqb (resolution t) "Audio" then
    if String.eqb (preferred_audio_format t) "m4a"
       || String.eqb (preferred_audio_format t) "aac"
    then "bestaudio[ext=m4a]/bestaudio[ext=webm]/bestaudio/best"
    else if String.eqb (preferred_audio_format t) "opus"
            || String.eqb (preferred_audio_format t) "webm"
    then "bestaudio[ext=webm]/bestaudio[acodec*=opus]/bestaudio/best"
    else if String.eqb (preferred_audio_format t) "mp3"
    then "bestaudio/best"
    else "bestaudio/best"
  else
    let height := PyStr.drop_last (resolution t) in
    if ffmpeg_available t then
      if String.eqb (preferred_video_format t) "mp4" then
        "bestvideo[height=" ++ height ++ "][ext=mp4]+bestaudio[ext=m4a]/"
        ++ "bestvideo[height=" ++ height ++ "][ext=mp4]+bestaudio/"
        ++ "bestvideo[height<=" ++ height ++ "][ext=mp4]+bestaudio[ext=m4a]/"
        ++ "bestvideo[height<=" ++ height ++ "][ext=mp4]+bestaudio/"
        ++ "best[height=" ++ height ++ "][ext=mp4]/"
        ++ "best[height<=" ++ height ++ "][ext=mp4]/"
        ++ "best"
      else if String.eqb (preferred_video_format t) "webm" then
        "bestvideo[height=" ++ height ++ "][ext=webm]+bestaudio[ext=webm]/"
        ++ "bestvideo[height=" ++ height ++ "][ext=webm]+bestaudio/"
        ++ "bestvideo[height<=" ++ height ++ "][ext=webm]+bestaudio[ext=webm]/"
        ++ "bestvideo[height<=" ++ height ++ "][ext=webm]+bestaudio/"
        ++ "best[height=" ++ height ++ "][ext=webm]/"
        ++ "best[height<=" ++ height ++ "][ext=webm]/"
        ++ "best"
      else if String.eqb (preferred_video_format t) "mkv" then
        "bestvideo[height=" ++ height ++ "]+bestaudio/"
        ++ "bestvideo[height<=" ++ height ++ "]+bestaudio/"
        ++ "best[height=" ++ height ++ "]/"
        ++ "best[height<=" ++ height ++ "]/"
        ++ "best"
      else
        "bestvideo[height=" ++ height ++ "]+bestaudio/"
        ++ "bestvideo[height<=" ++ height ++ "]+bestaudio/"
        ++ "best[height=" ++ height ++ "]/"
        ++ "best[height<=" ++ height ++ "]/"
        ++ "best"
    else
      if String.eqb (preferred_video_format t) "mp4"
         || String.eqb (preferred_video_format t) "webm"
      then
        "best[height=" ++ height ++ "][ext=" ++ preferred_video_format t ++ "]/"
        ++ "best[ext=" ++ preferred_video_format t ++ "]/"
        ++ "best[height<=" ++ height ++ "]/best"
      else "best[height=" ++ height ++ "]/best[height<=" ++ height ++ "]/best".

End Process.

(** A download that returns at once, in a world that records the addresses
    downloaded. *)
Definition instant_download (url : string) (downloaded : list string)
  : PyResult unit * list string * bool :=
  (Ok tt, (downloaded ++ [url])%list, false).
(** * Properties *)

(** ** Strings *)

Lemma prefix_lower (p s : string) :
  String.prefix p s = true -> String.prefix (Py.lower p) (Py.lower s) = true.
Proof.
  revert s; induction p as [|c p IH]; intros s.
  - destruct s; reflexivity.
  - destruct s as [|d s]; simpl; [intros H; discriminate H|].
    destruct (ascii_dec c d) as [Heq|Hne]; [|intros H; discriminate H].
    subst d. intros H.
    destruct (ascii_dec (Py.lower_char c) (Py.lower_char c)); [|congruence].
    now apply IH.
Qed.

Lemma contains_lower (p s : string) :
  Py.contains p s = true -> Py.contains (Py.lower p) (Py.lower s) = true.
Proof.
  induction s as [|d s IH]; cbn -[String.prefix].
  - destruct (String.prefix p "") eqn:E; [|intros H; discriminate H].
    apply prefix_lower in E. cbn -[String.prefix] in E. now rewrite E.
  - destruct (String.prefix p (String d s)) eqn:E; intros H.
    + apply prefix_lower in E. cbn -[String.prefix] in E. now rewrite E.
    + rewrite (IH H). destruct (String.prefix (Py.lower p) _); reflexivity.
Qed.

(** Every pattern of the two lists is already in lower case. *)
Lemma patterns_lower_case (p : string) :
  In p Retry.non_retryable_patterns \/ In p Retry.retryable_patterns -> Py.lower p = p.
Proof.
  intros [H|H]; simpl in H;
    repeat (destruct H as [<-|H]; [reflexivity|]); contradiction.
Qed.

(** A pattern found in the text as it is written is also found in its
    lower-case form. *)
Lemma pattern_found_in_lower (p e : string) :
  In p Retry.non_retryable_patterns \/ In p Retry.retryable_patterns ->
  Py.contains p e = true \/ Py.contains p (Py.lower e) = true ->
  Py.contains p (Py.lower e) = true.
Proof.
  intros Hp [H|H]; [|exact H].
  rewrite <- (patterns_lower_case p Hp). now apply contains_lower.
Qed.

Example lower_example : Py.lower "ERROR: Private Video" = "error: private video".
Proof. reflexivity. Qed.

Example strip_example : Py.strip "  https://youtu.be/a  " = "https://youtu.be/a".
Proof. reflexivity. Qed.

Example contains_example :
  Py.contains "timeout" "read timeout" = true /\ Py.contains "dns" "read timeout" = false.
Proof. split; reflexivity. Qed.

Example placeholder_number_example :
  Py.int_of_str (Py.split_last "_" "PLAYLIST_ITEM_12") = Some 12 /\
  Py.int_of_str (Py.split_last "_" "PLAYLIST_ITEM_") = None.
Proof. split; reflexivity. Qed.

Example getitem_example :
  Py.getitem [30; 60; 180] 2 = Some 180 /\
  Py.getitem [30; 60; 180] (-1) = Some 180 /\
  Py.getitem [30; 60; 180] 3 = None.
Proof. repeat split; reflexivity. Qed.

(** ** The retry handler *)

(** The delay before retry [attempt] under the schedule 30, 60, 180: the
    last entry serves for every later retry. *)
Example delay_schedule_example :
  map (fun attempt => Py.getitem [30; 60; 180] (Z.min (attempt - 1) (Py.len [30; 60; 180] - 1)))
      [1; 2; 3; 5]
  = [Some 30; Some 60; Some 180; Some 180].
Proof. reflexivity. Qed.

Example classification_example :
  Retry._is_retryable_error "HTTP Error 503: Service Unavailable" = true /\
  Retry._is_retryable_error "Video unavailable: connection reset" = false /\
  Retry._is_retryable_error "Download cancelled by user" = false.
Proof. repeat split; reflexivity. Qed.

Lemma fatal_pattern_not_retryable (e p : string) :
  In p Retry.non_retryable_patterns ->
  Py.contains p (Py.lower e) = true ->
  Retry._is_retryable_error e = false.
Proof.
  intros Hin Hc. unfold Retry._is_retryable_error.
  replace (existsb _ Retry.non_retryable_patterns) with true; [reflexivity|].
  symmetry. apply existsb_exists. now exists p.
Qed.

(** C6. An error whose text matches no pattern of the fatal list and no
    pattern of the retryable list is classified as retryable. *)
Theorem unknown_error_is_retryable (e : string) :
  (forall p, In p Retry.non_retryable_patterns -> Py.contains p (Py.lower e) = false) ->
  (forall p, In p Retry.retryable_patterns -> Py.contains p (Py.lower e) = false) ->
  Retry._is_retryable_error e = true.
Proof.
  intros Hfatal _. unfold Retry._is_retryable_error.
  destruct (existsb _ Retry.non_retryable_patterns) eqn:E.
  - apply existsb_exists in E. destruct E as [p [Hin Hc]].
    rewrite (Hfatal p Hin) in Hc. discriminate.
  - now destruct (existsb _ Retry.retryable_patterns).
Qed.

Lemma unknown_error_is_retryable_witness :
  Retry._is_retryable_error "No space left on device" = true.
Proof.
  apply unknown_error_is_retryable; intros p H; simpl in H;
    repeat (destruct H as [<-|H]; [reflexivity|]); contradiction.
Defined.

Section RetryFacts.

Variables W V : Type.
Variable func : W -> PyResult V * W * bool.
Variable sleep : Z -> W -> W * bool.

Local Abbreviation attempts := (Retry.attempts W V func sleep).
Local Abbreviation try_body := (Retry.try_body W V func sleep).
Local Abbreviation execute_with_retry := (Retry.execute_with_retry W V func sleep).

Lemma invocations_app (es1 es2 : list Retry.Effect) :
  Retry.invocations (es1 ++ es2) = (Retry.invocations es1 ++ Retry.invocations es2)%list.
Proof. unfold Retry.invocations. apply flat_map_app. Qed.

Lemma range_nonempty (n : Z) :
  0 <= n -> exists k, Z.to_nat (n + 1) = S k /\ Z.of_nat k = n.
Proof.
  intros H. exists (Z.to_nat n). split; [|lia].
  rewrite Z2Nat.inj_add by lia. simpl. lia.
Qed.

(** C5. With the cancelled flag set the run ends with the cancellation
    exception and has called nothing, slept for nothing and emitted
    nothing; and every iteration of the loop, whatever the attempt
    number, begins with that test: the state it is entered with is the
    state it leaves, so no sleep and no call of the executor come first. *)
Theorem cancelled_flag_checked_first :
  (forall h w,
      0 <= Retry.max_retries h ->
      Retry._is_cancelled h = true ->
      execute_with_retry h w
      = (Exn "Retry cancelled by user", Retry.mkRun h w [])) /\
  (forall n attempt last_exception r,
      Retry._is_cancelled (Retry.handler r) = true ->
      attempts (S n) attempt last_exception r
      = (Exn "Retry cancelled by user", r)).
Proof.
  assert (Hiter : forall n attempt last_exception r,
             Retry._is_cancelled (Retry.handler r) = true ->
             attempts (S n) attempt last_exception r
             = (Exn "Retry cancelled by user", r)).
  { intros n attempt last_exception r H. simpl. now rewrite H. }
  split; [|exact Hiter].
  intros h w Hmax Hc. unfold Retry.execute_with_retry.
  destruct (range_nonempty _ Hmax) as [k [-> _]].
  now apply Hiter.
Qed.

(** C4. When the first call fails with a text that holds a pattern of
    the fatal list, also when it holds retryable patterns as well, the run
    ends with that error after this one call, whatever [max_retries] is:
    no signal, no sleep, no second call. *)
Theorem fatal_error_ends_run_after_one_call
    (h : Retry.RetryHandler) (w w' : W) (e pattern : string) (c : bool) :
  0 <= Retry.max_retries h ->
  Retry._is_cancelled h = false ->
  func w = (Exn e, w', c) ->
  In pattern Retry.non_retryable_patterns ->
  Py.contains pattern e = true \/ Py.contains pattern (Py.lower e) = true ->
  exists r,
    execute_with_retry h w = (Exn e, r) /\
    Retry.effects r = [Retry.Invoke (Some e)] /\
    Retry.invocations (Retry.effects r) = [Some e] /\
    Retry.world r = w'.
Proof.
  intros Hmax Hc Hf Hin Hcontains.
  assert (Hfatal : Retry._is_retryable_error e = false).
  { apply (fatal_pattern_not_retryable e pattern Hin).
    apply pattern_found_in_lower; auto. }
  unfold Retry.execute_with_retry.
  destruct (range_nonempty _ Hmax) as [k [-> _]].
  exists (Retry.mkRun (Retry.note_cancel c h) w' [Retry.Invoke (Some e)]).
  simpl. rewrite Hc. unfold Retry.try_body, Retry.call_func. simpl.
  rewrite Hf. simpl. rewrite Hfatal. simpl. auto.
Qed.

(** The delay looked up before a retry exists and is not negative. *)
Lemma delay_lookup (delays : list Z) (attempt : Z) :
  delays <> [] -> Forall (fun d => 0 <= d) delays -> 0 < attempt ->
  exists d, Py.getitem delays (Z.min (attempt - 1) (Py.len delays - 1)) = Some d
            /\ 0 <= d.
Proof.
  intros Hne Hall Hatt. unfold Py.getitem, Py.len.
  assert (Hlen : (0 < List.length delays)%nat).
  { destruct delays; [congruence|simpl; lia]. }
  set (i := Z.min (attempt - 1) (Z.of_nat (List.length delays) - 1)).
  assert (Hi : 0 <= i < Z.of_nat (List.length delays)) by (unfold i; lia).
  replace (0 <=? i) with true by (symmetry; apply Z.leb_le; lia).
  replace (i <? Z.of_nat (List.length delays)) with true
    by (symmetry; apply Z.ltb_lt; lia).
  simpl.
  destruct (nth_error delays (Z.to_nat i)) as [d|] eqn:E.
  - exists d. split; [reflexivity|].
    apply nth_error_In in E. rewrite Forall_forall in Hall. now apply Hall.
  - apply nth_error_None in E. lia.
Qed.

Section AlwaysFailing.

(** Every call fails with a retryable error and nobody cancels. *)
Hypothesis func_fails : forall w,
    exists e w', func w = (Exn e, w', false) /\ Retry._is_retryable_error e = true.
Hypothesis sleep_quiet : forall d w, snd (sleep d w) = false.

Lemma failing_attempt (attempt : Z) (last_exception : option string) (r : Retry.Run W) :
  0 <= attempt ->
  Retry.retry_delays (Retry.handler r) <> [] ->
  Forall (fun d => 0 <= d) (Retry.retry_delays (Retry.handler r)) ->
  exists e r',
    try_body attempt last_exception r = (Exn e, r') /\
    Retry._is_retryable_error e = true /\
    Retry.handler r' = Retry.handler r /\
    Retry.invocations (Retry.effects r')
    = (Retry.invocations (Retry.effects r) ++ [Some e])%list.
Proof.
  intros Hatt Hne Hall. unfold Retry.try_body.
  destruct (0 <? attempt) eqn:Epos.
  - apply Z.ltb_lt in Epos.
    destruct (delay_lookup _ attempt Hne Hall Epos) as [d [-> Hd]].
    unfold Retry.do_sleep.
    replace (d <? 0) with false by (symmetry; apply Z.ltb_ge; lia).
    match goal with
    | |- context [sleep d ?w0] =>
        pose proof (sleep_quiet d w0) as Hq; destruct (sleep d w0) as [w1 c1]
    end.
    simpl in Hq. subst c1.
    unfold Retry.call_func. simpl.
    destruct (func_fails w1) as [e [w2 [Hf Hr]]]. rewrite Hf. simpl.
    exists e. eexists. split; [reflexivity|]. simpl.
    repeat split; auto.
    rewrite !invocations_app. simpl. now rewrite !app_nil_r.
  - unfold Retry.call_func. simpl.
    destruct (func_fails (Retry.world r)) as [e [w2 [Hf Hr]]]. rewrite Hf. simpl.
    exists e. eexists. split; [reflexivity|]. simpl.
    repeat split; auto.
    now rewrite invocations_app.
Qed.

Lemma attempts_all_fail (k : nat) :
  forall (attempt : Z) (last_exception : option string) (r : Retry.Run W),
    Retry._is_cancelled (Retry.handler r) = false ->
    0 <= attempt ->
    Retry.max_retries (Retry.handler r) = attempt + Z.of_nat k ->
    Retry.retry_delays (Retry.handler r) <> [] ->
    Forall (fun d => 0 <= d) (Retry.retry_delays (Retry.handler r)) ->
    exists es e r',
      attempts (S k) attempt last_exception r = (Exn e, r') /\
      Retry.invocations (Retry.effects r')
      = (Retry.invocations (Retry.effects r) ++ map Some (es ++ [e]))%list /\
      List.length es = k.
Proof.
  induction k as [|k IH]; intros attempt last_exception r Hc Hatt Hmax Hne Hall.
  - destruct (failing_attempt attempt last_exception r Hatt Hne Hall)
      as [e [r1 [Hbody [Hr [Hh Hinv]]]]].
    exists [], e. eexists. simpl. rewrite Hc, Hbody, Hr. simpl.
    rewrite Hh. replace (attempt =? Retry.max_retries (Retry.handler r)) with true
      by (symmetry; apply Z.eqb_eq; lia).
    split; [reflexivity|]. simpl. split; [|reflexivity].
    rewrite invocations_app. simpl. now rewrite app_nil_r.
  - destruct (failing_attempt attempt last_exception r Hatt Hne Hall)
      as [e [r1 [Hbody [Hr [Hh Hinv]]]]].
    destruct (IH (attempt + 1) (Some e) r1) as [es [e' [r' [Hrun [Hinv' Hlen]]]]];
      try (rewrite Hh; auto); try lia.
    exists (e :: es), e', r'.
    change (attempts (S (S k)) attempt last_exception r)
      with (if Retry._is_cancelled (Retry.handler r)
            then (Exn "Retry cancelled by user", r)
            else match try_body attempt last_exception r with
                 | (Ok result, r1) => (Ok result, r1)
                 | (Exn e, r1) =>
                     if negb (Retry._is_retryable_error e) then (Exn e, r1)
                     else if attempt =? Retry.max_retries (Retry.handler r1) then
                            (Exn e,
                              Retry.emit W
                                (Retry.retry_failed
                                   ("Download failed after "
                                      ++ Py.str_int (Retry.max_retries (Retry.handler r1))
                                      ++ " retry attempts: " ++ e)) r1)
                          else attempts (S k) (attempt + 1) (Some e) r1
                 end).
    rewrite Hc, Hbody, Hr. simpl negb. cbv iota.
    rewrite Hh. replace (attempt =? Retry.max_retries (Retry.handler r)) with false
      by (symmetry; apply Z.eqb_neq; lia).
    split; [exact Hrun|]. split; [|simpl; lia].
    rewrite Hinv', Hinv. rewrite <- app_assoc. reflexivity.
Qed.

(** C3. With [max_retries = 3] and an executor that fails with a
    retryable error at every call, the run makes exactly four calls, one
    first attempt and three retries, and ends with the error of the
    fourth.  The four calls are calls of the executor: the first in the
    world the run starts in, each later one in the world the call before
    it and the scheduled sleep have left; the run raises what the fourth
    raised and leaves the world the fourth left; between the calls it
    only announces the retry and sleeps, and after the fourth it
    announces the failure. *)
Theorem retry_budget_of_three_gives_four_calls (h : Retry.RetryHandler) (w : W) :
  Retry.max_retries h = 3 ->
  Retry._is_cancelled h = false ->
  Retry.retry_delays h <> [] ->
  Forall (fun d => 0 <= d) (Retry.retry_delays h) ->
  exists e1 e2 e3 e4 w1 w2 w3 w4 d1 d2 d3 r,
    func w = (Exn e1, w1, false) /\
    func (fst (sleep d1 w1)) = (Exn e2, w2, false) /\
    func (fst (sleep d2 w2)) = (Exn e3, w3, false) /\
    func (fst (sleep d3 w3)) = (Exn e4, w4, false) /\
    scheduled_delay (Retry.retry_delays h) 1 = Some d1 /\
    scheduled_delay (Retry.retry_delays h) 2 = Some d2 /\
    scheduled_delay (Retry.retry_delays h) 3 = Some d3 /\
    execute_with_retry h w = (Exn e4, r) /\
    Retry.handler r = h /\
    Retry.world r = w4 /\
    Retry.effects r
    = [ Retry.Invoke (Some e1);
        Retry.Emit (Retry.retry_attempt 1 3 e1); Retry.Sleep d1;
        Retry.Invoke (Some e2);
        Retry.Emit (Retry.retry_attempt 2 3 e2); Retry.Sleep d2;
        Retry.Invoke (Some e3);
        Retry.Emit (Retry.retry_attempt 3 3 e3); Retry.Sleep d3;
        Retry.Invoke (Some e4);
        Retry.Emit (Retry.retry_failed
                      ("Download failed after 3 retry attempts: " ++ e4)) ] /\
    Retry.invocations (Retry.effects r) = [Some e1; Some e2; Some e3; Some e4] /\
    List.length (Retry.invocations (Retry.effects r)) = 4%nat.
Proof.
  intros Hmax Hc Hne Hall.
  destruct h as [budget delays cancelled]. cbn in Hmax, Hc, Hne, Hall. subst.
  destruct (func_fails w) as [e1 [w1 [F1 R1]]].
  destruct (delay_lookup delays 1 Hne Hall) as [d1 [D1 N1]]; [lia|].
  destruct (sleep d1 w1) as [w1' c1] eqn:S1.
  pose proof (sleep_quiet d1 w1) as Q1. rewrite S1 in Q1. cbn in Q1. subst c1.
  destruct (func_fails w1') as [e2 [w2 [F2 R2]]].
  destruct (delay_lookup delays 2 Hne Hall) as [d2 [D2 N2]]; [lia|].
  destruct (sleep d2 w2) as [w2' c2] eqn:S2.
  pose proof (sleep_quiet d2 w2) as Q2. rewrite S2 in Q2. cbn in Q2. subst c2.
  destruct (func_fails w2') as [e3 [w3 [F3 R3]]].
  destruct (delay_lookup delays 3 Hne Hall) as [d3 [D3 N3]]; [lia|].
  destruct (sleep d3 w3) as [w3' c3] eqn:S3.
  pose proof (sleep_quiet d3 w3) as Q3. rewrite S3 in Q3. cbn in Q3. subst c3.
  destruct (func_fails w3') as [e4 [w4 [F4 R4]]].
  apply Z.ltb_ge in N1, N2, N3.
  exists e1, e2, e3, e4, w1, w2, w3, w4, d1, d2, d3.
  eexists.
  rewrite S1, S2, S3. cbn [fst Retry.retry_delays].
  split; [exact F1|]. split; [exact F2|]. split; [exact F3|]. split; [exact F4|].
  split; [exact D1|]. split; [exact D2|]. split; [exact D3|].
  split.
  { unfold Retry.execute_with_retry. cbn [Retry.max_retries].
    change (Z.to_nat (3 + 1)) with 4%nat.
    cbn [Retry.attempts Retry.handler Retry._is_cancelled].
    unfold Retry.try_body at 1.
    cbn [Z.ltb Z.compare Retry.handler Retry.retry_delays Retry.max_retries].
    unfold Retry.call_func at 1. cbn [Retry.world Retry.handler Retry.effects].
    rewrite F1. cbn [Retry.note_cancel app]. rewrite R1. cbn [negb].
    cbn [Retry.handler Retry.max_retries Z.eqb Retry._is_cancelled Z.add Pos.add].
    unfold Retry.try_body at 1.
    cbn [Z.ltb Z.compare Retry.handler Retry.retry_delays Retry.max_retries].
    rewrite D1. unfold Retry.do_sleep, Retry.emit.
    cbn [Retry.world Retry.handler Retry.effects]. rewrite N1, S1.
    unfold Retry.call_func at 1. cbn [Retry.world Retry.handler Retry.effects].
    rewrite F2. cbn [Retry.note_cancel]. rewrite R2. cbn [negb].
    cbn [Retry.handler Retry.max_retries Z.eqb Retry._is_cancelled Z.add Pos.add
         Pos.eqb Pos.succ].
    unfold Retry.try_body at 1.
    cbn [Z.ltb Z.compare Retry.handler Retry.retry_delays Retry.max_retries].
    rewrite D2. unfold Retry.do_sleep, Retry.emit.
    cbn [Retry.world Retry.handler Retry.effects]. rewrite N2, S2.
    unfold Retry.call_func at 1. cbn [Retry.world Retry.handler Retry.effects].
    rewrite F3. cbn [Retry.note_cancel]. rewrite R3. cbn [negb].
    cbn [Retry.handler Retry.max_retries Z.eqb Retry._is_cancelled Z.add Pos.add
         Pos.eqb Pos.succ].
    unfold Retry.try_body at 1.
    cbn [Z.ltb Z.compare Retry.handler Retry.retry_delays Retry.max_retries].
    rewrite D3. unfold Retry.do_sleep, Retry.emit.
    cbn [Retry.world Retry.handler Retry.effects]. rewrite N3, S3.
    unfold Retry.call_func at 1. cbn [Retry.world Retry.handler Retry.effects].
    rewrite F4. cbn [Retry.note_cancel]. rewrite R4. cbn [negb].
    cbn [Retry.handler Retry.max_retries Z.eqb Retry._is_cancelled Z.add Pos.add
         Pos.eqb Pos.succ].
    reflexivity. }
  cbn [Retry.handler Retry.world Retry.effects Retry.emit].
  repeat split; reflexivity.
Qed.

End AlwaysFailing.

End RetryFacts.

Lemma cancelled_flag_checked_first_witness :
  Retry.execute_with_retry nat unit Scenario.always_timeout Scenario.quiet_sleep
    (Retry.cancel (Retry.create_download_retry_handler 3 None)) 0%nat
  = (Exn "Retry cancelled by user",
     Retry.mkRun (Retry.cancel (Retry.create_download_retry_handler 3 None)) 0%nat []) /\
  Retry.attempts nat unit Scenario.always_timeout Scenario.quiet_sleep 2 2
    (Some "Connection timeout") Scenario.cancelled_after_two_calls
  = (Exn "Retry cancelled by user", Scenario.cancelled_after_two_calls).
Proof.
  destruct (cancelled_flag_checked_first nat unit Scenario.always_timeout
              Scenario.quiet_sleep) as [Hrun Hiteration].
  split.
  - apply Hrun; [simpl; lia|reflexivity].
  - apply Hiteration. reflexivity.
Defined.

Lemma fatal_error_ends_run_after_one_call_witness :
  exists r,
    Retry.execute_with_retry nat unit Scenario.private_video Scenario.quiet_sleep
      (Retry.create_download_retry_handler 3 None) 0%nat
    = (Exn "ERROR: Private video (network unreachable)", r) /\
    Retry.effects r = [Retry.Invoke (Some "ERROR: Private video (network unreachable)")] /\
    Retry.invocations (Retry.effects r)
    = [Some "ERROR: Private video (network unreachable)"] /\
    Retry.world r = 1%nat.
Proof.
  apply (fatal_error_ends_run_after_one_call nat unit Scenario.private_video
           Scenario.quiet_sleep (Retry.create_download_retry_handler 3 None)
           0%nat 1%nat "ERROR: Private video (network unreachable)" "private video" false).
  - simpl. lia.
  - reflexivity.
  - reflexivity.
  - simpl. tauto.
  - right. reflexivity.
Defined.

Lemma retry_budget_of_three_gives_four_calls_witness :
  exists r,
    Retry.execute_with_retry nat unit Scenario.always_timeout Scenario.quiet_sleep
      (Retry.create_download_retry_handler 3 None) 0%nat
    = (Exn "Connection timeout", r) /\
    Retry.world r = 4%nat /\
    Retry.sleeps (Retry.effects r) = [30; 60; 180] /\
    Retry.invocations (Retry.effects r)
    = [Some "Connection timeout"; Some "Connection timeout";
       Some "Connection timeout"; Some "Connection timeout"].
Proof.
  assert (Hfails : forall w : nat,
             exists e w', Scenario.always_timeout w = (Exn e, w', false) /\
                          Retry._is_retryable_error e = true)
    by (intros w; exists "Connection timeout", (S w); split; reflexivity).
  assert (Hquiet : forall (d : Z) (w : nat), snd (Scenario.quiet_sleep d w) = false)
    by reflexivity.
  assert (Hne : Retry.retry_delays (Retry.create_download_retry_handler 3 None) <> [])
    by discriminate.
  assert (Hall : Forall (fun d => 0 <= d)
                   (Retry.retry_delays (Retry.create_download_retry_handler 3 None)))
    by (simpl; repeat constructor; lia).
  destruct (retry_budget_of_three_gives_four_calls nat unit Scenario.always_timeout
              Scenario.quiet_sleep Hfails Hquiet
              (Retry.create_download_retry_handler 3 None) 0%nat
              eq_refl eq_refl Hne Hall)
    as [e1 [e2 [e3 [e4 [w1 [w2 [w3 [w4 [d1 [d2 [d3 [r
         [F1 [F2 [F3 [F4 [D1 [D2 [D3 [Hrun [_ [Hw [Heff _]]]]]]]]]]]]]]]]]]]]]]].
  vm_compute in D1, D2, D3.
  injection D1 as <-. injection D2 as <-. injection D3 as <-.
  unfold Scenario.always_timeout in F1. injection F1 as <- <-. cbn in F2.
  unfold Scenario.always_timeout in F2. injection F2 as <- <-. cbn in F3.
  unfold Scenario.always_timeout in F3. injection F3 as <- <-. cbn in F4.
  unfold Scenario.always_timeout in F4. injection F4 as <- <-.
  exists r. rewrite Hrun, Hw, Heff. repeat split.
Defined.

(** ** The queue manager *)

Example warning_threshold_example :
  map Batch.warning_threshold [1; 3; 5; 10] = [0; 2; 4; 8].
Proof. reflexivity. Qed.

Example placeholders_example :
  Batch.placeholders 3 = ["PLAYLIST_ITEM_1"; "PLAYLIST_ITEM_2"; "PLAYLIST_ITEM_3"].
Proof. reflexivity. Qed.

Example duplicate_is_refused :
  Scenario.add_to_batch " https://youtu.be/a " (Some 10)
    (Scenario.add_all ["https://youtu.be/a"] (Some 10) Scenario.enabled)
  = (false, Scenario.add_all ["https://youtu.be/a"] (Some 10) Scenario.enabled).
Proof. reflexivity. Qed.

Lemma truthy_strip (s : string) : Py.truthy (Py.strip s) = true -> Py.truthy s = true.
Proof. destruct s; [intros H; discriminate H|reflexivity]. Qed.

Lemma len_app {A : Type} (l1 l2 : list A) : Py.len (l1 ++ l2) = Py.len l1 + Py.len l2.
Proof. unfold Py.len. rewrite length_app. lia. Qed.

Lemma len_nonneg {A : Type} (l : list A) : 0 <= Py.len l.
Proof. unfold Py.len. lia. Qed.

Lemma len_delete_at {A : Type} (i : Z) (l : list A) :
  0 <= i < Py.len l -> Py.len (Batch.delete_at i l) = Py.len l - 1.
Proof.
  unfold Py.len, Batch.delete_at. intros H.
  rewrite length_app, length_firstn, length_skipn. lia.
Qed.

Lemma len_insert_at {A : Type} (i : Z) (x : A) (l : list A) :
  Py.len (Batch.insert_at i x l) = Py.len l + 1.
Proof.
  unfold Py.len, Batch.insert_at.
  rewrite length_app. simpl. rewrite length_firstn, length_skipn. lia.
Qed.

Section QueueFacts.

Variable urlparse : string -> option Batch.ParseResult.
Variable parse_qs : string -> string -> option (list string).
Variable _resolve_playlist_download_path : option Batch.Info.t -> string -> string.

Local Abbreviation is_playlist_url := (Batch.is_playlist_url urlparse parse_qs).
Local Abbreviation add_to_batch := (Batch.add_to_batch urlparse parse_qs).
Local Abbreviation get_next_batch_item :=
  (Batch.get_next_batch_item _resolve_playlist_download_path).

(** C7. A plain video URL offered to a queue that has reached the limit
    is refused: the result is [False], [queue_limit_reached] carries the
    current size and nothing else changes.  Below the limit a plain URL
    that is not yet queued is appended and the result is [True]; so once
    one item is removed from a queue that was exactly full, the URL is
    accepted. *)
Theorem capacity_admission (m : Batch.BatchModeManager) (url : string) (limit : Z) :
  Py.truthy (Py.strip url) = true ->
  is_playlist_url (Py.strip url) = false ->
  (limit <= Py.len (Batch.batch_queue m) ->
   add_to_batch url (Some limit) m
   = (false, Batch.emit (Batch.queue_limit_reached (Py.len (Batch.batch_queue m))) m)) /\
  (Py.len (Batch.batch_queue m) < limit ->
   Batch.in_queue (Py.strip url) (Batch.batch_queue m) = false ->
   exists m',
     add_to_batch url (Some limit) m = (true, m') /\
     Batch.batch_queue m' = (Batch.batch_queue m ++ [Py.strip url])%list /\
     Batch.current_batch_index m' = Batch.current_batch_index m /\
     exists more, Batch.emitted m' = (Batch.emitted m ++ Batch.queue_updated :: more)%list) /\
  (Py.len (Batch.batch_queue m) = limit ->
   forall index,
     0 <= index < limit ->
     Batch.in_queue (Py.strip url)
       (Batch.batch_queue (Batch.remove_from_queue index m)) = false ->
     exists m',
       add_to_batch url (Some limit) (Batch.remove_from_queue index m) = (true, m') /\
       Batch.batch_queue m'
       = (Batch.delete_at index (Batch.batch_queue m) ++ [Py.strip url])%list).
Proof.
  intros Hurl Hplain.
  assert (Haccept : forall m0,
             Py.len (Batch.batch_queue m0) < limit ->
             Batch.in_queue (Py.strip url) (Batch.batch_queue m0) = false ->
             exists m',
               add_to_batch url (Some limit) m0 = (true, m') /\
               Batch.batch_queue m' = (Batch.batch_queue m0 ++ [Py.strip url])%list /\
               Batch.current_batch_index m' = Batch.current_batch_index m0 /\
               exists more,
                 Batch.emitted m' = (Batch.emitted m0 ++ Batch.queue_updated :: more)%list).
  { intros m0 Hlt Hnew. unfold Batch.add_to_batch.
    rewrite (truthy_strip url Hurl), Hurl. simpl.
    replace (limit <=? Py.len (Batch.batch_queue m0)) with false
      by (symmetry; apply Z.leb_gt; lia).
    rewrite Hplain, Hnew.
    destruct (Batch.warning_threshold limit <=? _); eexists;
      (split; [reflexivity|]); simpl; repeat split; eexists;
      rewrite <- ?app_assoc; reflexivity. }
  split; [|split].
  - intros Hfull. unfold Batch.add_to_batch.
    rewrite (truthy_strip url Hurl), Hurl. simpl.
    replace (limit <=? Py.len (Batch.batch_queue m)) with true
      by (symmetry; apply Z.leb_le; lia).
    reflexivity.
  - apply Haccept.
  - intros Hfull index Hidx Hnew.
    assert (Hq : Batch.batch_queue (Batch.remove_from_queue index m)
                 = Batch.delete_at index (Batch.batch_queue m)).
    { unfold Batch.remove_from_queue.
      replace ((0 <=? index) && (index <? Py.len (Batch.batch_queue m))) with true
        by (symmetry; apply andb_true_iff; split;
            [apply Z.leb_le|apply Z.ltb_lt]; lia).
      simpl. destruct (index <? Batch.current_batch_index m); reflexivity. }
    destruct (Haccept (Batch.remove_from_queue index m)) as [m' [Hadd [Hq' _]]].
    + rewrite Hq, len_delete_at; lia.
    + exact Hnew.
    + exists m'. split; [exact Hadd|]. now rewrite Hq', Hq.
Qed.

End QueueFacts.

Lemma capacity_admission_witness :
  Scenario.add_to_batch "https://youtu.be/f" (Some 5) Scenario.full5
  = (false, Batch.emit (Batch.queue_limit_reached 5) Scenario.full5) /\
  exists m',
    Scenario.add_to_batch "https://youtu.be/f" (Some 5)
      (Batch.remove_from_queue 0 Scenario.full5) = (true, m') /\
    Batch.batch_queue m'
    = [ "https://youtu.be/b"; "https://youtu.be/c"; "https://youtu.be/d";
        "https://youtu.be/e"; "https://youtu.be/f" ].
Proof.
  destruct (capacity_admission Scenario.urlparse Scenario.parse_qs Scenario.full5
              "https://youtu.be/f" 5 eq_refl eq_refl) as [Hfull [_ Hagain]].
  split.
  - apply Hfull. vm_compute. discriminate.
  - apply (Hagain eq_refl 0); [lia|reflexivity].
Defined.

Section WarningFacts.

Variable urlparse : string -> option Batch.ParseResult.
Variable parse_qs : string -> string -> option (list string).

Local Abbreviation add_to_batch := (Batch.add_to_batch urlparse parse_qs).

(** What the arrival of a playlist emits holds no warning. *)
Lemma playlist_arrival_emits_no_warning (info : Batch.Info.t) (queue_limit : option Z)
    (m : Batch.BatchModeManager) :
  exists new,
    Batch.emitted (Batch.on_playlist_info_extracted info queue_limit m)
    = (Batch.emitted m ++ new)%list /\
    limit_warnings new = [].
Proof.
  unfold Batch.on_playlist_info_extracted.
  cbn [Batch.is_batch_mode Batch.emit Batch.set_playlist_current_index
       Batch.set_current_playlist_info].
  destruct (Batch.is_batch_mode m); cbn [negb];
    destruct queue_limit as [q|]; cbn;
    repeat match goal with
           | |- context [if ?c then _ else _] => destruct c
           end; cbn;
    eexists; (split; [rewrite <- ?app_assoc; reflexivity|reflexivity]).
Qed.

(** C8, as the code has it. [queue_limit_warning(size, limit)] is emitted
    by every call of [add_to_batch] with a limit that appends an item and
    leaves the queue at [int(0.8 * limit)] items or more, whether or not
    the queue had that size before the append; a call that appends
    nothing emits no warning, and neither does a call without a limit.
    The other way items get into the queue, the placeholders that
    [on_playlist_info_extracted] appends for a resolved playlist, emits no
    warning whatever the size. *)
Theorem limit_warning_after_every_append_at_threshold
    (m : Batch.BatchModeManager) (url : string) (limit : Z) :
  let m' := snd (add_to_batch url (Some limit) m) in
  let size := Py.len (Batch.batch_queue m') in
  (exists new,
      Batch.emitted m' = (Batch.emitted m ++ new)%list /\
      limit_warnings new
      = if (size =? Py.len (Batch.batch_queue m) + 1)
           && (Batch.warning_threshold limit <=? size)
        then [(size, limit)] else []) /\
  (exists new,
      Batch.emitted (snd (add_to_batch url None m)) = (Batch.emitted m ++ new)%list /\
      limit_warnings new = []) /\
  (forall (info : Batch.Info.t) (queue_limit : option Z),
      exists new,
        Batch.emitted (Batch.on_playlist_info_extracted info queue_limit m)
        = (Batch.emitted m ++ new)%list /\
        limit_warnings new = []).
Proof.
  assert (Hsame : forall z, (z =? z + 1) = false)
    by (intros z; apply Z.eqb_neq; lia).
  split; [|split; [|intros info queue_limit; apply playlist_arrival_emits_no_warning]].
  - unfold Batch.add_to_batch.
    destruct (negb (Py.truthy url) || negb (Py.truthy (Py.strip url))).
    { exists []. simpl. now rewrite app_nil_r, Hsame. }
    destruct (limit <=? Py.len (Batch.batch_queue m)).
    { eexists. simpl. split; [reflexivity|]. now rewrite Hsame. }
    destruct (Batch.is_playlist_url urlparse parse_qs (Py.strip url)) eqn:Epl.
    { unfold Batch.handle_playlist_url. rewrite Epl. simpl.
      eexists. split; [reflexivity|]. now rewrite Hsame. }
    destruct (Batch.in_queue (Py.strip url) (Batch.batch_queue m)).
    { exists []. simpl. now rewrite app_nil_r, Hsame. }
    simpl.
    destruct (Batch.warning_threshold limit
              <=? Py.len (Batch.batch_queue m ++ [Py.strip url])) eqn:Ew;
      simpl; rewrite Ew, len_app; change (Py.len [Py.strip url]) with 1;
      rewrite Z.eqb_refl; simpl; eexists;
      (split; [rewrite <- ?app_assoc; reflexivity|]); reflexivity.
  - unfold Batch.add_to_batch.
    destruct (negb (Py.truthy url) || negb (Py.truthy (Py.strip url))).
    { exists []. simpl. now rewrite app_nil_r. }
    destruct (Batch.is_playlist_url urlparse parse_qs (Py.strip url)) eqn:Epl.
    { unfold Batch.handle_playlist_url. rewrite Epl. simpl.
      eexists. split; reflexivity. }
    destruct (Batch.in_queue (Py.strip url) (Batch.batch_queue m)).
    { exists []. simpl. now rewrite app_nil_r. }
    simpl. eexists. split; reflexivity.
Qed.

End WarningFacts.

(** C8, as stated, fails. Five plain addresses are added under a limit of
    five; 80% of the limit is four. The sizes go 0, 1, 2, 3, 4, 5 and cross
    that mark once, yet two warnings are emitted: the second append at or
    above the mark warns again. *)
Lemma limit_warning_repeats_above_threshold :
  Scenario.queue_sizes Scenario.five_urls (Some 5) Scenario.enabled = [0; 1; 2; 3; 4; 5] /\
  upward_crossings (Batch.warning_threshold 5)
    (Scenario.queue_sizes Scenario.five_urls (Some 5) Scenario.enabled) = 1%nat /\
  limit_warnings (Batch.emitted Scenario.full5) = [(4, 5); (5, 5)] /\
  List.length (limit_warnings (Batch.emitted Scenario.full5))
  <> upward_crossings (Batch.warning_threshold 5)
       (Scenario.queue_sizes Scenario.five_urls (Some 5) Scenario.enabled).
Proof. vm_compute. repeat split; discriminate. Qed.

(** ** Moving an item *)

Lemma getitem_in_range {A : Type} (l : list A) (i : Z) :
  0 <= i < Py.len l ->
  exists x, Py.getitem l i = Some x /\ nth_error l (Z.to_nat i) = Some x.
Proof.
  intros H. unfold Py.getitem.
  replace ((0 <=? i) && (i <? Py.len l)) with true
    by (symmetry; apply andb_true_iff; split; [apply Z.leb_le|apply Z.ltb_lt]; lia).
  destruct (nth_error l (Z.to_nat i)) as [x|] eqn:E; [now exists x|].
  apply nth_error_None in E. unfold Py.len in H. lia.
Qed.

Lemma nth_error_split_at {A : Type} (l : list A) (n : nat) (x : A) :
  nth_error l n = Some x -> l = (firstn n l ++ x :: skipn (S n) l)%list.
Proof.
  revert l; induction n as [|n IH]; intros [|y l] H; simpl in H; try discriminate.
  - now inversion H.
  - simpl. f_equal. now apply IH.
Qed.

Section MoveFacts.

Variable A : Type.
Variables (l : list A) (from_index to_index : Z) (item : A).
Hypothesis from_ok : 0 <= from_index < Py.len l.
Hypothesis to_ok : 0 <= to_index < Py.len l.
Hypothesis item_at : nth_error l (Z.to_nat from_index) = Some item.

Let moved : list A := Batch.insert_at to_index item (Batch.delete_at from_index l).

Lemma to_within_rest :
  (Z.to_nat to_index <= List.length (Batch.delete_at from_index l))%nat.
Proof.
  pose proof (len_delete_at from_index l from_ok) as H.
  unfold Py.len in *. lia.
Qed.

Lemma moved_permutation : Permutation l moved.
Proof.
  unfold moved, Batch.insert_at.
  rewrite (nth_error_split_at l _ item item_at) at 1.
  apply Permutation_trans with (item :: Batch.delete_at from_index l).
  - symmetry. apply Permutation_middle.
  - rewrite <- (firstn_skipn (Z.to_nat to_index) (Batch.delete_at from_index l)) at 1.
    apply Permutation_middle.
Qed.

Lemma moved_item_at_target : nth_error moved (Z.to_nat to_index) = Some item.
Proof.
  unfold moved, Batch.insert_at. pose proof to_within_rest as H.
  rewrite nth_error_app2 by (rewrite length_firstn; lia).
  rewrite length_firstn. replace (_ - _)%nat with 0%nat by lia. reflexivity.
Qed.

Lemma moved_rest_unchanged :
  Batch.delete_at to_index moved = Batch.delete_at from_index l.
Proof.
  unfold moved, Batch.insert_at. pose proof to_within_rest as H.
  set (rest := Batch.delete_at from_index l) in *.
  unfold Batch.delete_at at 1.
  assert (Hlen : List.length (firstn (Z.to_nat to_index) rest) = Z.to_nat to_index)
    by (rewrite length_firstn; lia).
  rewrite firstn_app, Hlen, Nat.sub_diag, firstn_O, app_nil_r.
  rewrite firstn_firstn, Nat.min_id.
  rewrite skipn_app, Hlen.
  replace (S (Z.to_nat to_index) - Z.to_nat to_index)%nat with 1%nat by lia.
  rewrite skipn_all2 by lia.
  change (skipn 1 (item :: skipn (Z.to_nat to_index) rest))
    with (skipn (Z.to_nat to_index) rest).
  rewrite app_nil_l. apply firstn_skipn.
Qed.

End MoveFacts.

(** C9. For indices within the queue, [move_in_queue] succeeds, puts the
    item of [from_index] at [to_index] and keeps the other items in their
    order; the cursor goes to [to_index] when it was on the moved item, one
    down when [from_index < cursor <= to_index], one up when
    [to_index <= cursor < from_index], and stays otherwise. *)
Theorem move_in_queue_adjusts_cursor (m : Batch.BatchModeManager) (from_index to_index : Z) :
  0 <= from_index < Py.len (Batch.batch_queue m) ->
  0 <= to_index < Py.len (Batch.batch_queue m) ->
  exists m',
    Batch.move_in_queue from_index to_index m = (true, m') /\
    Permutation (Batch.batch_queue m) (Batch.batch_queue m') /\
    Py.getitem (Batch.batch_queue m') to_index
    = Py.getitem (Batch.batch_queue m) from_index /\
    Batch.delete_at to_index (Batch.batch_queue m')
    = Batch.delete_at from_index (Batch.batch_queue m) /\
    let cursor := Batch.current_batch_index m in
    let cursor' := Batch.current_batch_index m' in
    (cursor = from_index -> cursor' = to_index) /\
    (from_index < cursor <= to_index -> cursor' = cursor - 1) /\
    (to_index <= cursor < from_index -> cursor' = cursor + 1) /\
    (cursor <> from_index ->
     ~ from_index < cursor <= to_index ->
     ~ to_index <= cursor < from_index -> cursor' = cursor).
Proof.
  intros Hfrom Hto. unfold Batch.move_in_queue.
  replace ((0 <=? from_index) && (from_index <? Py.len (Batch.batch_queue m))) with true
    by (symmetry; apply andb_true_iff; split; [apply Z.leb_le|apply Z.ltb_lt]; lia).
  replace ((0 <=? to_index) && (to_index <? Py.len (Batch.batch_queue m))) with true
    by (symmetry; apply andb_true_iff; split; [apply Z.leb_le|apply Z.ltb_lt]; lia).
  simpl negb. cbv iota.
  destruct (from_index =? to_index) eqn:Eeq.
  - apply Z.eqb_eq in Eeq. subst to_index. exists m.
    repeat split; auto; intros; lia.
  - apply Z.eqb_neq in Eeq.
    destruct (getitem_in_range (Batch.batch_queue m) from_index Hfrom) as [item [Hget Hnth]].
    rewrite Hget.
    pose proof (moved_permutation _ (Batch.batch_queue m) from_index to_index item
                  Hnth) as Hperm.
    pose proof (moved_item_at_target _ (Batch.batch_queue m) from_index to_index item
                  Hfrom Hto) as Hat.
    pose proof (moved_rest_unchanged _ (Batch.batch_queue m) from_index to_index item
                  Hfrom Hto) as Hrest.
    assert (Hto' : 0 <= to_index
                   < Py.len (Batch.insert_at to_index item
                               (Batch.delete_at from_index (Batch.batch_queue m))))
      by (rewrite len_insert_at, len_delete_at; lia).
    destruct (getitem_in_range _ to_index Hto') as [item' [Hget' Hnth']].
    rewrite Hat in Hnth'. inversion Hnth'; subst item'.
    eexists. split; [reflexivity|].
    simpl.
    destruct (Batch.current_batch_index m =? from_index) eqn:E1;
      [apply Z.eqb_eq in E1|apply Z.eqb_neq in E1].
    + simpl. repeat split; auto; intros; lia.
    + destruct ((from_index <? Batch.current_batch_index m)
                && (Batch.current_batch_index m <=? to_index)) eqn:E2.
      * apply andb_true_iff in E2. destruct E2 as [E2 E3].
        apply Z.ltb_lt in E2. apply Z.leb_le in E3.
        simpl. repeat split; auto; intros; lia.
      * destruct ((to_index <=? Batch.current_batch_index m)
                  && (Batch.current_batch_index m <? from_index)) eqn:E3.
        -- apply andb_true_iff in E3. destruct E3 as [E3 E4].
           apply Z.leb_le in E3. apply Z.ltb_lt in E4.
           simpl. repeat split; auto; intros; lia.
        -- apply andb_false_iff in E2. apply andb_false_iff in E3.
           rewrite Z.ltb_ge, Z.leb_gt in E2. rewrite Z.leb_gt, Z.ltb_ge in E3.
           simpl. repeat split; auto; intros; lia.
Qed.

Lemma move_in_queue_adjusts_cursor_witness :
  exists m',
    Batch.move_in_queue 0 3 Scenario.abcd = (true, m') /\
    Batch.batch_queue m' = ["B"; "C"; "D"; "A"] /\
    Batch.current_batch_index m' = 1.
Proof.
  destruct (move_in_queue_adjusts_cursor Scenario.abcd 0 3)
    as [m' [Hmove [_ [_ [_ [_ [Hdown _]]]]]]].
  - unfold Py.len. simpl. lia.
  - unfold Py.len. simpl. lia.
  - exists m'. split; [exact Hmove|]. split.
    + vm_compute in Hmove. inversion Hmove. reflexivity.
    + rewrite Hdown; [reflexivity|]. simpl. lia.
Defined.

(** ** The cursor and the length of the queue *)

Section CursorFacts.

Variable urlparse : string -> option Batch.ParseResult.
Variable parse_qs : string -> string -> option (list string).
Variable _resolve_playlist_download_path : option Batch.Info.t -> string -> string.

Local Abbreviation perform :=
  (perform urlparse parse_qs _resolve_playlist_download_path).

Lemma build_item_keeps_queue (queue_item : string) (is_playlist_item : bool)
    (item_index : Z) (m : Batch.BatchModeManager) :
  let m' := snd (Batch._build_batch_item_data _resolve_playlist_download_path
                   queue_item is_playlist_item item_index m) in
  Batch.batch_queue m' = Batch.batch_queue m /\
  Batch.current_batch_index m' = Batch.current_batch_index m.
Proof.
  unfold Batch._build_batch_item_data.
  destruct is_playlist_item; simpl; auto.
  destruct (Batch.get_playlist_video_url item_index m) as [u|]; simpl; auto.
  destruct (Py.truthy u); simpl; auto.
Qed.

Lemma get_next_moves_cursor_by_one (m : Batch.BatchModeManager) :
  let m' := snd (Batch.get_next_batch_item _resolve_playlist_download_path m) in
  Batch.batch_queue m' = Batch.batch_queue m /\
  (Batch.current_batch_index m' = Batch.current_batch_index m \/
   Batch.current_batch_index m < Py.len (Batch.batch_queue m) /\
   Batch.current_batch_index m' = Batch.current_batch_index m + 1).
Proof.
  unfold Batch.get_next_batch_item.
  destruct (negb (Batch.is_batch_mode m)
            || (Py.len (Batch.batch_queue m) <=? Batch.current_batch_index m)) eqn:E;
    [simpl; auto|].
  apply orb_false_iff in E. destruct E as [_ E]. apply Z.leb_gt in E.
  destruct (Py.getitem (Batch.batch_queue m) (Batch.current_batch_index m))
    as [queue_item|]; [|simpl; auto].
  destruct (String.prefix "PLAYLIST_ITEM_" queue_item);
    [destruct (Py.int_of_str (Py.split_last "_" queue_item))|];
    match goal with
    | |- context [Batch._build_batch_item_data ?r ?q ?b ?i ?m0] =>
        pose proof (build_item_keeps_queue q b i m0) as Hb;
        destruct (Batch._build_batch_item_data r q b i m0) as [[item|] m1]
    end; simpl in *; destruct Hb as [Hq Hc]; rewrite Hq, Hc; auto.
Qed.

Lemma move_keeps_cursor_in_range (from_index to_index : Z) (m : Batch.BatchModeManager) :
  cursor_in_range m ->
  cursor_in_range (snd (Batch.move_in_queue from_index to_index m)).
Proof.
  unfold cursor_in_range. intros H. unfold Batch.move_in_queue.
  destruct ((0 <=? from_index) && (from_index <? Py.len (Batch.batch_queue m))) eqn:Ef;
    [|exact H].
  destruct ((0 <=? to_index) && (to_index <? Py.len (Batch.batch_queue m))) eqn:Et;
    [|exact H].
  apply andb_true_iff in Ef. destruct Ef as [Ef1 Ef2].
  apply andb_true_iff in Et. destruct Et as [Et1 Et2].
  apply Z.leb_le in Ef1. apply Z.ltb_lt in Ef2.
  apply Z.leb_le in Et1. apply Z.ltb_lt in Et2.
  simpl negb. cbv iota.
  destruct (from_index =? to_index); [exact H|].
  destruct (Py.getitem (Batch.batch_queue m) from_index) as [item|]; [|exact H].
  pose proof (len_delete_at from_index (Batch.batch_queue m) (conj Ef1 Ef2)) as Hdel.
  pose proof (len_insert_at to_index item
                (Batch.delete_at from_index (Batch.batch_queue m))) as Hins.
  simpl.
  destruct (Batch.current_batch_index m =? from_index) eqn:E1;
    [simpl; lia|apply Z.eqb_neq in E1].
  destruct ((from_index <? Batch.current_batch_index m)
            && (Batch.current_batch_index m <=? to_index)) eqn:E2.
  { apply andb_true_iff in E2. destruct E2 as [E2 E3].
    apply Z.ltb_lt in E2. apply Z.leb_le in E3. simpl. lia. }
  destruct ((to_index <=? Batch.current_batch_index m)
            && (Batch.current_batch_index m <? from_index)) eqn:E3.
  { apply andb_true_iff in E3. destruct E3 as [E3 E4].
    apply Z.leb_le in E3. apply Z.ltb_lt in E4. simpl. lia. }
  simpl. lia.
Qed.

Lemma trim_keeps_cursor_in_range (limit : option Z) (m : Batch.BatchModeManager) :
  cursor_in_range m -> cursor_in_range (Batch.trim_queue_to_limit limit m).
Proof.
  unfold cursor_in_range. intros H.
  unfold Batch.trim_queue_to_limit. destruct limit as [limit|]; [|exact H].
  destruct (limit <? 0) eqn:E0; [exact H|]. apply Z.ltb_ge in E0. simpl.
  destruct (limit <? Py.len (Batch.batch_queue m)) eqn:E1; [|exact H].
  apply Z.ltb_lt in E1. simpl.
  assert (Hlen : Py.len (Batch.take limit (Batch.batch_queue m)) = limit).
  { unfold Py.len, Batch.take in *. rewrite length_firstn. lia. }
  rewrite Hlen.
  destruct (limit <? Batch.current_batch_index m) eqn:E2;
    [apply Z.ltb_lt in E2|apply Z.ltb_ge in E2]; simpl; rewrite ?Hlen;
    destruct (limit <? Batch.playlist_current_index m); simpl; rewrite ?Hlen; lia.
Qed.

(** Every operation offered to the callers keeps the cursor within the
    queue. *)
Lemma operations_keep_cursor_in_range (op : Operation) (m : Batch.BatchModeManager) :
  cursor_in_range m -> cursor_in_range (perform op m).
Proof.
  unfold cursor_in_range. intros H.
  destruct op as [url queue_limit| |index|from_index to_index|limit|limit| |success];
    simpl.
  - unfold Batch.add_to_batch.
    destruct (negb (Py.truthy url) || negb (Py.truthy (Py.strip url))); [exact H|].
    destruct (match queue_limit with Some q => _ | None => false end); [exact H|].
    destruct (Batch.is_playlist_url urlparse parse_qs (Py.strip url)) eqn:Epl.
    { unfold Batch.handle_playlist_url. rewrite Epl. exact H. }
    destruct (Batch.in_queue (Py.strip url) (Batch.batch_queue m)); [exact H|].
    destruct queue_limit as [q|]; simpl;
      [destruct (Batch.warning_threshold q <=? _)|]; simpl; rewrite len_app;
      change (Py.len [Py.strip url]) with 1; lia.
  - destruct (get_next_moves_cursor_by_one m) as [Hq [Hc|[Hlt Hc]]];
      rewrite Hq, Hc; lia.
  - unfold Batch.remove_from_queue.
    destruct ((0 <=? index) && (index <? Py.len (Batch.batch_queue m))) eqn:E;
      [|exact H].
    apply andb_true_iff in E. destruct E as [E1 E2].
    apply Z.leb_le in E1. apply Z.ltb_lt in E2.
    pose proof (len_delete_at index (Batch.batch_queue m) (conj E1 E2)) as Hlen.
    simpl. destruct (index <? Batch.current_batch_index m) eqn:E3; simpl;
      [apply Z.ltb_lt in E3|apply Z.ltb_ge in E3]; lia.
  - now apply move_keeps_cursor_in_range.
  - now apply trim_keeps_cursor_in_range.
  - unfold Batch.enforce_playlist_limit.
    destruct (Batch.positive_int limit); [|exact H].
    now apply trim_keeps_cursor_in_range.
  - unfold Py.len. simpl. lia.
  - destruct success; exact H.
Qed.

(** Within that range the batch is complete exactly when the cursor is at
    the end of the queue. *)
Lemma complete_iff_cursor_at_end (m : Batch.BatchModeManager) :
  cursor_in_range m ->
  (Batch.is_batch_complete m = true
   <-> Batch.current_batch_index m = Py.len (Batch.batch_queue m)).
Proof.
  unfold cursor_in_range, Batch.is_batch_complete. intros H.
  rewrite Z.leb_le. lia.
Qed.

End CursorFacts.

(** C10, at the input where the code leaves it. Three plain addresses were
    queued and handed out, so the cursor is 3 and within the queue. A
    playlist of two entries is then resolved, which is how the enqueue of a
    playlist address ends: [on_playlist_info_extracted] replaces the queue
    by two placeholders and leaves the cursor at 3, beyond the end, and
    [is_batch_complete] holds although the cursor is not the length. *)
Theorem playlist_arrival_leaves_cursor_beyond_queue :
  cursor_in_range Scenario.three_dispatched /\
  Batch.current_batch_index Scenario.three_dispatched = 3 /\
  let m' := Batch.on_playlist_info_extracted Scenario.playlist2 (Some 10)
              Scenario.three_dispatched in
  Batch.batch_queue m' = ["PLAYLIST_ITEM_1"; "PLAYLIST_ITEM_2"] /\
  Batch.current_batch_index m' = 3 /\
  ~ cursor_in_range m' /\
  Batch.is_batch_complete m' = true /\
  Batch.current_batch_index m' <> Py.len (Batch.batch_queue m').
Proof.
  unfold cursor_in_range. vm_compute.
  repeat split; try reflexivity; try discriminate.
  intros [_ H]. apply H. reflexivity.
Qed.

(** C1, at the input where the code leaves it. A playlist of ten entries is
    resolved under a limit of four: four placeholders are queued in order,
    but the four jobs handed out are made from entries 1, 2, 3 and 4, not
    from entries 0, 1, 2 and 3; the placeholder number, which counts from
    one, is used as an index that counts from zero. *)
Theorem playlist_jobs_skip_first_entry :
  let m := Batch.on_playlist_info_extracted Scenario.playlist10 (Some 4) Batch.init in
  Batch.batch_queue m
  = ["PLAYLIST_ITEM_1"; "PLAYLIST_ITEM_2"; "PLAYLIST_ITEM_3"; "PLAYLIST_ITEM_4"] /\
  map Scenario.source_url (fst (Scenario.dequeue 4 m))
  = [ Some "https://www.youtube.com/watch?v=e1&list=PL10&index=2";
      Some "https://www.youtube.com/watch?v=e2&list=PL10&index=3";
      Some "https://www.youtube.com/watch?v=e3&list=PL10&index=4";
      Some "https://www.youtube.com/watch?v=e4&list=PL10&index=5" ] /\
  nth_error (Batch.Info.entries Scenario.playlist10) 0
  = Some "https://www.youtube.com/watch?v=e0".
Proof. vm_compute. auto. Qed.

(** ** The end-to-end run *)

Section EndToEnd.

Variable W : Type.
Variable _download_with_ytdl : string -> W -> PyResult unit * W * bool.
Variable sleep : Z -> W -> W * bool.
Variable makedirs : string -> W -> PyResult unit * W.
Variable current_video_title : string -> W -> option string.
Variable urlparse : string -> option Batch.ParseResult.
Variable parse_qs : string -> string -> option (list string).
Variable _resolve_playlist_download_path : option Batch.Info.t -> string -> string.
Variable get_disable_cookies : bool.
Variable show_cookie_detection_dialog : option (string * string).

Local Abbreviation run :=
  (Main.run W _download_with_ytdl sleep makedirs current_video_title).
Local Abbreviation make_download_folder := (Main.make_download_folder W makedirs).
Local Abbreviation plain := (plain_url urlparse parse_qs).
Local Abbreviation queue_url := (Main.queue_url W urlparse parse_qs 10).
Local Abbreviation start_batch_download :=
  (Main.start_batch_download W urlparse parse_qs _resolve_playlist_download_path 10).
Local Abbreviation event_loop :=
  (Main.event_loop W _download_with_ytdl sleep makedirs current_video_title urlparse
     parse_qs
     _resolve_playlist_download_path 10 get_disable_cookies show_cookie_detection_dialog).
Local Abbreviation get_next_batch_item :=
  (Batch.get_next_batch_item _resolve_playlist_download_path).
Local Abbreviation on_download_finished := (Main.on_download_finished W).
Local Abbreviation on_download_failed :=
  (Main.on_download_failed W urlparse parse_qs _resolve_playlist_download_path 10
     get_disable_cookies show_cookie_detection_dialog).
Local Abbreviation turn :=
  (Main.turn W _download_with_ytdl sleep makedirs current_video_title urlparse
     parse_qs
     _resolve_playlist_download_path 10 get_disable_cookies show_cookie_detection_dialog).

(** The folder a queued job was given, read back from the settings. *)
Ltac job_folder path :=
  match goal with
  | |- context [Main.run _ _ _ _ _ _ ?p _] => change p with path
  end.

Ltac window_fields :=
  unfold Main.set_pending, Main.post, Main.set_is_downloading, Main.set_batch_manager,
    Main.set_thread, Main.set_link_input, Main.log_completed;
  cbn [Main.batch_manager Main.is_downloading Main._block_batch_after_cancel Main.ui
       Main.current_cookie_file Main.thread Main.pending Main.world Main.runs
       Main.completed Main.uncaught app map].

(** *** What one download thread does *)

Lemma run_succeeds_at_once (url download_path : string) (w w' : W) :
  make_download_folder download_path w = (Ok tt, w) ->
  _download_with_ytdl url w = (Ok tt, w', false) ->
  run url download_path w = ([Main.finished], [Retry.Invoke None], w').
Proof.
  intros Hfolder H. unfold Main.run. rewrite Hfolder.
  unfold Retry.execute_with_retry.
  simpl. unfold Retry.try_body, Retry.call_func. simpl. rewrite H. reflexivity.
Qed.

Lemma run_fails_fatally (url download_path : string) (w w' : W) (e : string) :
  make_download_folder download_path w = (Ok tt, w) ->
  _download_with_ytdl url w = (Exn e, w', false) ->
  Retry._is_retryable_error e = false ->
  run url download_path w
  = ([Main.download_failed (Main.error_msg (current_video_title url w') e);
      Main.finished],
     [Retry.Invoke (Some e)], w').
Proof.
  intros Hfolder H Hf. unfold Main.run. rewrite Hfolder.
  unfold Retry.execute_with_retry.
  simpl. unfold Retry.try_body, Retry.call_func. simpl. rewrite H. simpl.
  rewrite Hf. reflexivity.
Qed.

Lemma run_recovers_after_one_retry (url download_path : string) (w wa wb wc : W)
    (e : string) :
  make_download_folder download_path w = (Ok tt, w) ->
  _download_with_ytdl url w = (Exn e, wa, false) ->
  Retry._is_retryable_error e = true ->
  sleep 30 wa = (wb, false) ->
  _download_with_ytdl url wb = (Ok tt, wc, false) ->
  run url download_path w
  = ([Main.finished],
     [Retry.Invoke (Some e); Retry.Emit (Retry.retry_attempt 1 3 e); Retry.Sleep 30;
      Retry.Invoke None;
      Retry.Emit (Retry.retry_success "Download succeeded after 1 retry attempts")],
     wc).
Proof.
  intros Hfolder H Hr Hs H2. unfold Main.run. rewrite Hfolder.
  unfold Retry.execute_with_retry.
  simpl. unfold Retry.try_body, Retry.call_func. simpl. rewrite H. simpl.
  rewrite Hr. simpl. unfold Retry.do_sleep. simpl. rewrite Hs. simpl.
  rewrite H2. reflexivity.
Qed.

(** *** What one call of the manager or of a slot does *)

Lemma add_plain_url (m : Batch.BatchModeManager) (u : string) (limit : Z) :
  plain u ->
  Py.len (Batch.batch_queue m) < limit ->
  Batch.in_queue u (Batch.batch_queue m) = false ->
  Py.len (Batch.batch_queue m) + 1 < Batch.warning_threshold limit ->
  Batch.add_to_batch urlparse parse_qs u (Some limit) m
  = (true, Batch.emit Batch.queue_updated
             (Batch.set_batch_queue (Batch.batch_queue m ++ [u]) m)).
Proof.
  intros [S [T [P _]]] Hlen Hnew Hwarn. unfold Batch.add_to_batch.
  rewrite S, T, P, Hnew. simpl.
  replace (limit <=? Py.len (Batch.batch_queue m)) with false
    by (symmetry; apply Z.leb_gt; lia).
  rewrite len_app. change (Py.len [u]) with 1.
  replace (Batch.warning_threshold limit <=? Py.len (Batch.batch_queue m) + 1)
    with false by (symmetry; apply Z.leb_gt; lia).
  reflexivity.
Qed.

Lemma get_next_plain (m : Batch.BatchModeManager) (u : string) :
  Batch.is_batch_mode m = true ->
  Batch.current_batch_index m < Py.len (Batch.batch_queue m) ->
  Py.getitem (Batch.batch_queue m) (Batch.current_batch_index m) = Some u ->
  String.prefix "PLAYLIST_ITEM_" u = false ->
  get_next_batch_item m
  = (Ok (Some (Batch.Item.mk u
                 (Batch.Settings.resolution (Batch.batch_settings m))
                 (Batch.Settings.download_subs (Batch.batch_settings m))
                 (Batch.Settings.download_path (Batch.batch_settings m))
                 (Batch.Settings.container_override (Batch.batch_settings m))
                 (Batch.Settings.audio_override (Batch.batch_settings m)))),
     Batch.set_current_batch_index (Batch.current_batch_index m + 1) m).
Proof.
  intros Hmode Hlt Hget Hpre. unfold Batch.get_next_batch_item.
  rewrite Hmode, Hget, Hpre.
  replace (Py.len (Batch.batch_queue m) <=? Batch.current_batch_index m) with false
    by (symmetry; apply Z.leb_gt; lia).
  reflexivity.
Qed.

(** The pump is asked for the next job while nothing downloads, the input
    line is empty and a plain address is next in the queue. *)
Lemma start_batch_download_next (m : Batch.BatchModeManager) (u : string)
    (v : Main.Ui) (cookie thread : option string) (pending : list Main.Pending)
    (w : W) (runs : list (string * list Retry.Effect))
    (completed : list Batch.Summary) (uncaught : list string) :
  Py.strip (Main.link_input v) = "" ->
  Batch.is_batch_mode m = true ->
  Batch.current_batch_index m < Py.len (Batch.batch_queue m) ->
  Py.getitem (Batch.batch_queue m) (Batch.current_batch_index m) = Some u ->
  String.prefix "PLAYLIST_ITEM_" u = false ->
  start_batch_download
    (Main.mkMainWindow W m false false v cookie thread pending w runs completed uncaught)
  = Main.mkMainWindow W
      (Batch.set_current_batch_index (Batch.current_batch_index m + 1) m)
      true false v cookie (Some u)
      (pending
       ++ [Main.TimerThreadStart u
             (Batch.Settings.download_path (Batch.batch_settings m))]) w runs
      completed uncaught.
Proof.
  intros Hinput Hmode Hlt Hget Hpre. unfold Main.start_batch_download.
  cbn [Main.is_downloading Main._block_batch_after_cancel Main.batch_manager Main.ui].
  rewrite Hmode, Hinput.
  cbn [negb Py.truthy andb Main.batch_manager].
  rewrite (get_next_plain m u Hmode Hlt Hget Hpre).
  reflexivity.
Qed.

(** The batch is complete: the summary is logged, the input line is
    cleared, the settings are read from the widgets and the queue is
    cleared. *)
Lemma complete_batch_result (m : Batch.BatchModeManager) (d b : bool) (v : Main.Ui)
    (cookie thread : option string) (pending : list Main.Pending) (w : W)
    (runs : list (string * list Retry.Effect)) (completed : list Batch.Summary)
    (uncaught : list string) :
  Batch.is_batch_mode m = true ->
  Batch.is_batch_complete m = true ->
  Main.complete_batch W
    (Main.mkMainWindow W m d b v cookie thread pending w runs completed uncaught)
  = Main.mkMainWindow W
      (Batch.clear_batch_queue
         (Batch.update_batch_settings (Some (Main.resolution_box v))
            (Some (Main.subtitle_checkbox v)) (Some (Py.strip (Main.path_input v)))
            None None m))
      d b (Main.mkUi "" (Main.resolution_box v) (Main.subtitle_checkbox v)
             (Main.path_input v))
      cookie thread pending w runs (completed ++ [Batch.get_batch_summary m]) uncaught.
Proof.
  intros Hmode Hdone. unfold Main.complete_batch, Main.reset_ui, Main.log_completed.
  cbn [Main.batch_manager]. rewrite Hmode, Hdone. cbn [negb orb].
  unfold Main.set_link_input. cbn [Main.batch_manager].
  rewrite Hmode. unfold Main.update_batch_mode_from_ui. cbn [Main.batch_manager].
  rewrite Hmode. reflexivity.
Qed.

Lemma finished_with_more_to_do (m : Batch.BatchModeManager) (d b : bool) (v : Main.Ui)
    (cookie thread : option string) (pending : list Main.Pending) (w : W)
    (runs : list (string * list Retry.Effect)) (completed : list Batch.Summary)
    (uncaught : list string) :
  Batch.is_batch_mode m = true ->
  Batch.is_batch_complete m = false ->
  on_download_finished
    (Main.mkMainWindow W m d b v cookie thread pending w runs completed uncaught)
  = Main.mkMainWindow W (Batch.mark_download_completed true m) false b v cookie thread
      (pending ++ [Main.TimerStartBatchDownload]) w runs completed uncaught.
Proof.
  intros Hmode Hmore. unfold Main.on_download_finished. window_fields.
  rewrite Hmode.
  change (Batch.is_batch_complete (Batch.mark_download_completed true m))
    with (Batch.is_batch_complete m).
  rewrite Hmore. reflexivity.
Qed.

Lemma finished_at_the_end (m : Batch.BatchModeManager) (d b : bool) (v : Main.Ui)
    (cookie thread : option string) (pending : list Main.Pending) (w : W)
    (runs : list (string * list Retry.Effect)) (completed : list Batch.Summary)
    (uncaught : list string) :
  Batch.is_batch_mode m = true ->
  Batch.is_batch_complete m = true ->
  on_download_finished
    (Main.mkMainWindow W m d b v cookie thread pending w runs completed uncaught)
  = Main.complete_batch W
      (Main.mkMainWindow W (Batch.mark_download_completed true m) false b v cookie
         thread pending w runs completed uncaught).
Proof.
  intros Hmode Hdone. unfold Main.on_download_finished. window_fields.
  rewrite Hmode.
  change (Batch.is_batch_complete (Batch.mark_download_completed true m))
    with (Batch.is_batch_complete m).
  rewrite Hdone. reflexivity.
Qed.

Lemma failed_at_the_end (error_message : string) (m : Batch.BatchModeManager)
    (d b : bool) (v : Main.Ui) (cookie thread : option string)
    (pending : list Main.Pending) (w : W) (runs : list (string * list Retry.Effect))
    (completed : list Batch.Summary) (uncaught : list string) :
  Py.contains "Sign in to confirm you're not a bot" error_message = false ->
  Batch.is_batch_mode m = true ->
  Batch.is_batch_complete m = true ->
  on_download_failed error_message
    (Main.mkMainWindow W m d b v cookie thread pending w runs completed uncaught)
  = Main.complete_batch W
      (Main.mkMainWindow W (Batch.mark_download_completed false m) false b v cookie
         thread pending w runs completed uncaught).
Proof.
  intros Hbot Hmode Hdone. unfold Main.on_download_failed. rewrite Hbot.
  unfold Main.fail_and_continue. window_fields.
  rewrite Hmode.
  change (Batch.is_batch_complete (Batch.mark_download_completed false m))
    with (Batch.is_batch_complete m).
  rewrite Hdone. reflexivity.
Qed.

(** *** The event loop *)

Lemma event_loop_turn (fuel : nat) (a a' : Main.MainWindow W) :
  turn a = Some a' -> event_loop (S fuel) a = event_loop fuel a'.
Proof. intros H. simpl. now rewrite H. Qed.

Lemma event_loop_idle (fuel : nat) (a : Main.MainWindow W) :
  Main.pending W a = [] -> event_loop fuel a = Some a.
Proof. intros H. destruct fuel; simpl; unfold Main.turn; now rewrite H. Qed.

Section ThreeJobs.

(** The input line is empty; three plain addresses, all different. *)
Variable ui : Main.Ui.
Hypothesis input_empty : Py.strip (Main.link_input ui) = "".

(** The folder named in the window, if one is named, is there, so that
    every thread gets to its download. *)
Hypothesis folder_ready :
  forall w, make_download_folder (Py.strip (Main.path_input ui)) w = (Ok tt, w).

Variables u1 u2 u3 : string.
Hypothesis plain1 : plain u1.
Hypothesis plain2 : plain u2.
Hypothesis plain3 : plain u3.
Hypothesis distinct12 : u1 <> u2.
Hypothesis distinct13 : u1 <> u3.
Hypothesis distinct23 : u2 <> u3.

(** The executor: job 1 succeeds; job 2 fails with a retryable error
    and succeeds when called again after the first delay; job 3 fails
    with a fatal error that is not the bot check, which the window
    hands to the cookie dialog. Nobody cancels. *)
Variables (w0 w1 w2 w2' w3 w4 : W) (e2 e3 : string).
Hypothesis job1_ok : _download_with_ytdl u1 w0 = (Ok tt, w1, false).
Hypothesis job2_fails : _download_with_ytdl u2 w1 = (Exn e2, w2, false).
Hypothesis e2_retryable : Retry._is_retryable_error e2 = true.
Hypothesis job2_wait : sleep 30 w2 = (w2', false).
Hypothesis job2_ok : _download_with_ytdl u2 w2' = (Ok tt, w3, false).
Hypothesis job3_fails : _download_with_ytdl u3 w3 = (Exn e3, w4, false).
Hypothesis e3_fatal : Retry._is_retryable_error e3 = false.
Hypothesis e3_not_bot_check :
  Py.contains "Sign in to confirm you're not a bot"
    (Main.error_msg (current_video_title u3 w4) e3) = false.

Local Abbreviation window := (Main.toggle_batch_mode_on W (Main.new W w0 ui)).
Local Abbreviation queued := (queue_url u3 (queue_url u2 (queue_url u1 window))).
Local Abbreviation manager0 :=
  (Batch.enable_batch_mode (Main.resolution_box ui) (Main.subtitle_checkbox ui)
     (Py.strip (Main.path_input ui)) None None Batch.init).
Local Abbreviation manager1 :=
  (Batch.emit Batch.queue_updated (Batch.set_batch_queue [u1] manager0)).
Local Abbreviation manager2 :=
  (Batch.emit Batch.queue_updated (Batch.set_batch_queue [u1; u2] manager1)).
Local Abbreviation manager3 :=
  (Batch.emit Batch.queue_updated (Batch.set_batch_queue [u1; u2; u3] manager2)).

Lemma queued_manager : Main.batch_manager W queued = manager3.
Proof.
  assert (H1 : Batch.add_to_batch urlparse parse_qs u1 (Some 10) manager0
               = (true, manager1)).
  { rewrite add_plain_url; auto; reflexivity. }
  assert (H2 : Batch.add_to_batch urlparse parse_qs u2 (Some 10) manager1
               = (true, manager2)).
  { rewrite add_plain_url; auto; try reflexivity.
    simpl. rewrite (proj2 (String.eqb_neq u2 u1)); auto. }
  assert (H3 : Batch.add_to_batch urlparse parse_qs u3 (Some 10) manager2
               = (true, manager3)).
  { rewrite add_plain_url; auto; try reflexivity.
    simpl. rewrite (proj2 (String.eqb_neq u3 u1)), (proj2 (String.eqb_neq u3 u2)); auto. }
  unfold Main.queue_url, Main.toggle_batch_mode_on.
  cbn [Main.batch_manager Main.set_batch_manager Main.new Main.ui].
  rewrite H1. cbn [snd]. rewrite H2. cbn [snd]. rewrite H3. reflexivity.
Qed.

Lemma queued_window :
  queued
  = Main.mkMainWindow W (Main.batch_manager W queued) false false ui None None []
      w0 [] [] [].
Proof. reflexivity. Qed.

(** C2, as the code has it. Three plain addresses are queued under a
    limit of ten and the pump is started; the download folder is blank
    or can be made. The event loop comes to rest
    within ten turns. The executor was called once for job 1, twice for
    job 2 and once for job 3. When the failure of job 3 is handled the
    batch is complete and its summary reads three items, two successful
    and one failed; [complete_batch] then clears the queue, so that the
    loop ends with an empty queue, both counters at zero and
    [is_batch_complete] true. *)
Theorem end_to_end_summary_then_cleared (fuel : nat) :
  (10 <= fuel)%nat ->
  exists final,
    event_loop fuel (start_batch_download queued) = Some final /\
    Main.pending W final = [] /\
    Main.is_downloading W final = false /\
    Main.invocations_for W u1 final = 1 /\
    Main.invocations_for W u2 final = 2 /\
    Main.invocations_for W u3 final = 1 /\
    (exists later,
        Main.completed W final = Batch.mkSummary 3 2 1 false None :: later) /\
    Batch.batch_queue (Main.batch_manager W final) = [] /\
    Batch.successful_downloads (Main.batch_manager W final) = 0 /\
    Batch.failed_downloads (Main.batch_manager W final) = 0 /\
    Batch.is_batch_complete (Main.batch_manager W final) = true.
Proof.
  intros Hfuel.
  destruct plain1 as [_ [_ [_ X1]]], plain2 as [_ [_ [_ X2]]],
           plain3 as [_ [_ [_ X3]]].
  do 10 (destruct fuel as [|fuel]; [lia|]). clear Hfuel.
  rewrite queued_window, queued_manager.
  rewrite (start_batch_download_next manager3 u1)
    by (first [exact X1 | exact input_empty | reflexivity]).
  erewrite event_loop_turn.
  2:{ unfold Main.turn, Main.dispatch, Main.thread_start. window_fields.
      job_folder (Py.strip (Main.path_input ui)).
      rewrite (run_succeeds_at_once u1 _ w0 w1 (folder_ready w0) job1_ok).
      window_fields.
      reflexivity. }
  erewrite event_loop_turn.
  2:{ unfold Main.turn, Main.dispatch. window_fields.
      rewrite finished_with_more_to_do by reflexivity. reflexivity. }
  erewrite event_loop_turn.
  2:{ unfold Main.turn, Main.dispatch. window_fields.
      rewrite (start_batch_download_next _ u2)
        by (first [exact X2 | exact input_empty | reflexivity]).
      reflexivity. }
  erewrite event_loop_turn.
  2:{ unfold Main.turn, Main.dispatch, Main.thread_start. window_fields.
      job_folder (Py.strip (Main.path_input ui)).
      rewrite (run_recovers_after_one_retry u2 _ w1 w2 w2' w3 e2 (folder_ready w1)
                 job2_fails e2_retryable job2_wait job2_ok).
      window_fields. reflexivity. }
  erewrite event_loop_turn.
  2:{ unfold Main.turn, Main.dispatch. window_fields.
      rewrite finished_with_more_to_do by reflexivity. reflexivity. }
  erewrite event_loop_turn.
  2:{ unfold Main.turn, Main.dispatch. window_fields.
      rewrite (start_batch_download_next _ u3)
        by (first [exact X3 | exact input_empty | reflexivity]).
      reflexivity. }
  erewrite event_loop_turn.
  2:{ unfold Main.turn, Main.dispatch, Main.thread_start. window_fields.
      job_folder (Py.strip (Main.path_input ui)).
      rewrite (run_fails_fatally u3 _ w3 w4 e3 (folder_ready w3) job3_fails
                 e3_fatal).
      window_fields. reflexivity. }
  erewrite event_loop_turn.
  2:{ unfold Main.turn, Main.dispatch. window_fields.
      rewrite failed_at_the_end by (first [exact e3_not_bot_check | reflexivity]).
      rewrite complete_batch_result by reflexivity. reflexivity. }
  erewrite event_loop_turn.
  2:{ unfold Main.turn, Main.dispatch. window_fields.
      rewrite finished_at_the_end by reflexivity.
      rewrite complete_batch_result by reflexivity. reflexivity. }
  rewrite event_loop_idle by reflexivity.
  eexists. split; [reflexivity|].
  assert (E12 : (u1 =? u2)%string = false) by (apply String.eqb_neq; auto).
  assert (E13 : (u1 =? u3)%string = false) by (apply String.eqb_neq; auto).
  assert (E23 : (u2 =? u3)%string = false) by (apply String.eqb_neq; auto).
  assert (E21 : (u2 =? u1)%string = false) by (apply String.eqb_neq; auto).
  assert (E31 : (u3 =? u1)%string = false) by (apply String.eqb_neq; auto).
  assert (E32 : (u3 =? u2)%string = false) by (apply String.eqb_neq; auto).
  unfold Main.invocations_for.
  cbn [Main.pending Main.is_downloading Main.runs Main.completed Main.batch_manager
       flat_map fst snd].
  rewrite !String.eqb_refl, E12, E13, E23, E21, E31, E32.
  repeat split; try reflexivity.
  eexists. reflexivity.
Qed.

End ThreeJobs.

End EndToEnd.

Lemma end_to_end_summary_then_cleared_witness :
  exists final,
    Scenario.end_to_end = Some final /\
    Main.pending _ final = [] /\
    Main.is_downloading _ final = false /\
    Main.invocations_for _ Scenario.job1 final = 1 /\
    Main.invocations_for _ Scenario.job2 final = 2 /\
    Main.invocations_for _ Scenario.job3 final = 1 /\
    (exists later,
        Main.completed _ final = Batch.mkSummary 3 2 1 false None :: later) /\
    Batch.batch_queue (Main.batch_manager _ final) = [] /\
    Batch.successful_downloads (Main.batch_manager _ final) = 0 /\
    Batch.failed_downloads (Main.batch_manager _ final) = 0 /\
    Batch.is_batch_complete (Main.batch_manager _ final) = true.
Proof.
  apply (end_to_end_summary_then_cleared (list string) Scenario.executor
           Scenario.quiet_sleep Scenario.makedirs Scenario.no_title Scenario.urlparse
           Scenario.parse_qs Scenario._resolve_playlist_download_path false None
           (Main.mkUi "" "720p" false "") eq_refl (fun w => eq_refl)
           Scenario.job1 Scenario.job2 Scenario.job3
           (conj eq_refl (conj eq_refl (conj eq_refl eq_refl)))
           (conj eq_refl (conj eq_refl (conj eq_refl eq_refl)))
           (conj eq_refl (conj eq_refl (conj eq_refl eq_refl))))
    with (w0 := []) (w1 := [Scenario.job1]) (w2 := [Scenario.job1; Scenario.job2])
         (w2' := [Scenario.job1; Scenario.job2])
         (w3 := [Scenario.job1; Scenario.job2; Scenario.job2])
         (w4 := [Scenario.job1; Scenario.job2; Scenario.job2; Scenario.job3])
         (e2 := "Network unreachable") (e3 := "ERROR: Private video")
         (fuel := 20%nat);
    try reflexivity; try discriminate; lia.
Defined.

(** C2, as stated, fails. In the run of three jobs (the first succeeds, the
    second fails once with a network error and then succeeds, the third
    fails with a private video) the event loop ends with both counters at
    zero, not at two and one. *)
Lemma end_to_end_counters_end_at_zero :
  exists final,
    Scenario.end_to_end = Some final /\
    Main.pending _ final = [] /\
    Batch.successful_downloads (Main.batch_manager _ final) = 0 /\
    Batch.failed_downloads (Main.batch_manager _ final) = 0 /\
    ~ (Batch.successful_downloads (Main.batch_manager _ final) = 2 /\
       Batch.failed_downloads (Main.batch_manager _ final) = 1).
Proof.
  eexists. split; [vm_compute; reflexivity|].
  simpl. repeat split. intros [H _]. discriminate H.
Qed.

(** * Further properties of the retry handler *)

Section RetryMore.

Variables W V : Type.
Variable func : W -> PyResult V * W * bool.
Variable sleep : Z -> W -> W * bool.

Local Abbreviation attempts := (Retry.attempts W V func sleep).
Local Abbreviation try_body := (Retry.try_body W V func sleep).
Local Abbreviation execute_with_retry := (Retry.execute_with_retry W V func sleep).

Lemma sleeps_app (es1 es2 : list Retry.Effect) :
  Retry.sleeps (es1 ++ es2) = (Retry.sleeps es1 ++ Retry.sleeps es2)%list.
Proof. unfold Retry.sleeps. apply flat_map_app. Qed.

Lemma note_cancel_config (c : bool) (h : Retry.RetryHandler) :
  Retry.max_retries (Retry.note_cancel c h) = Retry.max_retries h /\
  Retry.retry_delays (Retry.note_cancel c h) = Retry.retry_delays h.
Proof. destruct c; split; reflexivity. Qed.

(** What one pass through the [try] body can do: at most one call, made
    last, after at most one sleep; the schedule and the budget of the
    handler stay as they are. *)
Lemma try_body_effects (attempt : Z) (last_exception : option string) (r : Retry.Run W) :
  exists new,
    Retry.effects (snd (try_body attempt last_exception r))
    = (Retry.effects r ++ new)%list /\
    Retry.max_retries (Retry.handler (snd (try_body attempt last_exception r)))
    = Retry.max_retries (Retry.handler r) /\
    Retry.retry_delays (Retry.handler (snd (try_body attempt last_exception r)))
    = Retry.retry_delays (Retry.handler r) /\
    ((Retry.invocations new = [] /\
      exists e, fst (try_body attempt last_exception r) = Exn e) \/
     (exists e, Retry.invocations new = [Some e] /\
                fst (try_body attempt last_exception r) = Exn e) \/
     (exists v, Retry.invocations new = [None] /\
                fst (try_body attempt last_exception r) = Ok v)).
Proof.
  unfold Retry.try_body.
  destruct (0 <? attempt).
  - destruct (Py.getitem _ _) as [delay|].
    + unfold Retry.do_sleep.
      destruct (delay <? 0).
      * eexists. simpl. split; [reflexivity|]. repeat split; eauto.
      * match goal with
        | |- context [sleep delay ?w0] => destruct (sleep delay w0) as [w1 c1]
        end.
        unfold Retry.call_func. simpl.
        destruct (func w1) as [[[v|e] w2] c2]; simpl;
          eexists; (split; [rewrite <- !app_assoc; reflexivity|]);
          destruct c1, c2; simpl; repeat split; eauto.
    + exists []. simpl. rewrite app_nil_r. repeat split; eauto.
  - unfold Retry.call_func. simpl.
    destruct (func (Retry.world r)) as [[[v|e] w2] c2]; simpl;
      eexists; (split; [reflexivity|]); destruct c2; simpl; repeat split; eauto.
Qed.

Lemma attempts_invocations_bound (n : nat) :
  forall (attempt : Z) (last_exception : option string) (r : Retry.Run W),
    (List.length (Retry.invocations
                    (Retry.effects (snd (attempts n attempt last_exception r))))
     <= List.length (Retry.invocations (Retry.effects r)) + n)%nat.
Proof.
  induction n as [|n IH]; intros attempt last_exception r; simpl; [lia|].
  destruct (Retry._is_cancelled (Retry.handler r)); [simpl; lia|].
  destruct (try_body_effects attempt last_exception r)
    as [new [Heff [_ [_ Hcases]]]].
  destruct (try_body attempt last_exception r) as [[v|e] r1]; simpl in *.
  - rewrite Heff, invocations_app, length_app.
    destruct Hcases as [[Hn _]|[[e [Hn _]]|[v' [Hn _]]]]; rewrite Hn; simpl; lia.
  - assert (Hone : (List.length (Retry.invocations (Retry.effects r1))
                    <= List.length (Retry.invocations (Retry.effects r)) + 1)%nat).
    { rewrite Heff, invocations_app, length_app.
      destruct Hcases as [[Hn _]|[[e' [Hn _]]|[v' [Hn _]]]]; rewrite Hn; simpl; lia. }
    destruct (negb (Retry._is_retryable_error e)); [simpl; lia|].
    destruct (attempt =? Retry.max_retries (Retry.handler r1)).
    + simpl. rewrite invocations_app. simpl. rewrite app_nil_r. lia.
    + specialize (IH (attempt + 1) (Some e) r1). lia.
Qed.

(** X1. Whatever the executor does and whenever it is cancelled, one run
    calls it at most [max_retries + 1] times, and not at all when
    [max_retries] is negative. *)
Theorem executor_called_at_most_budget_plus_one (h : Retry.RetryHandler) (w : W) :
  Py.len (Retry.invocations (Retry.effects (snd (execute_with_retry h w))))
  <= Z.max 0 (Retry.max_retries h + 1).
Proof.
  unfold Retry.execute_with_retry, Py.len.
  pose proof (attempts_invocations_bound (Z.to_nat (Retry.max_retries h + 1)) 0 None
                (Retry.mkRun h w [])) as H.
  simpl in H. lia.
Qed.

Lemma attempts_success_shape (n : nat) :
  forall (attempt : Z) (last_exception : option string) (r r' : Retry.Run W) (v : V),
    attempts n attempt last_exception r = (Ok v, r') ->
    exists es,
      Retry.invocations (Retry.effects r')
      = (Retry.invocations (Retry.effects r) ++ map Some es ++ [None])%list /\
      Forall (fun e => Retry._is_retryable_error e = true) es.
Proof.
  induction n as [|n IH]; intros attempt last_exception r r' v; simpl;
    [intros H; discriminate H|].
  destruct (Retry._is_cancelled (Retry.handler r)); [intros H; discriminate H|].
  destruct (try_body_effects attempt last_exception r)
    as [new [Heff [_ [_ Hcases]]]].
  destruct (try_body attempt last_exception r) as [[v1|e] r1]; simpl in *.
  - intros H. inversion H; subst. exists []. split; [|constructor].
    rewrite Heff, invocations_app.
    destruct Hcases as [[_ [e He]]|[[e [_ He]]|[v' [Hn _]]]];
      try discriminate He. now rewrite Hn.
  - destruct (Retry._is_retryable_error e) eqn:Er; simpl; [|intros H; discriminate H].
    destruct (attempt =? Retry.max_retries (Retry.handler r1));
      [intros H; discriminate H|].
    intros H. destruct (IH _ _ _ _ _ H) as [es [Hinv Hall]].
    rewrite Heff, invocations_app in Hinv.
    destruct Hcases as [[Hn _]|[[e' [Hn He]]|[v' [_ He]]]]; try discriminate He.
    + exists es. rewrite Hn, app_nil_r in Hinv. auto.
    + inversion He; subst e'. exists (e :: es). rewrite Hn in Hinv.
      rewrite <- app_assoc in Hinv. simpl in *. auto.
Qed.

(** X2. A run that returns a result has made calls that all failed with
    retryable errors and one last call that returned; no call follows the
    one that returned. *)
Theorem successful_run_ends_with_the_call_that_returned
    (h : Retry.RetryHandler) (w : W) (v : V) (r : Retry.Run W) :
  execute_with_retry h w = (Ok v, r) ->
  exists es,
    Retry.invocations (Retry.effects r) = (map Some es ++ [None])%list /\
    Forall (fun e => Retry._is_retryable_error e = true) es.
Proof.
  unfold Retry.execute_with_retry. intros H.
  apply attempts_success_shape in H. exact H.
Qed.

Section Schedule.

(** The schedule is not empty and holds no negative delay. *)
Variable delays : list Z.
Hypothesis delays_nonempty : delays <> [].
Hypothesis delays_nonnegative : Forall (fun d => 0 <= d) delays.

(** A retry, [attempt >= 1]: the scheduled delay is slept, then the
    executor is called, once. *)
Lemma try_body_of_a_retry (attempt : Z) (last_exception : option string)
    (r : Retry.Run W) :
  1 <= attempt ->
  Retry.retry_delays (Retry.handler r) = delays ->
  exists d new,
    scheduled_delay delays attempt = Some d /\
    Retry.effects (snd (try_body attempt last_exception r))
    = (Retry.effects r ++ new)%list /\
    Retry.sleeps new = [d] /\
    List.length (Retry.invocations new) = 1%nat.
Proof.
  intros Hatt Hd. unfold Retry.try_body, scheduled_delay. rewrite Hd.
  replace (0 <? attempt) with true by (symmetry; apply Z.ltb_lt; lia).
  destruct (delay_lookup delays attempt delays_nonempty delays_nonnegative)
    as [d [-> Hnn]]; [lia|].
  exists d. unfold Retry.do_sleep.
  replace (d <? 0) with false by (symmetry; apply Z.ltb_ge; lia).
  match goal with
  | |- context [sleep d ?w0] => destruct (sleep d w0) as [w1 c1]
  end.
  unfold Retry.call_func. simpl.
  destruct (func w1) as [[[v|e] w2] c2]; simpl;
    eexists; (split; [reflexivity|]);
    (split; [rewrite <- !app_assoc; reflexivity|]); split; reflexivity.
Qed.

(** The first attempt: the executor is called at once. *)
Lemma try_body_of_first_attempt (last_exception : option string) (r : Retry.Run W) :
  exists new,
    Retry.effects (snd (try_body 0 last_exception r)) = (Retry.effects r ++ new)%list /\
    Retry.sleeps new = [] /\
    List.length (Retry.invocations new) = 1%nat.
Proof.
  unfold Retry.try_body, Retry.call_func. simpl.
  destruct (func (Retry.world r)) as [[[v|e] w2] c2]; simpl;
    eexists; (split; [reflexivity|]); split; reflexivity.
Qed.

Lemma attempts_sleep_schedule (n : nat) :
  forall (a : nat) (last_exception : option string) (r : Retry.Run W),
    (1 <= a)%nat ->
    Retry.retry_delays (Retry.handler r) = delays ->
    exists k,
      map Some (Retry.sleeps
                  (Retry.effects (snd (attempts n (Z.of_nat a) last_exception r))))
      = (map Some (Retry.sleeps (Retry.effects r))
         ++ map (scheduled_delay delays) (map Z.of_nat (seq a k)))%list /\
      List.length (Retry.invocations
                     (Retry.effects (snd (attempts n (Z.of_nat a) last_exception r))))
      = (List.length (Retry.invocations (Retry.effects r)) + k)%nat.
Proof.
  induction n as [|n IH]; intros a last_exception r Ha Hd; simpl.
  { exists 0%nat. simpl. rewrite app_nil_r. auto. }
  destruct (Retry._is_cancelled (Retry.handler r)).
  { exists 0%nat. simpl. rewrite app_nil_r. auto. }
  destruct (try_body_of_a_retry (Z.of_nat a) last_exception r)
    as [d [new [Hsched [Heff [Hsl Hinv]]]]]; [lia|exact Hd|].
  destruct (try_body_effects (Z.of_nat a) last_exception r)
    as [_ [_ [_ [Hdel _]]]].
  destruct (try_body (Z.of_nat a) last_exception r) as [[v|e] r1]; simpl in *.
  - exists 1%nat. simpl. rewrite Heff, sleeps_app, invocations_app, Hsl, Hsched.
    rewrite map_app, length_app, Hinv. auto.
  - assert (Hone : map Some (Retry.sleeps (Retry.effects r1))
                   = (map Some (Retry.sleeps (Retry.effects r))
                      ++ [scheduled_delay delays (Z.of_nat a)])%list /\
                   List.length (Retry.invocations (Retry.effects r1))
                   = (List.length (Retry.invocations (Retry.effects r)) + 1)%nat).
    { rewrite Heff, sleeps_app, invocations_app, Hsl, Hsched.
      rewrite map_app, length_app, Hinv. auto. }
    destruct Hone as [Hs1 Hi1].
    destruct (negb (Retry._is_retryable_error e)).
    { exists 1%nat. simpl. auto. }
    destruct (Z.of_nat a =? Retry.max_retries (Retry.handler r1)).
    { exists 1%nat. simpl. rewrite sleeps_app, invocations_app. simpl.
      rewrite !app_nil_r. auto. }
    destruct (IH (S a) (Some e) r1) as [k [Hs Hi]]; [lia|congruence|].
    replace (Z.of_nat a + 1) with (Z.of_nat (S a)) by lia.
    exists (S k). rewrite Hs, Hi, Hs1, Hi1. simpl.
    rewrite <- app_assoc. simpl. split; [reflexivity|lia].
Qed.

Lemma steps_app (es1 es2 : list Retry.Effect) :
  steps (es1 ++ es2) = (steps es1 ++ steps es2)%list.
Proof. unfold steps. apply filter_app. Qed.

(** A retry in the order of its steps: the sleep, then the call. *)
Lemma try_body_steps_of_a_retry (attempt : Z) (last_exception : option string)
    (r : Retry.Run W) :
  1 <= attempt ->
  Retry.retry_delays (Retry.handler r) = delays ->
  exists d res new,
    scheduled_delay delays attempt = Some d /\
    Retry.effects (snd (try_body attempt last_exception r))
    = (Retry.effects r ++ new)%list /\
    steps new = [Retry.Sleep d; Retry.Invoke res].
Proof.
  intros Hatt Hd. unfold Retry.try_body, scheduled_delay. rewrite Hd.
  replace (0 <? attempt) with true by (symmetry; apply Z.ltb_lt; lia).
  destruct (delay_lookup delays attempt delays_nonempty delays_nonnegative)
    as [d [-> Hnn]]; [lia|].
  exists d. unfold Retry.do_sleep.
  replace (d <? 0) with false by (symmetry; apply Z.ltb_ge; lia).
  match goal with
  | |- context [sleep d ?w0] => destruct (sleep d w0) as [w1 c1]
  end.
  unfold Retry.call_func. simpl.
  destruct (func w1) as [[[v|e] w2] c2]; simpl;
    eexists; eexists; (split; [reflexivity|]);
    (split; [rewrite <- !app_assoc; reflexivity|]); reflexivity.
Qed.

Lemma try_body_steps_of_first_attempt (last_exception : option string)
    (r : Retry.Run W) :
  exists res new,
    Retry.effects (snd (try_body 0 last_exception r)) = (Retry.effects r ++ new)%list /\
    steps new = [Retry.Invoke res].
Proof.
  unfold Retry.try_body, Retry.call_func. simpl.
  destruct (func (Retry.world r)) as [[[v|e] w2] c2]; simpl;
    eexists; eexists; (split; [reflexivity|]); reflexivity.
Qed.

Lemma attempts_steps (n : nat) :
  forall (a : nat) (last_exception : option string) (r : Retry.Run W),
    (1 <= a)%nat ->
    Retry.retry_delays (Retry.handler r) = delays ->
    exists later,
      steps (Retry.effects (snd (attempts n (Z.of_nat a) last_exception r)))
      = (steps (Retry.effects r)
         ++ flat_map (fun p => [Retry.Sleep (fst p); Retry.Invoke (snd p)]) later)%list /\
      map Some (map fst later)
      = map (scheduled_delay delays) (map Z.of_nat (seq a (List.length later))).
Proof.
  induction n as [|n IH]; intros a last_exception r Ha Hd; simpl.
  { exists []. simpl. rewrite app_nil_r. auto. }
  destruct (Retry._is_cancelled (Retry.handler r)).
  { exists []. simpl. rewrite app_nil_r. auto. }
  destruct (try_body_steps_of_a_retry (Z.of_nat a) last_exception r)
    as [d [res [new [Hsched [Heff Hsteps]]]]]; [lia|exact Hd|].
  destruct (try_body_effects (Z.of_nat a) last_exception r)
    as [_ [_ [_ [Hdel _]]]].
  destruct (try_body (Z.of_nat a) last_exception r) as [[v|e] r1]; simpl in *.
  - exists [(d, res)]. simpl. rewrite Heff, steps_app, Hsteps, Hsched. auto.
  - assert (Hone : steps (Retry.effects r1)
                   = (steps (Retry.effects r)
                      ++ [Retry.Sleep d; Retry.Invoke res])%list)
      by (rewrite Heff, steps_app, Hsteps; reflexivity).
    destruct (negb (Retry._is_retryable_error e)).
    { exists [(d, res)]. simpl. rewrite Hone, Hsched. auto. }
    destruct (Z.of_nat a =? Retry.max_retries (Retry.handler r1)).
    { exists [(d, res)]. simpl. rewrite steps_app. simpl.
      rewrite app_nil_r, Hone, Hsched. auto. }
    destruct (IH (S a) (Some e) r1) as [later [Hs Hl]]; [lia|congruence|].
    replace (Z.of_nat a + 1) with (Z.of_nat (S a)) by lia.
    exists ((d, res) :: later). rewrite Hs, Hone. simpl.
    rewrite <- app_assoc. simpl. rewrite Hsched, Hl. auto.
Qed.

(** The steps of a run: none at all, or a first call and then, for
    every retry, the scheduled sleep and the call, in this order. *)
Lemma steps_of_a_run (h : Retry.RetryHandler) (w : W) :
  Retry.retry_delays h = delays ->
  steps (Retry.effects (snd (execute_with_retry h w))) = [] \/
  exists first later,
    steps (Retry.effects (snd (execute_with_retry h w))) = timeline first later /\
    map Some (map fst later)
    = map (scheduled_delay delays) (map Z.of_nat (seq 1 (List.length later))).
Proof.
  intros Hd. unfold Retry.execute_with_retry.
  destruct (Z.to_nat (Retry.max_retries h + 1)) as [|n]; [left; reflexivity|].
  simpl.
  destruct (Retry._is_cancelled h); [left; reflexivity|].
  right.
  destruct (try_body_steps_of_first_attempt None (Retry.mkRun h w []))
    as [first [new [Heff Hsteps]]].
  destruct (try_body_effects 0 None (Retry.mkRun h w []))
    as [_ [_ [_ [Hdel _]]]].
  destruct (try_body 0 None (Retry.mkRun h w [])) as [[v|e] r1]; simpl in *.
  - exists first, []. rewrite Heff, Hsteps. auto.
  - destruct (negb (Retry._is_retryable_error e)).
    { exists first, []. simpl. rewrite Heff, Hsteps. auto. }
    match goal with
    | |- context [if ?c then (Exn e, _) else _] => destruct c
    end.
    { exists first, []. simpl. rewrite steps_app. simpl.
      rewrite app_nil_r, Heff, Hsteps. auto. }
    destruct (attempts_steps n 1 (Some e) r1) as [later [Hs Hl]];
      [lia|congruence|].
    change (Z.of_nat 1) with 1 in Hs.
    exists first, later. rewrite Hs, Heff, Hsteps. auto.
Qed.

(** A run makes no call and no sleep, or one call and then [k] times a
    sleep and a call. *)
Lemma sleeps_and_calls_of_a_run (h : Retry.RetryHandler) (w : W) :
  Retry.retry_delays h = delays ->
  exists k,
    map Some (Retry.sleeps (Retry.effects (snd (execute_with_retry h w))))
    = map (scheduled_delay delays) (map Z.of_nat (seq 1 k)) /\
    (List.length (Retry.invocations (Retry.effects (snd (execute_with_retry h w))))
     = 0%nat /\ k = 0%nat \/
     List.length (Retry.invocations (Retry.effects (snd (execute_with_retry h w))))
     = S k).
Proof.
  intros Hd. unfold Retry.execute_with_retry.
  destruct (Z.to_nat (Retry.max_retries h + 1)) as [|n];
    [exists 0%nat; simpl; auto|].
  simpl.
  destruct (Retry._is_cancelled h); [exists 0%nat; simpl; auto|].
  destruct (try_body_of_first_attempt None (Retry.mkRun h w []))
    as [new [Heff [Hsl Hinv]]].
  destruct (try_body_effects 0 None (Retry.mkRun h w []))
    as [_ [_ [_ [Hdel _]]]].
  destruct (try_body 0 None (Retry.mkRun h w [])) as [[v|e] r1]; simpl in *.
  - exists 0%nat. rewrite Heff, Hsl, Hinv. simpl. auto.
  - destruct (negb (Retry._is_retryable_error e)).
    { exists 0%nat. simpl. rewrite Heff, Hsl, Hinv. simpl. auto. }
    match goal with
    | |- context [if ?c then (Exn e, _) else _] => destruct c
    end.
    { exists 0%nat. simpl. rewrite sleeps_app, invocations_app. simpl.
      rewrite !app_nil_r. rewrite Heff, Hsl, Hinv. simpl. auto. }
    destruct (attempts_sleep_schedule n 1 (Some e) r1) as [k [Hs Hi]];
      [lia|congruence|].
    change (Z.of_nat 1) with 1 in Hs, Hi.
    exists k. rewrite Hs, Hi, Heff, Hsl, Hinv. simpl. auto.
Qed.

(** X3. Under a schedule that is not empty and has no negative delay,
    every call after the first is preceded by one sleep, and the sleeps
    are the scheduled delays of retries 1, 2, 3, ... in this order: the
    delay of retry [k] is entry [k - 1] of the schedule, or its last
    entry when the schedule is shorter.  In the order they happen, the
    steps of a run are a first call and then, retry after retry, the
    sleep and the call; a run that is cancelled before its first call
    has no step at all. *)
Theorem sleeps_follow_the_schedule (h : Retry.RetryHandler) (w : W) :
  Retry.retry_delays h = delays ->
  let r := snd (execute_with_retry h w) in
  map Some (Retry.sleeps (Retry.effects r))
  = map (scheduled_delay delays)
      (map Z.of_nat (seq 1 (List.length (Retry.invocations (Retry.effects r)) - 1))) /\
  (steps (Retry.effects r) = [] \/
   exists first later,
     steps (Retry.effects r) = timeline first later /\
     map Some (map fst later)
     = map (scheduled_delay delays) (map Z.of_nat (seq 1 (List.length later)))).
Proof.
  intros Hd. cbv zeta. split; [|now apply steps_of_a_run].
  destruct (sleeps_and_calls_of_a_run h w Hd) as [k [Hs [[Hi Hk]|Hi]]];
    rewrite Hs, Hi.
  - subst k. reflexivity.
  - cbn [Nat.sub]. now rewrite Nat.sub_0_r.
Qed.

(** Under such a schedule every pass through the [try] body ends with
    one call, and raises only what that call raised. *)
Lemma try_body_one_call (a : nat) (last_exception : option string) (r : Retry.Run W) :
  Retry.retry_delays (Retry.handler r) = delays ->
  exists new,
    Retry.effects (snd (try_body (Z.of_nat a) last_exception r))
    = (Retry.effects r ++ new)%list /\
    Retry.max_retries (Retry.handler (snd (try_body (Z.of_nat a) last_exception r)))
    = Retry.max_retries (Retry.handler r) /\
    Retry.retry_delays (Retry.handler (snd (try_body (Z.of_nat a) last_exception r)))
    = Retry.retry_delays (Retry.handler r) /\
    ((exists e, Retry.invocations new = [Some e] /\
                fst (try_body (Z.of_nat a) last_exception r) = Exn e) \/
     (exists v, Retry.invocations new = [None] /\
                fst (try_body (Z.of_nat a) last_exception r) = Ok v)).
Proof.
  intros Hd.
  destruct (try_body_effects (Z.of_nat a) last_exception r)
    as [new [Heff [Hmax [Hdel Hcases]]]].
  exists new. split; [exact Heff|]. split; [exact Hmax|]. split; [exact Hdel|].
  assert (Hone : List.length (Retry.invocations new) = 1%nat).
  { destruct a as [|a].
    - destruct (try_body_of_first_attempt last_exception r) as [new' [Heff' [_ Hl]]].
      change (Z.of_nat 0) with 0 in Heff.
      rewrite Heff in Heff'. apply app_inv_head in Heff'. now subst new'.
    - destruct (try_body_of_a_retry (Z.of_nat (S a)) last_exception r)
        as [d [new' [_ [Heff' [_ Hl]]]]]; [lia|exact Hd|].
      rewrite Heff in Heff'. apply app_inv_head in Heff'. now subst new'. }
  destruct Hcases as [[Hn _]|[H|H]]; [rewrite Hn in Hone; discriminate Hone| |];
    [left|right]; exact H.
Qed.

Lemma attempts_failure_reason (n : nat) :
  forall (a : nat) (last_exception : option string) (r r' : Retry.Run W) (e : string),
    (1 <= n)%nat ->
    Retry.retry_delays (Retry.handler r) = delays ->
    Z.of_nat a + Z.of_nat n = Retry.max_retries (Retry.handler r) + 1 ->
    List.length (Retry.invocations (Retry.effects r)) = a ->
    attempts n (Z.of_nat a) last_exception r = (Exn e, r') ->
    (e = "Retry cancelled by user" /\
     Retry._is_cancelled (Retry.handler r') = true) \/
    ((exists before, Retry.invocations (Retry.effects r')
                     = (before ++ [Some e])%list) /\
     (Retry._is_retryable_error e = false \/
      Z.of_nat (List.length (Retry.invocations (Retry.effects r')))
      = Retry.max_retries (Retry.handler r') + 1)).
Proof.
  induction n as [|n IH]; intros a last_exception r r' e Hn Hd Hbudget Hcalls H;
    [lia|].
  simpl in H.
  destruct (Retry._is_cancelled (Retry.handler r)) eqn:Ec.
  { inversion H; subst. left. auto. }
  destruct (try_body_one_call a last_exception r Hd)
    as [new [Heff [Hmax [Hdel Hcases]]]].
  destruct (try_body (Z.of_nat a) last_exception r) as [[v|e1] r1];
    [discriminate H|].
  cbn [fst snd] in *.
  destruct Hcases as [[e2 [Hinv He]]|[v [_ Hv]]]; [|discriminate Hv].
  inversion He; subst e2.
  assert (Hcalls1 : Retry.invocations (Retry.effects r1)
                    = (Retry.invocations (Retry.effects r) ++ [Some e1])%list)
    by (rewrite Heff, invocations_app, Hinv; reflexivity).
  destruct (negb (Retry._is_retryable_error e1)) eqn:Er.
  { inversion H; subst. right. split; [eauto|].
    left. now apply negb_true_iff in Er. }
  destruct (Z.of_nat a =? Retry.max_retries (Retry.handler r1)) eqn:Em.
  { inversion H; subst. apply Z.eqb_eq in Em. right.
    cbn [Retry.effects Retry.emit Retry.handler].
    rewrite invocations_app. cbn [Retry.invocations flat_map app].
    rewrite app_nil_r, Hcalls1. split; [eauto|].
    right. rewrite length_app. cbn [List.length]. lia. }
  apply Z.eqb_neq in Em.
  replace (Z.of_nat a + 1) with (Z.of_nat (S a)) in H by lia.
  apply (IH (S a) (Some e1) r1 r' e); try assumption; try congruence; try lia.
  rewrite Hcalls1, length_app. cbn [List.length]. lia.
Qed.

(** X4. Why a run fails. With a budget that is not negative, a run
    that raises either was cancelled, and then raises the cancel
    message with the flag set, or raises what its last call raised; in
    the second case that error is not retryable or the budget of
    [max_retries + 1] calls is used up. *)
Theorem failed_run_raises_the_last_error (h : Retry.RetryHandler) (w : W)
    (e : string) (r : Retry.Run W) :
  Retry.retry_delays h = delays ->
  0 <= Retry.max_retries h ->
  execute_with_retry h w = (Exn e, r) ->
  (e = "Retry cancelled by user" /\
   Retry._is_cancelled (Retry.handler r) = true) \/
  ((exists before, Retry.invocations (Retry.effects r)
                   = (before ++ [Some e])%list) /\
   (Retry._is_retryable_error e = false \/
    Py.len (Retry.invocations (Retry.effects r))
    = Retry.max_retries (Retry.handler r) + 1)).
Proof.
  intros Hd Hmax H. unfold Retry.execute_with_retry in H.
  apply (attempts_failure_reason (Z.to_nat (Retry.max_retries h + 1)) 0 None
           (Retry.mkRun h w []) r e); try assumption; try reflexivity.
  - lia.
  - cbn [Retry.handler]. lia.
Qed.

End Schedule.

Lemma calls_within_budget (h : Retry.RetryHandler) (w : W) :
  (List.length (Retry.invocations (Retry.effects (snd (execute_with_retry h w))))
   <= Z.to_nat (Retry.max_retries h + 1))%nat.
Proof.
  unfold Retry.execute_with_retry.
  pose proof (attempts_invocations_bound (Z.to_nat (Retry.max_retries h + 1)) 0 None
                (Retry.mkRun h w [])) as H.
  simpl in H. exact H.
Qed.

End RetryMore.

Lemma successful_run_ends_with_the_call_that_returned_witness :
  exists es,
    Retry.invocations
      (Retry.effects
         (snd (Retry.execute_with_retry (list string) unit
                 (Scenario.executor Scenario.job2) Scenario.quiet_sleep
                 (Retry.create_download_retry_handler 3 None) [])))
    = (map Some es ++ [None])%list /\
    Forall (fun e => Retry._is_retryable_error e = true) es.
Proof.
  apply (successful_run_ends_with_the_call_that_returned (list string) unit
           (Scenario.executor Scenario.job2) Scenario.quiet_sleep
           (Retry.create_download_retry_handler 3 None) [] tt).
  vm_compute. reflexivity.
Defined.

Lemma sleeps_follow_the_schedule_witness :
  map Some
    (Retry.sleeps
       (Retry.effects
          (snd (Retry.execute_with_retry nat unit Scenario.always_timeout
                  Scenario.quiet_sleep (Retry.create_download_retry_handler 5 None)
                  0%nat))))
  = [Some 30; Some 60; Some 180; Some 180; Some 180].
Proof.
  assert (Hne : [30; 60; 180] <> []) by discriminate.
  assert (Hnn : Forall (fun d => 0 <= d) [30; 60; 180]) by (repeat constructor; lia).
  destruct (sleeps_follow_the_schedule nat unit Scenario.always_timeout
              Scenario.quiet_sleep [30; 60; 180] Hne Hnn
              (Retry.create_download_retry_handler 5 None) 0%nat eq_refl) as [H _].
  exact H.
Defined.

Lemma failed_run_raises_the_last_error_witness :
  exists before,
    Retry.invocations
      (Retry.effects
         (snd (Retry.execute_with_retry nat unit Scenario.private_video
                 Scenario.quiet_sleep (Retry.create_download_retry_handler 3 None)
                 0%nat)))
    = (before ++ [Some "ERROR: Private video (network unreachable)"])%list.
Proof.
  assert (Hne : [30; 60; 180] <> []) by discriminate.
  assert (Hnn : Forall (fun d => 0 <= d) [30; 60; 180]) by (repeat constructor; lia).
  assert (Hmax : 0 <= Retry.max_retries (Retry.create_download_retry_handler 3 None))
    by (vm_compute; discriminate).
  destruct (failed_run_raises_the_last_error nat unit Scenario.private_video
              Scenario.quiet_sleep [30; 60; 180] Hne Hnn
              (Retry.create_download_retry_handler 3 None) 0%nat
              "ERROR: Private video (network unreachable)"
              (snd (Retry.execute_with_retry nat unit Scenario.private_video
                      Scenario.quiet_sleep (Retry.create_download_retry_handler 3 None)
                      0%nat))
              eq_refl Hmax ltac:(vm_compute; reflexivity)) as [[H _]|[H _]].
  - discriminate H.
  - exact H.
Defined.

(** * Further properties of the queue manager *)

Lemma in_queue_false_iff (u : string) (q : list string) :
  Batch.in_queue u q = false <-> ~ In u q.
Proof.
  unfold Batch.in_queue. split.
  - intros H Hin. assert (Ht : existsb (String.eqb u) q = true).
    { apply existsb_exists. exists u. split; [exact Hin|apply String.eqb_refl]. }
    rewrite H in Ht. discriminate Ht.
  - intros H. destruct (existsb (String.eqb u) q) eqn:E; [|reflexivity].
    apply existsb_exists in E. destruct E as [x [Hin Heq]].
    apply String.eqb_eq in Heq. subst x. contradiction.
Qed.

Lemma getitem_middle {A : Type} (pre : list A) (x : A) (rest : list A) :
  Py.getitem (pre ++ x :: rest) (Py.len pre) = Some x.
Proof.
  unfold Py.getitem.
  replace ((0 <=? Py.len pre) && (Py.len pre <? Py.len (pre ++ x :: rest))) with true.
  - unfold Py.len. rewrite Nat2Z.id, nth_error_app2, Nat.sub_diag by lia. reflexivity.
  - symmetry. apply andb_true_iff. split; [apply Z.leb_le|apply Z.ltb_lt];
      unfold Py.len; rewrite ?length_app; simpl; lia.
Qed.

Section QueueMore.

Variable urlparse : string -> option Batch.ParseResult.
Variable parse_qs : string -> string -> option (list string).
Variable _resolve_playlist_download_path : option Batch.Info.t -> string -> string.

Local Abbreviation add_to_batch := (Batch.add_to_batch urlparse parse_qs).
Local Abbreviation plain := (plain_url urlparse parse_qs).
Local Abbreviation enqueue_all := (enqueue_all urlparse parse_qs).
Local Abbreviation dequeue_n := (dequeue_n _resolve_playlist_download_path).
Local Abbreviation get_next_batch_item :=
  (Batch.get_next_batch_item _resolve_playlist_download_path).

(** X5. Whatever is offered, [add_to_batch] either leaves the queue as
    it is or puts the stripped address at its end: it never drops or
    reorders an item. A queue without repeated items stays without them,
    and a queue within the limit stays within it. *)
Theorem add_to_batch_only_appends
    (m : Batch.BatchModeManager) (url : string) (queue_limit : option Z) :
  let q := Batch.batch_queue m in
  let q' := Batch.batch_queue (snd (add_to_batch url queue_limit m)) in
  (q' = q \/ q' = (q ++ [Py.strip url])%list) /\
  (NoDup q -> NoDup q') /\
  (forall limit, queue_limit = Some limit -> Py.len q <= limit -> Py.len q' <= limit) /\
  Batch.current_batch_index (snd (add_to_batch url queue_limit m))
  = Batch.current_batch_index m.
Proof.
  unfold Batch.add_to_batch.
  destruct (negb (Py.truthy url) || negb (Py.truthy (Py.strip url)));
    [simpl; auto|].
  destruct (match queue_limit with Some q => _ | None => false end) eqn:Efull;
    [simpl; auto|].
  destruct (Batch.is_playlist_url urlparse parse_qs (Py.strip url)) eqn:Epl.
  { unfold Batch.handle_playlist_url. rewrite Epl. simpl. auto. }
  destruct (Batch.in_queue (Py.strip url) (Batch.batch_queue m)) eqn:Enew;
    [simpl; auto|].
  apply in_queue_false_iff in Enew.
  assert (Hnodup : NoDup (Batch.batch_queue m) ->
                   NoDup (Batch.batch_queue m ++ [Py.strip url])).
  { intros Hnd. apply NoDup_app; [exact Hnd| |].
    - constructor; [intros []|constructor].
    - intros x Hin [Hx|[]]. subst x. contradiction. }
  assert (Hlimit : forall limit,
             queue_limit = Some limit ->
             Py.len (Batch.batch_queue m ++ [Py.strip url]) <= limit).
  { intros limit Hl. subst queue_limit. apply Z.leb_gt in Efull.
    rewrite len_app. change (Py.len [Py.strip url]) with 1. lia. }
  destruct queue_limit as [ql|]; simpl;
    [destruct (Batch.warning_threshold ql <=? _)|]; simpl; auto.
Qed.

Lemma add_plain_fields (m : Batch.BatchModeManager) (u : string) (limit : Z) :
  plain u ->
  Py.len (Batch.batch_queue m) < limit ->
  ~ In u (Batch.batch_queue m) ->
  let m' := snd (add_to_batch u (Some limit) m) in
  Batch.batch_queue m' = (Batch.batch_queue m ++ [u])%list /\
  Batch.current_batch_index m' = Batch.current_batch_index m /\
  Batch.is_batch_mode m' = Batch.is_batch_mode m /\
  Batch.batch_settings m' = Batch.batch_settings m /\
  Batch.current_playlist_info m' = Batch.current_playlist_info m.
Proof.
  intros [S [T [P _]]] Hlen Hnew. apply in_queue_false_iff in Hnew.
  unfold Batch.add_to_batch. rewrite S, T, P, Hnew. simpl.
  replace (limit <=? Py.len (Batch.batch_queue m)) with false
    by (symmetry; apply Z.leb_gt; lia).
  destruct (Batch.warning_threshold limit <=? _); simpl; auto.
Qed.

Lemma enqueue_all_plain (limit : Z) (urls : list string) :
  forall m : Batch.BatchModeManager,
    Forall plain urls ->
    NoDup urls ->
    (forall u, In u urls -> ~ In u (Batch.batch_queue m)) ->
    Py.len (Batch.batch_queue m) + Py.len urls <= limit ->
    let m' := enqueue_all urls (Some limit) m in
    Batch.batch_queue m' = (Batch.batch_queue m ++ urls)%list /\
    Batch.current_batch_index m' = Batch.current_batch_index m /\
    Batch.is_batch_mode m' = Batch.is_batch_mode m.
Proof.
  induction urls as [|u rest IH]; intros m Hplain Hnd Hfresh Hlen; simpl.
  - rewrite app_nil_r. auto.
  - inversion Hplain as [|? ? Hu Hrest]; subst.
    inversion Hnd as [|? ? Hnotin Hnd']; subst.
    assert (Hlen' : Py.len (u :: rest) = 1 + Py.len rest)
      by (unfold Py.len; cbn [List.length]; lia).
    pose proof (len_nonneg rest) as Hnn.
    destruct (add_plain_fields m u limit Hu) as [Hq [Hc [Hm _]]];
      [lia|apply Hfresh; now left|].
    destruct (IH (snd (add_to_batch u (Some limit) m))) as [Hq' [Hc' Hm']]; auto.
    + intros x Hx. rewrite Hq. intros Hin. apply in_app_or in Hin.
      destruct Hin as [Hin|[Hin|[]]].
      * apply (Hfresh x); [now right|exact Hin].
      * subst x. contradiction.
    + rewrite Hq, len_app. change (Py.len [u]) with 1. lia.
    + rewrite Hq', Hc', Hm', Hq, Hc, Hm, <- app_assoc. auto.
Qed.

Lemma dequeue_plain (urls : list string) :
  forall (pre : list string) (m : Batch.BatchModeManager),
    Batch.is_batch_mode m = true ->
    Batch.batch_queue m = (pre ++ urls)%list ->
    Batch.current_batch_index m = Py.len pre ->
    Forall plain urls ->
    map Scenario.source_url (fst (dequeue_n (List.length urls) m)) = map Some urls /\
    Batch.batch_queue (snd (dequeue_n (List.length urls) m)) = Batch.batch_queue m /\
    Batch.current_batch_index (snd (dequeue_n (List.length urls) m))
    = Py.len (Batch.batch_queue m) /\
    Batch.is_batch_mode (snd (dequeue_n (List.length urls) m)) = true.
Proof.
  induction urls as [|u rest IH]; intros pre m Hmode Hq Hc Hplain; simpl.
  - rewrite Hq, app_nil_r. auto.
  - inversion Hplain as [|? ? Hu Hrest]; subst.
    destruct Hu as [_ [_ [_ Hpre]]].
    rewrite (get_next_plain _resolve_playlist_download_path m u); auto.
    + destruct (IH (pre ++ [u])%list
                  (Batch.set_current_batch_index (Batch.current_batch_index m + 1) m))
        as [Hurls [Hq' [Hc' Hm']]]; auto.
      * simpl. rewrite Hq, <- app_assoc. reflexivity.
      * simpl. rewrite Hc, len_app. reflexivity.
      * destruct (dequeue_n (List.length rest) _) as [items m2]. simpl in *.
        rewrite Hurls. auto.
    + rewrite Hq, Hc, len_app. unfold Py.len. cbn [List.length]. lia.
    + rewrite Hq, Hc. apply getitem_middle.
Qed.

(** X6. First in, first out. Plain addresses, all different and not yet
    queued, are added to a queue whose items have all been handed out,
    without passing the limit. Then [get_next_batch_item] hands them out
    one by one in the order they were added, after which the batch is
    complete and the next call returns [None]. *)
Theorem plain_urls_are_dispatched_in_insertion_order
    (m : Batch.BatchModeManager) (urls : list string) (limit : Z) :
  Batch.is_batch_mode m = true ->
  Batch.current_batch_index m = Py.len (Batch.batch_queue m) ->
  Forall plain urls ->
  NoDup urls ->
  (forall u, In u urls -> ~ In u (Batch.batch_queue m)) ->
  Py.len (Batch.batch_queue m) + Py.len urls <= limit ->
  let queued := enqueue_all urls (Some limit) m in
  let drained := snd (dequeue_n (List.length urls) queued) in
  map Scenario.source_url (fst (dequeue_n (List.length urls) queued)) = map Some urls /\
  Batch.is_batch_complete drained = true /\
  get_next_batch_item drained = (Ok None, drained).
Proof.
  intros Hmode Hc Hplain Hnd Hfresh Hlen.
  destruct (enqueue_all_plain limit urls m Hplain Hnd Hfresh Hlen) as [Hq [Hc' Hm]].
  destruct (dequeue_plain urls (Batch.batch_queue m) (enqueue_all urls (Some limit) m))
    as [Hurls [Hq' [Hcur Hmode']]]; try congruence.
  cbv zeta. split; [exact Hurls|].
  assert (Hdone : Batch.is_batch_complete
                    (snd (dequeue_n (List.length urls)
                            (enqueue_all urls (Some limit) m))) = true).
  { unfold Batch.is_batch_complete. rewrite Hq', Hcur. apply Z.leb_refl. }
  split; [exact Hdone|].
  unfold Batch.get_next_batch_item. unfold Batch.is_batch_complete in Hdone.
  rewrite Hdone, orb_true_r. reflexivity.
Qed.

End QueueMore.

Lemma plain_urls_are_dispatched_in_insertion_order_witness :
  map Scenario.source_url
    (fst (dequeue_n Scenario._resolve_playlist_download_path 5
            (enqueue_all Scenario.urlparse Scenario.parse_qs Scenario.five_urls (Some 5)
               Scenario.enabled)))
  = map Some Scenario.five_urls.
Proof.
  apply (plain_urls_are_dispatched_in_insertion_order Scenario.urlparse Scenario.parse_qs
           Scenario._resolve_playlist_download_path Scenario.enabled Scenario.five_urls 5).
  - reflexivity.
  - reflexivity.
  - repeat constructor.
  - repeat constructor; simpl; intuition discriminate.
  - intros u _ [].
  - vm_compute. discriminate.
Defined.

(** * Placeholders: writing a number and reading it back *)

Lemma string_of_uint_digits (d : Decimal.uint) :
  all_chars is_digit (NilEmpty.string_of_uint d) = true.
Proof. induction d; simpl; auto. Qed.

Lemma digits_value_acc (d : Decimal.uint) :
  forall p : positive,
    Py.digits_value (Z.pos p) (NilEmpty.string_of_uint d)
    = Some (Z.pos (Pos.of_uint_acc d p)).
Proof.
  induction d; intros p; cbn [NilEmpty.string_of_uint Py.digits_value Pos.of_uint_acc];
    try reflexivity;
    match goal with
    | |- context [Py.digit_value ?c] =>
        let v := eval vm_compute in (Py.digit_value c) in
        change (Py.digit_value c) with v
    end; cbv iota;
    match goal with
    | |- Py.digits_value ?acc _ = Some (Z.pos (Pos.of_uint_acc _ ?q)) =>
        replace acc with (Z.pos q) by lia
    end; apply IHd.
Qed.

Lemma digits_value_zero (d : Decimal.uint) :
  Py.digits_value 0 (NilEmpty.string_of_uint d) = Some (Z.of_N (Pos.of_uint d)).
Proof.
  induction d; cbn [NilEmpty.string_of_uint Py.digits_value Pos.of_uint];
    try reflexivity;
    match goal with
    | |- context [Py.digit_value ?c] =>
        let v := eval vm_compute in (Py.digit_value c) in
        change (Py.digit_value c) with v
    end; cbv iota; [exact IHd|..];
    match goal with
    | |- Py.digits_value ?acc _ = Some (Z.of_N (N.pos (Pos.of_uint_acc _ ?q))) =>
        change acc with (Z.pos q)
    end; apply digits_value_acc.
Qed.

Lemma digit_is_no_space (c : ascii) : is_digit c = true -> Py.int_isspace c = false.
Proof.
  destruct c as [[] [] [] [] [] [] [] []]; vm_compute; intros H;
    first [reflexivity | discriminate H].
Qed.

Lemma digit_is_no_sign (c : ascii) :
  is_digit c = true ->
  Ascii.eqb c "-" = false /\ Ascii.eqb c "+" = false /\ Ascii.eqb c "_" = false.
Proof.
  destruct c as [[] [] [] [] [] [] [] []]; vm_compute; intros H;
    first [repeat split; reflexivity | discriminate H].
Qed.

Lemma rstrip_digits (s : string) : all_chars is_digit s = true -> Py.int_rstrip s = s.
Proof.
  induction s as [|c s IH]; simpl; [reflexivity|].
  intros H. apply andb_true_iff in H. destruct H as [Hc Hs].
  rewrite (IH Hs). destruct s; [now rewrite (digit_is_no_space c Hc)|reflexivity].
Qed.

Lemma strip_digits (s : string) :
  all_chars is_digit s = true -> Py.int_rstrip (Py.int_lstrip s) = s.
Proof.
  intros H.
  assert (Hl : Py.int_lstrip s = s).
  { destruct s as [|c s]; [reflexivity|]. simpl in *.
    apply andb_true_iff in H. destruct H as [Hc _].
    now rewrite (digit_is_no_space c Hc). }
  rewrite Hl. now apply rstrip_digits.
Qed.

Lemma no_underscore_in_digits (s : string) :
  all_chars is_digit s = true -> Py.contains "_" s = false.
Proof.
  induction s as [|c s IH]; [reflexivity|].
  intros H. simpl in H. apply andb_true_iff in H. destruct H as [Hc Hs].
  destruct (digit_is_no_sign c Hc) as [_ [_ Hu]].
  cbn [Py.contains String.prefix].
  destruct (ascii_dec "_" c) as [E|E].
  - subst c. discriminate Hu.
  - now apply IH.
Qed.

Lemma contains_char_cons (sep c : ascii) (s : string) :
  Py.contains (String sep EmptyString) (String c s)
  = Ascii.eqb sep c || Py.contains (String sep EmptyString) s.
Proof.
  cbn [Py.contains String.prefix].
  destruct (ascii_dec sep c) as [E|E].
  - subst c. rewrite Ascii.eqb_refl. destruct s; reflexivity.
  - apply Ascii.eqb_neq in E. rewrite E. reflexivity.
Qed.

(** The decimal text of a number that is not negative, read back by [int]. *)
Lemma int_of_str_str_int (k : Z) : 0 <= k -> Py.int_of_str (Py.str_int k) = Some k.
Proof.
  intros Hk. destruct k as [|p|p]; [reflexivity| |lia].
  unfold Py.str_int, Py.int_of_str. cbn [Z.to_int NilZero.string_of_int].
  unfold NilZero.string_of_uint.
  pose proof (DecimalPos.Unsigned.to_uint_nonnil p) as Hnil.
  pose proof (string_of_uint_digits (Pos.to_uint p)) as Hdig.
  pose proof (digits_value_zero (Pos.to_uint p)) as Hval.
  rewrite DecimalPos.Unsigned.of_to in Hval.
  destruct (Pos.to_uint p) eqn:E; try contradiction;
    rewrite (strip_digits _ Hdig);
    cbn [NilEmpty.string_of_uint] in *;
    match goal with
    | |- context [Ascii.eqb ?c "-"] =>
        change (Ascii.eqb c "-") with false; change (Ascii.eqb c "+") with false
    end; cbv iota; exact Hval.
Qed.

Lemma no_underscore_in_str_int (k : Z) :
  0 <= k -> Py.contains "_" (Py.str_int k) = false.
Proof.
  intros Hk. destruct k as [|p|p]; [reflexivity| |lia].
  unfold Py.str_int. cbn [Z.to_int NilZero.string_of_int].
  unfold NilZero.string_of_uint.
  pose proof (string_of_uint_digits (Pos.to_uint p)) as Hdig.
  destruct (Pos.to_uint p); try reflexivity; now apply no_underscore_in_digits.
Qed.

Lemma placeholder_prefix (s : string) :
  String.prefix "PLAYLIST_ITEM_" ("PLAYLIST_ITEM_" ++ s) = true.
Proof. cbn. destruct s; reflexivity. Qed.

Lemma placeholder_split_last (k : Z) :
  0 <= k -> Py.split_last "_" ("PLAYLIST_ITEM_" ++ Py.str_int k) = Py.str_int k.
Proof.
  intros Hk. pose proof (no_underscore_in_str_int k Hk) as Hno.
  cbn [append Py.split_last]. rewrite !contains_char_cons, Hno.
  vm_compute (Ascii.eqb _ _). cbn [orb]. reflexivity.
Qed.

(** X7. The placeholder written for number [k] is read back as [k]: the
    text after its last underscore is the decimal form of [k], and [int]
    returns [k] for it. *)
Theorem placeholder_number_round_trip (k : Z) :
  0 <= k ->
  String.prefix "PLAYLIST_ITEM_" ("PLAYLIST_ITEM_" ++ Py.str_int k) = true /\
  Py.int_of_str (Py.split_last "_" ("PLAYLIST_ITEM_" ++ Py.str_int k)) = Some k.
Proof.
  intros Hk. split; [apply placeholder_prefix|].
  rewrite placeholder_split_last by exact Hk. now apply int_of_str_str_int.
Qed.

(** [int] does not skip the separators 28 to 31, which [strip] removes. *)
Example int_keeps_separators :
  Py.strip (String (ascii_of_nat 31) "1") = "1" /\
  Py.int_of_str (String (ascii_of_nat 31) "1") = None /\
  Py.int_of_str " 1 " = Some 1.
Proof. repeat split; reflexivity. Qed.

Lemma placeholder_number_round_trip_witness :
  Py.int_of_str (Py.split_last "_" ("PLAYLIST_ITEM_" ++ Py.str_int 2047)) = Some 2047.
Proof.
  assert (Hk : 0 <= 2047) by lia.
  destruct (placeholder_number_round_trip 2047 Hk) as [_ H]. exact H.
Defined.

(** * The queue under a playlist, a limit, a removal and a move *)

Lemma len_placeholders (n : Z) : Py.len (Batch.placeholders n) = Z.max 0 n.
Proof. unfold Py.len, Batch.placeholders. rewrite length_map, length_seq. lia. Qed.

Lemma playlist_arrival_fields (info : Batch.Info.t) (queue_limit : option Z)
    (m : Batch.BatchModeManager) :
  let m' := Batch.on_playlist_info_extracted info queue_limit m in
  Batch.batch_queue m'
  = Batch.placeholders
      (playlist_items (Batch.Info.video_count info) queue_limit (Batch.playlist_max_items m)) /\
  Batch.is_batch_mode m' = true /\
  Batch.current_playlist_info m' = Some info /\
  Batch.playlist_max_items m' = Batch.playlist_max_items m.
Proof.
  unfold Batch.on_playlist_info_extracted, playlist_items.
  cbn [Batch.is_batch_mode Batch.emit Batch.set_playlist_current_index
       Batch.set_current_playlist_info].
  destruct (Batch.is_batch_mode m) eqn:Eb; cbn [negb];
    destruct queue_limit as [q|]; cbn;
    repeat match goal with
           | |- context [if ?c then _ else _] => destruct c
           end; cbn; rewrite ?Eb; auto.
Qed.

Lemma playlist_within_stored_cap (info : Batch.Info.t)
    (queue_limit : option Z) (m : Batch.BatchModeManager) (p : Z) :
  Batch.playlist_max_items m = Some p -> 0 < p ->
  Py.len (Batch.batch_queue (Batch.on_playlist_info_extracted info queue_limit m)) <= p /\
  Batch.is_batch_mode (Batch.on_playlist_info_extracted info queue_limit m) = true.
Proof.
  intros Hp Hpos.
  destruct (playlist_arrival_fields info queue_limit m) as [Hq [Hb _]].
  split; [|exact Hb]. rewrite Hq, len_placeholders, Hp. unfold playlist_items.
  apply Z.ltb_lt in Hpos. rewrite Hpos.
  destruct queue_limit as [q|]; [destruct (0 <? q)|]; lia.
Qed.

(** X8. A resolved playlist replaces whatever was queued by placeholders
    numbered from one: as many as the playlist reports, cut to the queue
    limit and to the stored cap where these are positive. Batch mode is on
    afterwards. *)
Theorem playlist_fills_queue_within_limits (info : Batch.Info.t) (queue_limit : option Z)
    (m : Batch.BatchModeManager) :
  let m' := Batch.on_playlist_info_extracted info queue_limit m in
  let n := playlist_items (Batch.Info.video_count info) queue_limit
                          (Batch.playlist_max_items m) in
  Batch.batch_queue m' = Batch.placeholders n /\
  Py.len (Batch.batch_queue m') = Z.max 0 n /\
  Py.len (Batch.batch_queue m') <= Z.max 0 (Batch.Info.video_count info) /\
  (forall q, queue_limit = Some q -> 0 < q -> Py.len (Batch.batch_queue m') <= q) /\
  (forall p, Batch.playlist_max_items m = Some p -> 0 < p ->
             Py.len (Batch.batch_queue m') <= p) /\
  Batch.is_batch_mode m' = true.
Proof.
  intros m' n.
  destruct (playlist_arrival_fields info queue_limit m) as [Hq [Hb _]].
  fold m' in Hq, Hb. fold n in Hq.
  assert (Hlen : Py.len (Batch.batch_queue m') = Z.max 0 n)
    by (rewrite Hq; apply len_placeholders).
  repeat split; try assumption; rewrite Hlen; subst n; unfold playlist_items.
  - destruct queue_limit as [q|]; [destruct (0 <? q)|];
      (destruct (Batch.playlist_max_items m) as [p|]; [destruct (0 <? p)|]); lia.
  - intros q -> Hpos. apply Z.ltb_lt in Hpos. rewrite Hpos.
    destruct (Batch.playlist_max_items m) as [p|]; [destruct (0 <? p)|]; lia.
  - intros p -> Hpos. apply Z.ltb_lt in Hpos. rewrite Hpos.
    destruct queue_limit as [q|]; [destruct (0 <? q)|]; lia.
Qed.

Lemma playlist_fills_queue_within_limits_witness :
  Py.len (Batch.batch_queue
            (Batch.on_playlist_info_extracted Scenario.playlist10 (Some 4) Batch.init)) <= 4.
Proof.
  destruct (playlist_fills_queue_within_limits Scenario.playlist10 (Some 4) Batch.init)
    as [_ [_ [_ [H _]]]].
  apply (H 4); [reflexivity|lia].
Defined.

Lemma len_take {A : Type} (limit : Z) (l : list A) :
  0 <= limit -> Py.len (Batch.take limit l) = Z.min limit (Py.len l).
Proof. intros H. unfold Py.len, Batch.take. rewrite length_firstn. lia. Qed.

Lemma enforce_fields (limit : Z) (m : Batch.BatchModeManager) :
  0 < limit ->
  let m' := Batch.enforce_playlist_limit (Some limit) m in
  Batch.batch_queue m' = Batch.take limit (Batch.batch_queue m) /\
  Batch.playlist_max_items m' = Some limit.
Proof.
  intros Hpos. unfold Batch.enforce_playlist_limit, Batch.positive_int.
  replace (0 <? limit) with true by (symmetry; apply Z.ltb_lt; lia).
  unfold Batch.trim_queue_to_limit.
  replace (limit <? 0) with false by (symmetry; apply Z.ltb_ge; lia).
  cbn [Batch.batch_queue Batch.set_playlist_max_items].
  destruct (limit <? Py.len (Batch.batch_queue m)) eqn:E.
  - cbn. repeat match goal with
                | |- context [if ?c then _ else _] => destruct c
                end; cbn; auto.
  - apply Z.ltb_ge in E. cbn. split; [|reflexivity].
    unfold Batch.take. symmetry. apply firstn_all2. unfold Py.len in E. lia.
Qed.

Section LimitMore.

Variable urlparse : string -> option Batch.ParseResult.
Variable parse_qs : string -> string -> option (list string).

(** X9. A positive limit given to [enforce_playlist_limit] cuts the queue
    to its first [limit] items and is remembered: it survives
    [clear_batch_queue], bounds the cap handed to the next playlist
    extraction, and bounds the number of items the next playlist puts in
    the queue, whatever queue limit that playlist arrives with. *)
Theorem enforced_limit_outlives_the_queue (limit : Z) (m : Batch.BatchModeManager)
    (url : string) (info : Batch.Info.t) (queue_limit : option Z) :
  0 < limit ->
  let m1 := Batch.enforce_playlist_limit (Some limit) m in
  let m2 := Batch.clear_batch_queue m1 in
  Batch.batch_queue m1 = firstn (Z.to_nat limit) (Batch.batch_queue m) /\
  Py.len (Batch.batch_queue m1) = Z.min limit (Py.len (Batch.batch_queue m)) /\
  Batch.playlist_max_items m2 = Some limit /\
  (Batch.is_playlist_url urlparse parse_qs url = true ->
   exists cap,
     option_map Batch.extractor_max_items
       (Batch.extractor
          (snd (Batch.handle_playlist_url urlparse parse_qs url queue_limit m2)))
     = Some (Some cap) /\ 0 < cap <= limit) /\
  Py.len (Batch.batch_queue (Batch.on_playlist_info_extracted info queue_limit m2))
  <= limit.
Proof.
  intros Hpos m1 m2.
  destruct (enforce_fields limit m Hpos) as [Hq Hcap]. fold m1 in Hq, Hcap.
  assert (Hcap2 : Batch.playlist_max_items m2 = Some limit) by exact Hcap.
  split; [exact Hq|]. split; [rewrite Hq; apply len_take; lia|].
  split; [exact Hcap2|]. split.
  - intros Hurl. unfold Batch.handle_playlist_url. rewrite Hurl.
    cbn [negb snd Batch.extractor Batch.set_extractor option_map
         Batch.extractor_max_items Batch.playlist_max_items Batch.emit].
    change (Batch.playlist_max_items m2) with (Batch.playlist_max_items m1).
    rewrite Hcap.
    assert (Hl : (0 <? limit) = true) by (apply Z.ltb_lt; lia).
    destruct queue_limit as [q|]; unfold Batch.positive_int.
    + destruct (0 <? q) eqn:Eq; rewrite Hl.
      * apply Z.ltb_lt in Eq. exists (Z.min q limit).
        replace (0 <? Z.min q limit) with true by (symmetry; apply Z.ltb_lt; lia).
        split; [reflexivity|lia].
      * exists limit. rewrite Hl. split; [reflexivity|lia].
    + rewrite Hl. exists limit. rewrite Hl. split; [reflexivity|lia].
  - destruct (playlist_within_stored_cap info queue_limit m2 limit Hcap2 Hpos)
      as [H _]. exact H.
Qed.

End LimitMore.

Lemma enforced_limit_outlives_the_queue_witness :
  Py.len (Batch.batch_queue
            (Batch.on_playlist_info_extracted Scenario.playlist10 (Some 4)
               (Batch.clear_batch_queue
                  (Batch.enforce_playlist_limit (Some 2) Scenario.full5)))) <= 2.
Proof.
  assert (Hpos : 0 < 2) by lia.
  destruct (enforced_limit_outlives_the_queue Scenario.urlparse Scenario.parse_qs
              2 Scenario.full5 "" Scenario.playlist10 (Some 4) Hpos)
    as [_ [_ [_ [_ H]]]].
  exact H.
Defined.

Lemma getitem_nth {A : Type} (l : list A) (i : Z) :
  0 <= i < Py.len l -> Py.getitem l i = nth_error l (Z.to_nat i).
Proof.
  intros H. unfold Py.getitem.
  replace ((0 <=? i) && (i <? Py.len l)) with true
    by (symmetry; apply andb_true_iff; split; [apply Z.leb_le|apply Z.ltb_lt]; lia).
  reflexivity.
Qed.

Lemma getitem_past_end {A : Type} (l : list A) (i : Z) :
  Py.len l <= i -> Py.getitem l i = None.
Proof.
  intros H. pose proof (len_nonneg l). unfold Py.getitem.
  replace (i <? Py.len l) with false by (symmetry; apply Z.ltb_ge; lia).
  replace (i <? 0) with false by (symmetry; apply Z.ltb_ge; lia).
  rewrite !andb_false_r. reflexivity.
Qed.

Lemma nth_error_delete_lt {A : Type} (l : list A) (k n : nat) :
  (n < k)%nat -> nth_error (firstn k l ++ skipn (S k) l) n = nth_error l n.
Proof.
  revert l n; induction k as [|k IH]; intros l n H; [lia|].
  destruct l as [|x l]; [destruct n; reflexivity|].
  destruct n as [|n]; [reflexivity|]. simpl. apply IH. lia.
Qed.

Lemma nth_error_delete_ge {A : Type} (l : list A) (k n : nat) :
  (k <= n)%nat -> nth_error (firstn k l ++ skipn (S k) l) n = nth_error l (S n).
Proof.
  revert l n; induction k as [|k IH]; intros l n H.
  - destruct l as [|x l]; [destruct n; reflexivity|reflexivity].
  - destruct l as [|x l]; [destruct n; reflexivity|].
    destruct n as [|n]; [lia|]. simpl. apply IH. lia.
Qed.

Lemma nth_error_insert_lt {A : Type} (l : list A) (x : A) (k n : nat) :
  (n < k)%nat -> (k <= List.length l)%nat ->
  nth_error (firstn k l ++ x :: skipn k l) n = nth_error l n.
Proof.
  revert l n; induction k as [|k IH]; intros l n H Hk; [lia|].
  destruct l as [|y l]; [simpl in Hk; lia|].
  destruct n as [|n]; [reflexivity|]. simpl. apply IH; simpl in Hk; lia.
Qed.

Lemma nth_error_insert_eq {A : Type} (l : list A) (x : A) (k : nat) :
  (k <= List.length l)%nat -> nth_error (firstn k l ++ x :: skipn k l) k = Some x.
Proof.
  revert l; induction k as [|k IH]; intros l Hk; [reflexivity|].
  destruct l as [|y l]; [simpl in Hk; lia|]. simpl. apply IH. simpl in Hk. lia.
Qed.

Lemma nth_error_insert_gt {A : Type} (l : list A) (x : A) (k n : nat) :
  (k < n)%nat -> (k <= List.length l)%nat ->
  nth_error (firstn k l ++ x :: skipn k l) n = nth_error l (n - 1).
Proof.
  revert l n; induction k as [|k IH]; intros l n H Hk.
  - destruct n as [|n]; [lia|]. simpl. now rewrite Nat.sub_0_r.
  - destruct l as [|y l]; [simpl in Hk; lia|].
    destruct n as [|n]; [lia|]. simpl. rewrite IH by (simpl in Hk; lia).
    rewrite Nat.sub_0_r. destruct n as [|n]; [lia|]. simpl. now rewrite Nat.sub_0_r.
Qed.

Lemma length_delete {A : Type} (l : list A) (k : nat) :
  (k < List.length l)%nat ->
  List.length (firstn k l ++ skipn (S k) l) = (List.length l - 1)%nat.
Proof. intros H. rewrite length_app, length_firstn, length_skipn. lia. Qed.

(** The cursor after [move_in_queue] as the code computes it. *)
Lemma moved_next_item {A : Type} (l : list A) (from_index to_index cursor : Z) (item : A) :
  0 <= from_index < Py.len l ->
  0 <= to_index < Py.len l ->
  from_index <> to_index ->
  nth_error l (Z.to_nat from_index) = Some item ->
  0 <= cursor <= Py.len l ->
  Py.getitem (Batch.insert_at to_index item (Batch.delete_at from_index l))
    (if cursor =? from_index then to_index
     else if (from_index <? cursor) && (cursor <=? to_index) then cursor - 1
     else if (to_index <=? cursor) && (cursor <? from_index) then cursor + 1
     else cursor)
  = Py.getitem l cursor.
Proof.
  intros Hf Ht Hne Hitem Hc.
  assert (Hlen : Py.len (Batch.insert_at to_index item (Batch.delete_at from_index l))
                 = Py.len l)
    by (rewrite len_insert_at, len_delete_at by lia; lia).
  assert (Hd : List.length (firstn (Z.to_nat from_index) l
                            ++ skipn (S (Z.to_nat from_index)) l)
               = (List.length l - 1)%nat)
    by (apply length_delete; unfold Py.len in Hf; lia).
  destruct (Z.eq_dec cursor (Py.len l)) as [Hend|Hin].
  - replace (cursor =? from_index) with false by (symmetry; apply Z.eqb_neq; lia).
    replace (cursor <=? to_index) with false by (symmetry; apply Z.leb_gt; lia).
    replace (cursor <? from_index) with false by (symmetry; apply Z.ltb_ge; lia).
    rewrite !andb_false_r.
    rewrite !getitem_past_end by lia. reflexivity.
  - rewrite (getitem_nth l cursor) by lia.
    assert (Hn : Py.len l = Z.of_nat (List.length l)) by reflexivity.
    destruct (cursor =? from_index) eqn:E1.
    + apply Z.eqb_eq in E1. subst cursor.
      rewrite getitem_nth by lia. unfold Batch.insert_at, Batch.delete_at.
      rewrite nth_error_insert_eq by lia. now rewrite Hitem.
    + apply Z.eqb_neq in E1.
      destruct ((from_index <? cursor) && (cursor <=? to_index)) eqn:E2.
      * apply andb_true_iff in E2. destruct E2 as [E2 E3].
        apply Z.ltb_lt in E2. apply Z.leb_le in E3.
        rewrite getitem_nth by lia. unfold Batch.insert_at, Batch.delete_at.
        rewrite nth_error_insert_lt by lia.
        rewrite nth_error_delete_ge by lia.
        f_equal. lia.
      * destruct ((to_index <=? cursor) && (cursor <? from_index)) eqn:E3.
        -- apply andb_true_iff in E3. destruct E3 as [E3 E4].
           apply Z.leb_le in E3. apply Z.ltb_lt in E4.
           rewrite getitem_nth by lia. unfold Batch.insert_at, Batch.delete_at.
           rewrite nth_error_insert_gt by lia.
           rewrite nth_error_delete_lt by lia.
           f_equal. lia.
        -- rewrite getitem_nth by lia. unfold Batch.insert_at, Batch.delete_at.
           apply andb_false_iff in E2. apply andb_false_iff in E3.
           rewrite ?Z.ltb_ge, ?Z.leb_gt in E2, E3.
           destruct (Z_lt_le_dec cursor from_index) as [Hlt|Hge].
           ++ rewrite nth_error_insert_lt by lia.
              rewrite nth_error_delete_lt by lia. reflexivity.
           ++ rewrite nth_error_insert_gt by lia.
              rewrite nth_error_delete_ge by lia.
              f_equal. lia.
Qed.

(** X10. Moving an item never changes which item is handed out next: the
    queue entry under the cursor is the same before and after
    [move_in_queue], whether the move is carried out or refused. *)
Theorem move_in_queue_keeps_next_item (from_index to_index : Z)
    (m : Batch.BatchModeManager) :
  cursor_in_range m ->
  let m' := snd (Batch.move_in_queue from_index to_index m) in
  Py.getitem (Batch.batch_queue m') (Batch.current_batch_index m')
  = Py.getitem (Batch.batch_queue m) (Batch.current_batch_index m).
Proof.
  unfold cursor_in_range. intros Hc. unfold Batch.move_in_queue.
  destruct ((0 <=? from_index) && (from_index <? Py.len (Batch.batch_queue m))) eqn:Ef;
    [|reflexivity].
  destruct ((0 <=? to_index) && (to_index <? Py.len (Batch.batch_queue m))) eqn:Et;
    [|reflexivity].
  apply andb_true_iff in Ef. destruct Ef as [Ef1 Ef2].
  apply andb_true_iff in Et. destruct Et as [Et1 Et2].
  apply Z.leb_le in Ef1. apply Z.ltb_lt in Ef2.
  apply Z.leb_le in Et1. apply Z.ltb_lt in Et2.
  cbn [negb].
  destruct (from_index =? to_index) eqn:Eq; [reflexivity|]. apply Z.eqb_neq in Eq.
  destruct (getitem_in_range (Batch.batch_queue m) from_index (conj Ef1 Ef2))
    as [item [Hget Hnth]].
  rewrite Hget.
  pose proof (moved_next_item (Batch.batch_queue m) from_index to_index
                (Batch.current_batch_index m) item
                (conj Ef1 Ef2) (conj Et1 Et2) Eq Hnth Hc) as H.
  cbn [Batch.current_batch_index Batch.batch_queue Batch.set_batch_queue].
  destruct (Batch.current_batch_index m =? from_index);
    [exact H|].
  destruct ((from_index <? Batch.current_batch_index m)
            && (Batch.current_batch_index m <=? to_index)); [exact H|].
  destruct ((to_index <=? Batch.current_batch_index m)
            && (Batch.current_batch_index m <? from_index)); exact H.
Qed.

Lemma move_in_queue_keeps_next_item_witness :
  let m' := snd (Batch.move_in_queue 0 3 Scenario.abcd) in
  Py.getitem (Batch.batch_queue m') (Batch.current_batch_index m')
  = Py.getitem (Batch.batch_queue Scenario.abcd)
               (Batch.current_batch_index Scenario.abcd).
Proof.
  apply (move_in_queue_keeps_next_item 0 3 Scenario.abcd).
  unfold cursor_in_range. vm_compute. split; intros H; discriminate H.
Defined.

(** X11. Removing an item other than the one under the cursor leaves the
    next item the same; removing the item under the cursor makes its
    successor the next one. An index outside the queue changes nothing. *)
Theorem remove_from_queue_keeps_next_item (index : Z) (m : Batch.BatchModeManager) :
  cursor_in_range m ->
  let m' := Batch.remove_from_queue index m in
  let next := Py.getitem (Batch.batch_queue m') (Batch.current_batch_index m') in
  (index <> Batch.current_batch_index m ->
   next = Py.getitem (Batch.batch_queue m) (Batch.current_batch_index m)) /\
  (index = Batch.current_batch_index m ->
   next = Py.getitem (Batch.batch_queue m) (Batch.current_batch_index m + 1)) /\
  (~ 0 <= index < Py.len (Batch.batch_queue m) -> m' = m) /\
  (0 <= index < Py.len (Batch.batch_queue m) ->
   Py.len (Batch.batch_queue m') = Py.len (Batch.batch_queue m) - 1).
Proof.
  unfold cursor_in_range. intros Hc. unfold Batch.remove_from_queue.
  destruct ((0 <=? index) && (index <? Py.len (Batch.batch_queue m))) eqn:Ei.
  - apply andb_true_iff in Ei. destruct Ei as [Ei1 Ei2].
    apply Z.leb_le in Ei1. apply Z.ltb_lt in Ei2.
    cbn [Batch.current_batch_index Batch.batch_queue Batch.set_batch_queue Batch.emit].
    assert (Hlen : Py.len (Batch.delete_at index (Batch.batch_queue m))
                   = Py.len (Batch.batch_queue m) - 1)
      by (apply len_delete_at; lia).
    destruct (index <? Batch.current_batch_index m) eqn:E;
      [apply Z.ltb_lt in E|apply Z.ltb_ge in E];
      cbn [Batch.current_batch_index Batch.batch_queue Batch.set_current_batch_index
           Batch.set_batch_queue Batch.emit];
      (split; [intros Hne|split; [intros He|split; [intros Hout; lia|intros _; exact Hlen]]]);
      try lia.
    + destruct (Z.eq_dec (Batch.current_batch_index m) (Py.len (Batch.batch_queue m)))
        as [Hend|Hin].
      * rewrite !getitem_past_end by lia. reflexivity.
      * rewrite !getitem_nth by lia. unfold Batch.delete_at.
        unfold Py.len in *. rewrite nth_error_delete_ge by lia. f_equal. lia.
    + destruct (Z.eq_dec (Batch.current_batch_index m) (Py.len (Batch.batch_queue m)))
        as [Hend|Hin]; [lia|].
      rewrite !getitem_nth by lia. unfold Batch.delete_at.
      unfold Py.len in *. rewrite nth_error_delete_lt by lia. reflexivity.
    + subst index.
      destruct (Z.eq_dec (Batch.current_batch_index m + 1) (Py.len (Batch.batch_queue m)))
        as [Hend|Hin].
      * rewrite !getitem_past_end by lia. reflexivity.
      * rewrite !getitem_nth by lia. unfold Batch.delete_at.
        unfold Py.len in *. rewrite nth_error_delete_ge by lia. f_equal. lia.
  - apply andb_false_iff in Ei. rewrite Z.leb_gt, Z.ltb_ge in Ei.
    split; [reflexivity|]. split; [|split; [reflexivity|lia]].
    intros He. rewrite !getitem_past_end by lia. reflexivity.
Qed.

Lemma remove_from_queue_keeps_next_item_witness :
  let m' := Batch.remove_from_queue 2 Scenario.abcd in
  Py.getitem (Batch.batch_queue m') (Batch.current_batch_index m')
  = Py.getitem (Batch.batch_queue Scenario.abcd)
               (Batch.current_batch_index Scenario.abcd + 1).
Proof.
  assert (Hc : cursor_in_range Scenario.abcd)
    by (unfold cursor_in_range; vm_compute; split; intros H; discriminate H).
  destruct (remove_from_queue_keeps_next_item 2 Scenario.abcd Hc)
    as [_ [H _]].
  apply H. reflexivity.
Defined.

(** * The jobs of a playlist *)

Lemma truthy_app (s t : string) : Py.truthy s = true -> Py.truthy (s ++ t) = true.
Proof. destruct s; [intros H; discriminate H|reflexivity]. Qed.

Lemma get_playlist_video_url_some (index : Z) (m : Batch.BatchModeManager)
    (info : Batch.Info.t) :
  Batch.current_playlist_info m = Some info ->
  Py.truthy (Batch.Info.url info) = true ->
  exists u, Batch.get_playlist_video_url index m = Some u /\ Py.truthy u = true.
Proof.
  intros Hinfo Hurl. unfold Batch.get_playlist_video_url. rewrite Hinfo.
  cbv zeta.
  set (entry_url := if (0 <=? index) && (index <? Py.len (Batch.Info.entries info))
                    then Py.getitem (Batch.Info.entries info) index else None).
  set (list_id := if Py.truthy (Batch.Info.list_id info) then Batch.Info.list_id info
                  else if Py.truthy (Batch.Info.id info) then Batch.Info.id info else "").
  destruct entry_url as [e|].
  - destruct (Py.truthy e) eqn:Ee.
    + destruct (Py.truthy list_id); eexists; split; try reflexivity;
        [now apply truthy_app|exact Ee].
    + rewrite Hurl.
      destruct (Py.truthy list_id); eexists; split; try reflexivity;
        now apply truthy_app.
  - rewrite Hurl.
    destruct (Py.truthy list_id); eexists; split; try reflexivity;
      now apply truthy_app.
Qed.

Section PlaylistJobs.

Variable _resolve_playlist_download_path : option Batch.Info.t -> string -> string.

Local Abbreviation get_next_batch_item :=
  (Batch.get_next_batch_item _resolve_playlist_download_path).
Local Abbreviation dequeue_n := (dequeue_n _resolve_playlist_download_path).

Lemma get_next_placeholder (m : Batch.BatchModeManager) (info : Batch.Info.t) (k : Z) :
  Batch.is_batch_mode m = true ->
  Batch.current_batch_index m < Py.len (Batch.batch_queue m) ->
  Py.getitem (Batch.batch_queue m) (Batch.current_batch_index m)
  = Some ("PLAYLIST_ITEM_" ++ Py.str_int k) ->
  0 <= k ->
  Batch.current_playlist_info m = Some info ->
  Py.truthy (Batch.Info.url info) = true ->
  exists item,
    get_next_batch_item m
    = (Ok (Some item),
       Batch.set_playlist_current_index (k + 1)
         (Batch.set_current_batch_index (Batch.current_batch_index m + 1) m)) /\
    Some (Batch.Item.url item) = Batch.get_playlist_video_url k m.
Proof.
  intros Hmode Hc Hget Hk Hinfo Hurl.
  destruct (get_playlist_video_url_some k m info Hinfo Hurl) as [u [Hu Ht]].
  unfold Batch.get_next_batch_item. rewrite Hmode.
  replace (Py.len (Batch.batch_queue m) <=? Batch.current_batch_index m) with false
    by (symmetry; apply Z.leb_gt; exact Hc).
  cbn [negb orb]. rewrite Hget.
  rewrite placeholder_prefix, placeholder_split_last, int_of_str_str_int by exact Hk.
  unfold Batch._build_batch_item_data.
  change (Batch.get_playlist_video_url k
            (Batch.set_current_batch_index (Batch.current_batch_index m + 1) m))
    with (Batch.get_playlist_video_url k m).
  rewrite Hu, Ht. cbn [negb andb].
  eexists. split; [reflexivity|]. cbn [Batch.Item.url]. reflexivity.
Qed.

Lemma dequeue_placeholders (info : Batch.Info.t) (ks : list Z) :
  forall (pre : list string) (m : Batch.BatchModeManager),
    Batch.is_batch_mode m = true ->
    Batch.batch_queue m
    = (pre ++ map (fun k => ("PLAYLIST_ITEM_" ++ Py.str_int k)%string) ks)%list ->
    Batch.current_batch_index m = Py.len pre ->
    Forall (fun k => 0 <= k) ks ->
    Batch.current_playlist_info m = Some info ->
    Py.truthy (Batch.Info.url info) = true ->
    map Scenario.source_url (fst (dequeue_n (List.length ks) m))
    = map (fun k => Batch.get_playlist_video_url k m) ks /\
    Batch.batch_queue (snd (dequeue_n (List.length ks) m)) = Batch.batch_queue m /\
    Batch.current_batch_index (snd (dequeue_n (List.length ks) m))
    = Py.len (Batch.batch_queue m).
Proof.
  induction ks as [|k rest IH]; intros pre m Hmode Hq Hc Hks Hinfo Hurl; simpl.
  - rewrite Hq, app_nil_r. auto.
  - inversion Hks as [|? ? Hk Hrest]; subst.
    destruct (get_next_placeholder m info k) as [item [Hnext Hitem]]; auto.
    + rewrite Hq, Hc, len_app. unfold Py.len. cbn [List.length map]. lia.
    + rewrite Hq, Hc. cbn [map]. apply getitem_middle.
    + rewrite Hnext.
      destruct (IH (pre ++ [("PLAYLIST_ITEM_" ++ Py.str_int k)%string])%list
                  (Batch.set_playlist_current_index (k + 1)
                     (Batch.set_current_batch_index
                        (Batch.current_batch_index m + 1) m)))
        as [Hurls [Hq2 Hc']]; auto.
      * simpl. rewrite Hq, <- app_assoc. reflexivity.
      * simpl. rewrite Hc, len_app. reflexivity.
      * destruct (dequeue_n (List.length rest) _) as [items m2]. simpl in *.
        rewrite Hurls, <- Hitem. auto.
Qed.

(** X12. The jobs of a resolved playlist. When the cursor is at the start
    and the playlist has an address of its own, calling
    [get_next_batch_item] once per queued placeholder gives one job per
    placeholder, in order, and the job of placeholder number [k] has the
    address [get_playlist_video_url(k)]: the number that counts from one
    is handed on as it is. Afterwards the batch is complete. *)
Theorem playlist_jobs_follow_the_placeholder_numbers (info : Batch.Info.t)
    (queue_limit : option Z) (m : Batch.BatchModeManager) :
  Batch.current_batch_index m = 0 ->
  Py.truthy (Batch.Info.url info) = true ->
  let m1 := Batch.on_playlist_info_extracted info queue_limit m in
  let n := List.length (Batch.batch_queue m1) in
  map Scenario.source_url (fst (dequeue_n n m1))
  = map (fun j => Batch.get_playlist_video_url (Z.of_nat j + 1) m1) (seq 0 n) /\
  Batch.is_batch_complete (snd (dequeue_n n m1)) = true.
Proof.
  intros Hc Hurl m1 n.
  destruct (playlist_arrival_fields info queue_limit m) as [Hq [Hmode [Hinfo _]]].
  fold m1 in Hq, Hmode, Hinfo.
  assert (Hc1 : Batch.current_batch_index m1 = 0).
  { subst m1. unfold Batch.on_playlist_info_extracted.
    cbn [Batch.is_batch_mode Batch.emit Batch.set_playlist_current_index
         Batch.set_current_playlist_info].
    destruct (Batch.is_batch_mode m); cbn [negb];
      destruct queue_limit as [q|]; cbn;
      repeat match goal with
             | |- context [if ?c then _ else _] => destruct c
             end; cbn; auto. }
  set (count := playlist_items (Batch.Info.video_count info) queue_limit
                               (Batch.playlist_max_items m)) in Hq.
  set (ks := map (fun i => Z.of_nat i + 1) (seq 0 (Z.to_nat count))).
  assert (Hq' : Batch.batch_queue m1
                = ([] ++ map (fun k => ("PLAYLIST_ITEM_" ++ Py.str_int k)%string) ks)%list).
  { rewrite Hq. unfold Batch.placeholders, ks. rewrite map_map. reflexivity. }
  assert (Hn : n = List.length ks).
  { unfold n. rewrite Hq'. cbn [app]. now rewrite length_map. }
  assert (Hks : Forall (fun k => 0 <= k) ks).
  { unfold ks. apply Forall_forall. intros k Hin. apply in_map_iff in Hin.
    destruct Hin as [i [<- _]]. lia. }
  destruct (dequeue_placeholders info ks [] m1 Hmode Hq' Hc1 Hks Hinfo Hurl)
    as [Hurls [Hsame Hend]].
  rewrite Hn. split.
  - rewrite Hurls. unfold ks. rewrite map_map. unfold ks in Hn.
    rewrite length_map, length_seq. reflexivity.
  - unfold Batch.is_batch_complete. rewrite Hsame, Hend. apply Z.leb_refl.
Qed.

End PlaylistJobs.

Lemma playlist_jobs_follow_the_placeholder_numbers_witness :
  let m1 := Batch.on_playlist_info_extracted Scenario.playlist10 (Some 4) Batch.init in
  map Scenario.source_url
    (fst (dequeue_n Scenario._resolve_playlist_download_path
            (List.length (Batch.batch_queue m1)) m1))
  = map (fun j => Batch.get_playlist_video_url (Z.of_nat j + 1) m1)
        (seq 0 (List.length (Batch.batch_queue m1))).
Proof.
  apply (playlist_jobs_follow_the_placeholder_numbers
           Scenario._resolve_playlist_download_path Scenario.playlist10 (Some 4) Batch.init);
    reflexivity.
Defined.

Lemma add_to_batch_only_appends_witness :
  NoDup (Batch.batch_queue
           (snd (Batch.add_to_batch Scenario.urlparse Scenario.parse_qs
                   " https://youtu.be/new " (Some 10) Scenario.three_dispatched))).
Proof.
  destruct (add_to_batch_only_appends Scenario.urlparse Scenario.parse_qs
              Scenario.three_dispatched " https://youtu.be/new " (Some 10))
    as [_ [H _]].
  apply H. repeat constructor; simpl; intuition discriminate.
Defined.

(** * Folder names *)

Lemma all_chars_lstrip (test : ascii -> bool) (s : string) :
  all_chars test s = true -> all_chars test (Py.lstrip s) = true.
Proof.
  induction s as [|c s IH]; [auto|]. intros H. simpl.
  destruct (Py.isspace c); [|exact H].
  simpl in H. apply andb_true_iff in H. now apply IH.
Qed.

Lemma all_chars_rstrip (test : ascii -> bool) (s : string) :
  all_chars test s = true -> all_chars test (Py.rstrip s) = true.
Proof.
  induction s as [|c s IH]; [auto|]. intros H. simpl in *.
  apply andb_true_iff in H. destruct H as [Hc Hs]. specialize (IH Hs).
  destruct (Py.rstrip s) eqn:E.
  - destruct (Py.isspace c); [reflexivity|]. simpl. now rewrite Hc.
  - cbn [all_chars]. rewrite Hc. exact IH.
Qed.

Lemma all_chars_lstrip_char (test : ascii -> bool) (d : ascii) (s : string) :
  all_chars test s = true -> all_chars test (PyStr.lstrip_char d s) = true.
Proof.
  induction s as [|c s IH]; [auto|]. intros H. simpl.
  destruct (Ascii.eqb c d); [|exact H].
  simpl in H. apply andb_true_iff in H. now apply IH.
Qed.

Lemma all_chars_rstrip_char (test : ascii -> bool) (d : ascii) (s : string) :
  all_chars test s = true -> all_chars test (PyStr.rstrip_char d s) = true.
Proof.
  induction s as [|c s IH]; [auto|]. intros H. simpl in *.
  apply andb_true_iff in H. destruct H as [Hc Hs]. specialize (IH Hs).
  destruct (PyStr.rstrip_char d s) eqn:E.
  - destruct (Ascii.eqb c d); [reflexivity|]. simpl. now rewrite Hc.
  - cbn [all_chars]. rewrite Hc. exact IH.
Qed.

Lemma all_chars_substring (test : ascii -> bool) (n : nat) :
  forall s, all_chars test s = true -> all_chars test (String.substring 0 n s) = true.
Proof.
  induction n as [|n IH]; intros [|c s] H; simpl; auto.
  simpl in H. apply andb_true_iff in H. destruct H as [Hc Hs].
  rewrite Hc. now apply IH.
Qed.

Lemma length_substring_le (n : nat) :
  forall s, (String.length (String.substring 0 n s) <= n)%nat.
Proof.
  induction n as [|n IH]; intros [|c s]; simpl; try lia.
  specialize (IH s). lia.
Qed.

Lemma sub_invalid_runs_valid (s : string) :
  forall in_run,
    all_chars (fun c => negb (BatchView.invalid_path_char c))
              (BatchView.sub_invalid_runs in_run s) = true.
Proof.
  induction s as [|c s IH]; intros in_run; [reflexivity|]. simpl.
  destruct (BatchView.invalid_path_char c) eqn:E.
  - destruct in_run; [apply IH|]. cbn [all_chars]. rewrite IH. reflexivity.
  - cbn [all_chars]. rewrite E, IH. reflexivity.
Qed.

Lemma lstrip_char_no_lead (d : ascii) (s : string) :
  String.prefix (String d EmptyString) (PyStr.lstrip_char d s) = false.
Proof.
  induction s as [|c s IH]; [reflexivity|]. simpl.
  destruct (Ascii.eqb c d) eqn:E; [exact IH|].
  cbn [String.prefix]. destruct (ascii_dec d c) as [->|_]; [|reflexivity].
  rewrite Ascii.eqb_refl in E. discriminate E.
Qed.

Lemma rstrip_char_no_lead (d : ascii) (s : string) :
  String.prefix (String d EmptyString) s = false ->
  String.prefix (String d EmptyString) (PyStr.rstrip_char d s) = false.
Proof.
  destruct s as [|c s]; [auto|]. intros H. simpl.
  cbn [String.prefix] in H. destruct (ascii_dec d c) as [->|Hne];
    [destruct s; discriminate H|].
  destruct (PyStr.rstrip_char d s).
  - destruct (Ascii.eqb c d); [reflexivity|].
    cbn [String.prefix]. destruct (ascii_dec d c); [contradiction|reflexivity].
  - cbn [String.prefix]. destruct (ascii_dec d c); [contradiction|reflexivity].
Qed.

Lemma substring_no_lead (d : ascii) (n : nat) (s : string) :
  String.prefix (String d EmptyString) s = false ->
  String.prefix (String d EmptyString) (String.substring 0 n s) = false.
Proof.
  destruct s as [|c s]; destruct n; auto. intros H. simpl.
  cbn [String.prefix] in *. destruct (ascii_dec d c); [|reflexivity].
  destruct s; discriminate H.
Qed.

(** X13. Whatever the name, the folder name made from it holds none of the
    nine characters backslash, slash, colon, star, question mark, double
    quote, less, greater and bar, has at most 100 characters and does not
    begin with a dot. *)
Theorem sanitized_folder_name_is_safe (name : string) :
  let folder := BatchView._sanitize_folder_name name in
  all_chars (fun c => negb (BatchView.invalid_path_char c)) folder = true /\
  PyStr.len folder <= 100 /\
  String.prefix "." folder = false.
Proof.
  unfold BatchView._sanitize_folder_name.
  set (raw := BatchView.sub_invalid_runs false
                (if Py.truthy name then name else "Playlist")).
  set (trimmed := PyStr.strip_char "." (Py.strip raw)).
  assert (Hvalid : all_chars (fun c => negb (BatchView.invalid_path_char c)) trimmed
                   = true).
  { unfold trimmed, PyStr.strip_char, Py.strip.
    apply all_chars_rstrip_char, all_chars_lstrip_char, all_chars_rstrip,
      all_chars_lstrip, sub_invalid_runs_valid. }
  assert (Hlead : String.prefix "." trimmed = false).
  { unfold trimmed, PyStr.strip_char. apply rstrip_char_no_lead, lstrip_char_no_lead. }
  cbv zeta. destruct (100 <? PyStr.len trimmed) eqn:E.
  - unfold PyStr.take. split; [now apply all_chars_substring|]. split.
    + unfold PyStr.len. pose proof (length_substring_le (Z.to_nat 100) trimmed). lia.
    + now apply substring_no_lead.
  - apply Z.ltb_ge in E. auto.
Qed.

(** * The format selector *)

Lemma endswith_app (suffix s t : string) :
  PyStr.endswith suffix t = true -> PyStr.endswith suffix (s ++ t) = true.
Proof.
  intros H. induction s as [|c s IH]; [exact H|].
  cbn [append PyStr.endswith]. rewrite IH. now destruct (String.eqb suffix _).
Qed.

Lemma contains_char_app (c : ascii) (s t : string) :
  Py.contains (String c EmptyString) (s ++ t)
  = Py.contains (String c EmptyString) s || Py.contains (String c EmptyString) t.
Proof.
  induction s as [|a s IH].
  - cbn [append]. destruct t; reflexivity.
  - cbn [append]. rewrite !contains_char_cons, IH. now rewrite orb_assoc.
Qed.

Lemma contains_char_substring (c : ascii) (n : nat) :
  forall s, Py.contains (String c EmptyString) s = false ->
            Py.contains (String c EmptyString) (String.substring 0 n s) = false.
Proof.
  induction n as [|n IH]; intros [|a s] H; try reflexivity; try exact H.
  cbn [String.substring]. rewrite contains_char_cons in *.
  apply orb_false_iff in H. destruct H as [Ha Hs].
  rewrite Ha. now apply IH.
Qed.

(** X14. Every format selector ends in the alternative [best], so there is
    always a last resort. When FFmpeg is missing and the resolution holds
    no plus sign, the selector holds none either: no alternative asks for
    two streams to be merged. *)
Theorem format_selector_has_a_last_resort (t : Process.DownloadThread) :
  PyStr.endswith "/best" (Process.get_format_selector t) = true /\
  (Process.ffmpeg_available t = false ->
   Py.contains "+" (Process.resolution t) = false ->
   Py.contains "+" (Process.get_format_selector t) = false).
Proof.
  unfold Process.get_format_selector. split.
  - repeat match goal with
           | |- context [if ?c then _ else _] => destruct c
           end;
      try reflexivity;
      repeat first [ reflexivity | apply endswith_app ].
  - intros Hff Hres. rewrite Hff.
    destruct (String.eqb (Process.resolution t) "Audio").
    { repeat match goal with
             | |- context [if ?c then _ else _] => destruct c
             end; reflexivity. }
    assert (Hh : Py.contains "+" (PyStr.drop_last (Process.resolution t)) = false)
      by (apply contains_char_substring; exact Hres).
    destruct (String.eqb (Process.preferred_video_format t) "mp4") eqn:E1.
    { apply String.eqb_eq in E1. rewrite E1. cbn [orb].
      rewrite !contains_char_app, Hh. reflexivity. }
    destruct (String.eqb (Process.preferred_video_format t) "webm") eqn:E2.
    { apply String.eqb_eq in E2. rewrite E2. cbn [orb].
      rewrite !contains_char_app, Hh. reflexivity. }
    cbn [orb]. rewrite !contains_char_app, Hh. reflexivity.
Qed.

Lemma format_selector_has_a_last_resort_witness :
  Py.contains "+"
    (Process.get_format_selector (Process.mkDownloadThread "1080p" "mp4" "m4a" false))
  = false.
Proof.
  destruct (format_selector_has_a_last_resort
              (Process.mkDownloadThread "1080p" "mp4" "m4a" false)) as [_ H].
  apply H; reflexivity.
Defined.

(** * The preview of the queue *)

Lemma preview_item_index_status (m : Batch.BatchModeManager) (i : Z) (u : string) :
  BatchView.index (BatchView.preview_item m i u) = i /\
  BatchView.status (BatchView.preview_item m i u)
  = (if i <? Batch.current_batch_index m then "completed" else "pending").
Proof.
  unfold BatchView.preview_item.
  destruct (String.prefix "PLAYLIST_ITEM_" u); split; reflexivity.
Qed.

Lemma preview_item_plain (m : Batch.BatchModeManager) (i : Z) (u : string) :
  String.prefix "PLAYLIST_ITEM_" u = false ->
  BatchView.url (BatchView.preview_item m i u) = u /\
  BatchView.title (BatchView.preview_item m i u) = "Video: " ++ u.
Proof. intros H. unfold BatchView.preview_item. rewrite H. split; reflexivity. Qed.

Lemma enumerate_from_nth {A : Type} (l : list A) :
  forall (i : Z) (n : nat),
    nth_error (BatchView.enumerate_from i l) n
    = option_map (fun x => (i + Z.of_nat n, x)) (nth_error l n).
Proof.
  induction l as [|x l IH]; intros i n; [destruct n; reflexivity|].
  destruct n as [|n]; simpl.
  - now rewrite Z.add_0_r.
  - rewrite IH. destruct (nth_error l n); simpl; [|reflexivity].
    do 2 f_equal. lia.
Qed.

Lemma pending_count (m : Batch.BatchModeManager) (l : list string) :
  forall i : Z,
    Py.len (filter (fun item => String.eqb (BatchView.status item) "pending")
              (map (fun entry => BatchView.preview_item m (fst entry) (snd entry))
                   (BatchView.enumerate_from i l)))
    = Z.max 0 (i + Py.len l - Z.max i (Batch.current_batch_index m)).
Proof.
  induction l as [|u l IH]; intros i.
  - unfold Py.len. simpl. lia.
  - cbn [BatchView.enumerate_from map filter fst snd].
    destruct (preview_item_index_status m i u) as [_ Hs]. rewrite Hs.
    specialize (IH (i + 1)). unfold Py.len in *. cbn [List.length].
    destruct (i <? Batch.current_batch_index m) eqn:E;
      [apply Z.ltb_lt in E|apply Z.ltb_ge in E]; cbn [String.eqb Ascii.eqb Bool.eqb];
      simpl; cbn [List.length]; lia.
Qed.

(** X15. The preview lists the queue: one entry per item, numbered from
    zero in the order of the queue; the entries before the cursor are
    marked completed and the others pending; an item that is not a
    placeholder is shown with its own address. While the cursor is within
    the queue, the number of pending entries is the [remaining] count of
    [get_batch_status]. *)
Theorem queue_preview_lists_the_queue (m : Batch.BatchModeManager) :
  let preview := BatchView.get_queue_preview m in
  Py.len preview = Py.len (Batch.batch_queue m) /\
  (forall (n : nat) (u : string),
     nth_error (Batch.batch_queue m) n = Some u ->
     exists item,
       nth_error preview n = Some item /\
       BatchView.index item = Z.of_nat n /\
       BatchView.status item
       = (if Z.of_nat n <? Batch.current_batch_index m then "completed" else "pending") /\
       (String.prefix "PLAYLIST_ITEM_" u = false -> BatchView.url item = u)) /\
  (cursor_in_range m ->
   Py.len (filter (fun item => String.eqb (BatchView.status item) "pending") preview)
   = BatchView.remaining (BatchView.get_batch_status m)).
Proof.
  unfold BatchView.get_queue_preview. cbv zeta. split; [|split].
  - unfold Py.len. rewrite length_map. f_equal.
    generalize 0. induction (Batch.batch_queue m) as [|u l IH]; intros i;
      [reflexivity|]. simpl. now rewrite IH.
  - intros n u Hn. rewrite nth_error_map, enumerate_from_nth, Hn. cbn.
    eexists. split; [reflexivity|].
    destruct (preview_item_index_status m (Z.of_nat n) u) as [Hi Hs].
    split; [exact Hi|]. split; [exact Hs|].
    intros Hp. now apply preview_item_plain.
  - unfold cursor_in_range. intros Hc. rewrite pending_count.
    cbn [BatchView.remaining BatchView.get_batch_status]. lia.
Qed.

Lemma queue_preview_lists_the_queue_witness :
  Py.len (filter (fun item => String.eqb (BatchView.status item) "pending")
            (BatchView.get_queue_preview Scenario.abcd))
  = BatchView.remaining (BatchView.get_batch_status Scenario.abcd).
Proof.
  destruct (queue_preview_lists_the_queue Scenario.abcd) as [_ [_ H]].
  apply H. unfold cursor_in_range. vm_compute. split; intros E; discriminate E.
Defined.

Lemma split_no_sep (sep : ascii) (s : string) :
  Py.contains (String sep EmptyString) s = false -> PyStr.split sep s = [s].
Proof.
  induction s as [|c s IH]; [reflexivity|]. rewrite contains_char_cons.
  intros H. apply orb_false_iff in H. destruct H as [Hc Hs].
  cbn [PyStr.split]. rewrite Ascii.eqb_sym, Hc, (IH Hs). reflexivity.
Qed.

Lemma split_placeholder (k : Z) :
  0 <= k ->
  PyStr.split "_" ("PLAYLIST_ITEM_" ++ Py.str_int k) = ["PLAYLIST"; "ITEM"; Py.str_int k].
Proof.
  intros Hk. cbn [append PyStr.split].
  vm_compute (Ascii.eqb _ "_").
  rewrite (split_no_sep "_" (Py.str_int k)) by now apply no_underscore_in_str_int.
  reflexivity.
Qed.

Lemma preview_item_placeholder (m : Batch.BatchModeManager) (info : Batch.Info.t)
    (i k : Z) :
  0 <= k ->
  Batch.current_playlist_info m = Some info ->
  BatchView.url (BatchView.preview_item m i ("PLAYLIST_ITEM_" ++ Py.str_int k))
  = "Playlist item " ++ Py.str_int k /\
  BatchView.title (BatchView.preview_item m i ("PLAYLIST_ITEM_" ++ Py.str_int k))
  = Batch.Info.title info ++ " - Video #" ++ Py.str_int k.
Proof.
  intros Hk Hinfo. unfold BatchView.preview_item.
  rewrite placeholder_prefix, split_placeholder by exact Hk.
  change (Py.getitem ["PLAYLIST"; "ITEM"; Py.str_int k] 2) with (Some (Py.str_int k)).
  change (3 <=? Py.len ["PLAYLIST"; "ITEM"; Py.str_int k]) with true.
  cbv iota zeta. rewrite int_of_str_str_int by exact Hk. rewrite Hinfo.
  split; reflexivity.
Qed.

(** X16. The preview of a resolved playlist. Whatever the queue limit and
    the cursor, the entries of the preview are, in order, [Playlist item 1],
    [Playlist item 2], ... with the titles [<playlist title> - Video #1],
    [<playlist title> - Video #2], ...: the number written into each
    placeholder is the number the preview reads back from it. *)
Theorem playlist_preview_is_numbered_from_one (info : Batch.Info.t)
    (queue_limit : option Z) (m : Batch.BatchModeManager) :
  let m1 := Batch.on_playlist_info_extracted info queue_limit m in
  let numbers := map (fun j => Z.of_nat j + 1)
                     (seq 0 (List.length (Batch.batch_queue m1))) in
  map BatchView.url (BatchView.get_queue_preview m1)
  = map (fun k => "Playlist item " ++ Py.str_int k) numbers /\
  map BatchView.title (BatchView.get_queue_preview m1)
  = map (fun k => Batch.Info.title info ++ " - Video #" ++ Py.str_int k) numbers.
Proof.
  intros m1.
  destruct (playlist_arrival_fields info queue_limit m) as [Hq [_ [Hinfo _]]].
  fold m1 in Hq, Hinfo.
  unfold BatchView.get_queue_preview. rewrite Hq. unfold Batch.placeholders.
  rewrite length_map, length_seq.
  set (count := Z.to_nat _). clearbody count. cbv zeta.
  assert (Hgen : forall (i : Z) (a : nat), i = Z.of_nat a ->
            map (fun entry => BatchView.preview_item m1 (fst entry) (snd entry))
              (BatchView.enumerate_from i
                 (map (fun j => "PLAYLIST_ITEM_" ++ Py.str_int (Z.of_nat j + 1))
                      (seq a count)))
            = map (fun j => BatchView.preview_item m1 (Z.of_nat j)
                              ("PLAYLIST_ITEM_" ++ Py.str_int (Z.of_nat j + 1)))
                  (seq a count)).
  { induction count as [|c IH]; intros i a Hi; [reflexivity|].
    cbn [seq map BatchView.enumerate_from fst snd]. subst i. f_equal.
    apply IH. lia. }
  rewrite (Hgen 0 0%nat eq_refl), !map_map.
  split; apply map_ext; intros j;
    destruct (preview_item_placeholder m1 info (Z.of_nat j) (Z.of_nat j + 1))
      as [Hu Ht]; try lia; try exact Hinfo; assumption.
Qed.

(** * One download thread *)

Section ThreadRun.

Variable W : Type.
Variable _download_with_ytdl : string -> W -> PyResult unit * W * bool.
Variable sleep : Z -> W -> W * bool.
Variable makedirs : string -> W -> PyResult unit * W.
Variable current_video_title : string -> W -> option string.

Local Abbreviation run :=
  (Main.run W _download_with_ytdl sleep makedirs current_video_title).
Local Abbreviation make_download_folder := (Main.make_download_folder W makedirs).

(** X17. One run of a download thread. When the download folder cannot
    be made, the run makes no call and emits no signal, not even
    [finished]. When it can, the run emits [finished] once, as its last
    signal, after at most one [download_failed]. For a blank path nothing
    has to be made. In every case, whatever the download does, it is
    called at most four times, and the steps of the run are a first call
    and then, before the second, third and fourth call, a sleep of 30, 60
    and 180 seconds, so at most 270 seconds in all. *)
Theorem download_thread_run_is_bounded (url download_path : string) (w : W) :
  let signals := fst (fst (run url download_path w)) in
  let effects := snd (fst (run url download_path w)) in
  let calls := List.length (Retry.invocations effects) in
  (forall e w', make_download_folder download_path w = (Exn e, w') ->
                run url download_path w = ([], [], w')) /\
  (forall w', make_download_folder download_path w = (Ok tt, w') ->
              signals = [Main.finished] \/
              exists error_message,
                signals = [Main.download_failed error_message; Main.finished]) /\
  (Py.strip download_path = "" -> make_download_folder download_path w = (Ok tt, w)) /\
  (calls <= 4)%nat /\
  (steps effects = [] \/
   exists first later,
     steps effects = timeline first later /\
     map fst later = firstn (List.length later) [30; 60; 180]) /\
  Retry.sleeps effects = firstn (calls - 1) [30; 60; 180] /\
  fold_right Z.add 0 (Retry.sleeps effects) <= 270.
Proof.
  cbv zeta. split; [|split; [|split]].
  { intros e w' Hf. unfold Main.run. rewrite Hf. reflexivity. }
  { intros w' Hf. unfold Main.run. rewrite Hf.
    destruct (Retry.execute_with_retry W unit (_download_with_ytdl url) sleep _ w')
      as [res r].
    cbn [fst snd].
    destruct res as [v|e]; [left; reflexivity|].
    destruct (negb (Retry._is_cancelled (Retry.handler r)));
      [right; eexists; reflexivity|left; reflexivity]. }
  { intros Hblank. unfold Main.make_download_folder. rewrite Hblank.
    cbn [Py.truthy]. now rewrite andb_false_r. }
  unfold Main.run.
  destruct (make_download_folder download_path w) as [[u|e] w'];
    [|cbn; repeat split; try lia; left; reflexivity].
  set (h := Retry.create_download_retry_handler 3 (Some [30; 60; 180])).
  pose proof (calls_within_budget W unit (_download_with_ytdl url) sleep h w') as Hcalls.
  assert (Hne : [30; 60; 180] <> []) by discriminate.
  assert (Hnn : Forall (fun d => 0 <= d) [30; 60; 180]) by (repeat constructor; lia).
  destruct (sleeps_and_calls_of_a_run W unit (_download_with_ytdl url) sleep
              [30; 60; 180] Hne Hnn h w' eq_refl) as [k [Hsched Hk]].
  pose proof (steps_of_a_run W unit (_download_with_ytdl url) sleep
                [30; 60; 180] Hne Hnn h w' eq_refl) as Hsteps.
  destruct (Retry.execute_with_retry W unit (_download_with_ytdl url) sleep h w')
    as [res r].
  cbn [fst snd] in *. change (Z.to_nat (Retry.max_retries h + 1)) with 4%nat in Hcalls.
  split; [exact Hcalls|].
  assert (Hsl : Retry.sleeps (Retry.effects r)
                = map (fun o => match o with Some d => d | None => 0 end)
                      (map (scheduled_delay [30; 60; 180]) (map Z.of_nat (seq 1 k)))).
  { rewrite <- Hsched, map_map. cbn beta iota. now rewrite map_id. }
  split.
  { destruct Hsteps as [Hnone|[first [later [Ht Hl]]]]; [left; exact Hnone|].
    right. exists first, later. split; [exact Ht|].
    assert (Hlen : (List.length later <= 3)%nat).
    { assert (Hinv : Retry.invocations (Retry.effects r)
                     = Retry.invocations (steps (Retry.effects r))).
      { clear. induction (Retry.effects r) as [|[s|d|res] es IH]; simpl; congruence. }
      rewrite Hinv, Ht in Hcalls. unfold timeline in Hcalls. simpl in Hcalls.
      assert (Hcount : forall l : list (Z * option string),
                 List.length
                   (Retry.invocations
                      (flat_map (fun p => [Retry.Sleep (fst p); Retry.Invoke (snd p)]) l))
                 = List.length l)
        by (induction l as [|p l IHl]; simpl; congruence).
      rewrite Hcount in Hcalls. lia. }
    assert (Hmap : map (fun o => match o with Some d => d | None => 0 end)
                       (map Some (map fst later)) = map fst later)
      by (rewrite map_map; apply map_id).
    rewrite <- Hmap, Hl.
    destruct (List.length later) as [|[|[|[|n]]]]; [| | | |exfalso; lia];
      reflexivity. }
  rewrite Hsl.
  destruct Hk as [[Hi Hk]|Hi]; rewrite Hi in *.
  - subst k. split; [reflexivity|cbn; lia].
  - destruct k as [|[|[|[|k]]]]; [| | | |exfalso; lia];
      (split; [reflexivity|apply Z.leb_le; reflexivity]).
Qed.

End ThreadRun.

Lemma download_thread_run_is_bounded_witness :
  let signals := fst (fst (Main.run (list string) instant_download Scenario.quiet_sleep
                             Scenario.makedirs Scenario.no_title
                             Scenario.job1 "downloads" [])) in
  signals = [Main.finished] \/
  exists error_message, signals = [Main.download_failed error_message; Main.finished].
Proof.
  destruct (download_thread_run_is_bounded (list string) instant_download
              Scenario.quiet_sleep Scenario.makedirs Scenario.no_title
              Scenario.job1 "downloads" []) as [_ [H _]].
  apply (H []). reflexivity.
Defined.

(** * The pump over a whole queue *)

Section PumpAll.

Variable W : Type.
Variable _download_with_ytdl : string -> W -> PyResult unit * W * bool.
Variable sleep : Z -> W -> W * bool.
Variable makedirs : string -> W -> PyResult unit * W.
Variable current_video_title : string -> W -> option string.
Variable urlparse : string -> option Batch.ParseResult.
Variable parse_qs : string -> string -> option (list string).
Variable _resolve_playlist_download_path : option Batch.Info.t -> string -> string.
Variable get_max_concurrent_downloads : Z.
Variable get_disable_cookies : bool.
Variable show_cookie_detection_dialog : option (string * string).

Local Abbreviation start_batch_download :=
  (Main.start_batch_download W urlparse parse_qs _resolve_playlist_download_path
     get_max_concurrent_downloads).
Local Abbreviation event_loop :=
  (Main.event_loop W _download_with_ytdl sleep makedirs current_video_title urlparse
     parse_qs
     _resolve_playlist_download_path get_max_concurrent_downloads get_disable_cookies
     show_cookie_detection_dialog).
Local Abbreviation make_download_folder := (Main.make_download_folder W makedirs).
Local Abbreviation turn :=
  (Main.turn W _download_with_ytdl sleep makedirs current_video_title urlparse
     parse_qs
     _resolve_playlist_download_path get_max_concurrent_downloads get_disable_cookies
     show_cookie_detection_dialog).

(** Every download returns at its first call and is not cancelled. *)
Hypothesis downloads_succeed :
  forall (url : string) (w : W), exists w', _download_with_ytdl url w = (Ok tt, w', false).

Lemma pump_turn (fuel : nat) (a a' : Main.MainWindow W) :
  turn a = Some a' -> event_loop (S fuel) a = event_loop fuel a'.
Proof. intros H. simpl. now rewrite H. Qed.

Lemma pump_idle (fuel : nat) (a : Main.MainWindow W) :
  Main.pending W a = [] -> event_loop fuel a = Some a.
Proof. intros H. destruct fuel; simpl; unfold Main.turn; now rewrite H. Qed.

Lemma pump_next (m : Batch.BatchModeManager) (u : string)
    (v : Main.Ui) (cookie thread : option string) (pending : list Main.Pending)
    (w : W) (runs : list (string * list Retry.Effect))
    (completed : list Batch.Summary) (uncaught : list string) :
  Py.strip (Main.link_input v) = "" ->
  Batch.is_batch_mode m = true ->
  Batch.current_batch_index m < Py.len (Batch.batch_queue m) ->
  Py.getitem (Batch.batch_queue m) (Batch.current_batch_index m) = Some u ->
  String.prefix "PLAYLIST_ITEM_" u = false ->
  start_batch_download
    (Main.mkMainWindow W m false false v cookie thread pending w runs completed uncaught)
  = Main.mkMainWindow W
      (Batch.set_current_batch_index (Batch.current_batch_index m + 1) m)
      true false v cookie (Some u)
      (pending
       ++ [Main.TimerThreadStart u
             (Batch.Settings.download_path (Batch.batch_settings m))]) w runs
      completed uncaught.
Proof.
  intros Hinput Hmode Hlt Hget Hpre. unfold Main.start_batch_download.
  cbn [Main.is_downloading Main._block_batch_after_cancel Main.batch_manager Main.ui].
  rewrite Hmode, Hinput.
  cbn [negb Py.truthy andb Main.batch_manager].
  rewrite (get_next_plain _resolve_playlist_download_path m u Hmode Hlt Hget Hpre).
  reflexivity.
Qed.

(** From the moment the thread of [u] is about to start, with [done]
    handed out and counted before it and [rest] still waiting. *)
Lemma pump_drains (rest : list string) :
  forall (u : string) (done : list string) (m : Batch.BatchModeManager) (v : Main.Ui)
         (cookie : option string) (w : W) (runs : list (string * list Retry.Effect))
         (completed : list Batch.Summary) (uncaught : list string) (fuel : nat)
         (folder : string),
    Batch.Settings.download_path (Batch.batch_settings m) = folder ->
    (forall w, make_download_folder folder w = (Ok tt, w)) ->
    Py.strip (Main.link_input v) = "" ->
    Batch.is_batch_mode m = true ->
    Batch.batch_queue m = (done ++ u :: rest)%list ->
    Batch.current_batch_index m = Py.len done + 1 ->
    Batch.successful_downloads m = Py.len done ->
    Batch.failed_downloads m = 0 ->
    Forall (fun x => String.prefix "PLAYLIST_ITEM_" x = false) rest ->
    (3 * List.length rest + 2 <= fuel)%nat ->
    exists a',
      event_loop fuel
        (Main.mkMainWindow W m true false v cookie (Some u)
           [Main.TimerThreadStart u folder] w runs completed uncaught) = Some a' /\
      Main.runs W a'
      = (runs ++ map (fun x => (x, [Retry.Invoke None])) (u :: rest))%list /\
      Main.completed W a'
      = (completed
         ++ [Batch.mkSummary (Py.len (Batch.batch_queue m)) (Py.len (Batch.batch_queue m))
               0 true (option_map Batch.Info.title (Batch.current_playlist_info m))])%list /\
      Batch.batch_queue (Main.batch_manager W a') = [] /\
      Main.pending W a' = [] /\
      Main.is_downloading W a' = false /\
      Main.uncaught W a' = uncaught.
Proof.
  induction rest as [|u' rest IH];
    intros u done m v cookie w runs completed uncaught fuel folder
           Hfolder Hready Hinput Hmode Hq Hc Hs Hf Hplain Hfuel.
  - destruct fuel as [|[|fuel]]; try (simpl in Hfuel; lia).
    destruct (downloads_succeed u w) as [w' Hdl].
    rewrite (pump_turn _ _ (Main.mkMainWindow W m true false v cookie (Some u)
                              [Main.Queued Main.finished] w'
                              (runs ++ [(u, [Retry.Invoke None])]) completed uncaught)).
    2:{ unfold Main.turn. cbn [Main.pending Main.dispatch].
        unfold Main.thread_start. cbn [Main.world Main.set_pending].
        rewrite (run_succeeds_at_once W _download_with_ytdl sleep makedirs
                   current_video_title u folder w w' (Hready w) Hdl).
        reflexivity. }
    assert (Hdone : Batch.is_batch_complete m = true).
    { unfold Batch.is_batch_complete. rewrite Hq, Hc, len_app.
      unfold Py.len. cbn [List.length]. apply Z.leb_le. lia. }
    rewrite (pump_turn _ _
               (Main.complete_batch W
                  (Main.mkMainWindow W (Batch.mark_download_completed true m) false false
                     v cookie (Some u) [] w' (runs ++ [(u, [Retry.Invoke None])])
                     completed uncaught))).
    2:{ unfold Main.turn. cbn [Main.pending Main.dispatch]. unfold Main.set_pending.
        cbn [Main.batch_manager Main.is_downloading Main._block_batch_after_cancel
             Main.ui Main.current_cookie_file Main.thread Main.world Main.runs
             Main.completed Main.uncaught].
        rewrite (finished_at_the_end W m true false v cookie (Some u) [] w'
                   _ completed uncaught Hmode Hdone).
        reflexivity. }
    rewrite complete_batch_result by (first [exact Hmode | exact Hdone]).
    rewrite pump_idle by reflexivity.
    eexists. split; [reflexivity|].
    cbn [Main.runs Main.completed Main.batch_manager Main.pending Main.is_downloading
         Main.uncaught map].
    repeat split.
    f_equal. f_equal. unfold Batch.get_batch_summary, Batch.mark_download_completed.
    cbn [Batch.batch_queue Batch.successful_downloads Batch.failed_downloads
         Batch.current_playlist_info Batch.set_successful_downloads].
    rewrite Hs, Hf, Hq, len_app. unfold Py.len. cbn [List.length].
    f_equal; try lia.
    apply andb_true_iff. split; [apply Z.ltb_lt|apply Z.leb_le]; lia.
  - destruct fuel as [|[|[|fuel]]]; try (cbn [List.length] in Hfuel; lia).
    destruct (downloads_succeed u w) as [w' Hdl].
    rewrite (pump_turn _ _ (Main.mkMainWindow W m true false v cookie (Some u)
                              [Main.Queued Main.finished] w'
                              (runs ++ [(u, [Retry.Invoke None])]) completed uncaught)).
    2:{ unfold Main.turn. cbn [Main.pending Main.dispatch].
        unfold Main.thread_start. cbn [Main.world Main.set_pending].
        rewrite (run_succeeds_at_once W _download_with_ytdl sleep makedirs
                   current_video_title u folder w w' (Hready w) Hdl).
        reflexivity. }
    assert (Hmore : Batch.is_batch_complete m = false).
    { unfold Batch.is_batch_complete. rewrite Hq, Hc, len_app.
      unfold Py.len. cbn [List.length]. apply Z.leb_gt. lia. }
    rewrite (pump_turn _ _
               (Main.mkMainWindow W (Batch.mark_download_completed true m) false false
                  v cookie (Some u) [Main.TimerStartBatchDownload] w'
                  (runs ++ [(u, [Retry.Invoke None])]) completed uncaught)).
    2:{ unfold Main.turn. cbn [Main.pending Main.dispatch]. unfold Main.set_pending.
        cbn [Main.batch_manager Main.is_downloading Main._block_batch_after_cancel
             Main.ui Main.current_cookie_file Main.thread Main.world Main.runs
             Main.completed Main.uncaught].
        rewrite (finished_with_more_to_do W m true false v cookie (Some u) [] w'
                   _ completed uncaught Hmode Hmore).
        reflexivity. }
    apply Forall_cons_iff in Hplain. destruct Hplain as [Hu' Hrest].
    set (m1 := Batch.mark_download_completed true m).
    assert (Hq1 : Batch.batch_queue m1 = ((done ++ [u]) ++ u' :: rest)%list)
      by (unfold m1; cbn; rewrite Hq, <- app_assoc; reflexivity).
    assert (Hc1 : Batch.current_batch_index m1 = Py.len (done ++ [u]))
      by (unfold m1; cbn; rewrite Hc, len_app; reflexivity).
    rewrite (pump_turn _ _
               (Main.mkMainWindow W
                  (Batch.set_current_batch_index (Batch.current_batch_index m1 + 1) m1)
                  true false v cookie (Some u') [Main.TimerThreadStart u' folder] w'
                  (runs ++ [(u, [Retry.Invoke None])]) completed uncaught)).
    2:{ unfold Main.turn. cbn [Main.pending Main.dispatch]. unfold Main.set_pending.
        cbn [Main.batch_manager Main.is_downloading Main._block_batch_after_cancel
             Main.ui Main.current_cookie_file Main.thread Main.world Main.runs
             Main.completed Main.uncaught].
        rewrite (pump_next m1 u' v cookie (Some u) [] w' _ completed uncaught);
          auto.
        2:{ rewrite Hq1, Hc1, !len_app. unfold Py.len. cbn [List.length]. lia. }
        2:{ rewrite Hq1, Hc1. apply getitem_middle. }
        unfold m1. cbn [Batch.batch_settings Batch.mark_download_completed
                        Batch.set_successful_downloads app].
        rewrite Hfolder. reflexivity. }
    destruct (IH u' (done ++ [u])%list
                (Batch.set_current_batch_index (Batch.current_batch_index m1 + 1) m1)
                v cookie w' (runs ++ [(u, [Retry.Invoke None])])%list
                completed uncaught fuel folder)
      as [a' [Hloop [Hruns [Hcompleted Hrest']]]]; auto.
    + cbn [Batch.current_batch_index Batch.set_current_batch_index]. now rewrite Hc1.
    + unfold m1. cbn. rewrite Hs, len_app. reflexivity.
    + cbn [List.length] in Hfuel. lia.
    + exists a'. split; [exact Hloop|]. split.
      { rewrite Hruns, <- app_assoc. reflexivity. }
      split; [|exact Hrest'].
      rewrite Hcompleted. reflexivity.
Qed.

(** X18. The pump over a whole queue. Batch mode is on, the input line
    is empty, nothing has been handed out or counted yet, the queue
    holds addresses that are not placeholders, the download folder of
    the batch settings can be made or is blank, and every download
    returns at its first call. Then, started once, the pump downloads every
    queued address exactly once, in the order of the queue, logs one
    summary with all of them successful, and ends with an empty queue and
    nothing left to do. *)
Theorem pump_downloads_every_item_once (m : Batch.BatchModeManager) (v : Main.Ui)
    (cookie thread : option string) (w : W) (fuel : nat) :
  (forall w, make_download_folder
               (Batch.Settings.download_path (Batch.batch_settings m)) w = (Ok tt, w)) ->
  Py.strip (Main.link_input v) = "" ->
  Batch.is_batch_mode m = true ->
  Batch.batch_queue m <> [] ->
  Batch.current_batch_index m = 0 ->
  Batch.successful_downloads m = 0 ->
  Batch.failed_downloads m = 0 ->
  Forall (fun x => String.prefix "PLAYLIST_ITEM_" x = false) (Batch.batch_queue m) ->
  (3 * List.length (Batch.batch_queue m) <= fuel)%nat ->
  exists a',
    event_loop fuel
      (start_batch_download
         (Main.mkMainWindow W m false false v cookie thread [] w [] [] [])) = Some a' /\
    Main.runs W a' = map (fun x => (x, [Retry.Invoke None])) (Batch.batch_queue m) /\
    Main.completed W a'
    = [Batch.mkSummary (Py.len (Batch.batch_queue m)) (Py.len (Batch.batch_queue m))
         0 true (option_map Batch.Info.title (Batch.current_playlist_info m))] /\
    Batch.batch_queue (Main.batch_manager W a') = [] /\
    Main.pending W a' = [] /\
    Main.is_downloading W a' = false /\
    Main.uncaught W a' = [].
Proof.
  intros Hready Hinput Hmode Hne Hc Hs Hf Hplain Hfuel.
  destruct (Batch.batch_queue m) as [|u rest] eqn:Hq; [contradiction|].
  inversion Hplain as [|? ? Hu Hrest]; subst.
  rewrite (pump_next m u v cookie thread [] w [] [] []); auto.
  - destruct (pump_drains rest u [] 
                (Batch.set_current_batch_index (Batch.current_batch_index m + 1) m)
                v cookie w [] [] [] fuel
                (Batch.Settings.download_path (Batch.batch_settings m)))
      as [a' [Hloop Hprops]]; auto.
    + cbn. now rewrite Hc.
    + cbn [List.length] in Hfuel. lia.
    + exists a'. split; [exact Hloop|].
      cbn [Batch.batch_queue Batch.set_current_batch_index Batch.current_playlist_info
           app] in Hprops.
      rewrite Hq in Hprops. exact Hprops.
  - rewrite Hq, Hc. unfold Py.len. cbn [List.length]. lia.
  - rewrite Hq, Hc. reflexivity.
Qed.

End PumpAll.

Lemma pump_downloads_every_item_once_witness :
  exists a',
    Main.event_loop (list string) instant_download Scenario.quiet_sleep Scenario.makedirs
      Scenario.no_title Scenario.urlparse Scenario.parse_qs
      Scenario._resolve_playlist_download_path 5 false None 15
      (Main.start_batch_download (list string) Scenario.urlparse Scenario.parse_qs
         Scenario._resolve_playlist_download_path 5
         (Main.mkMainWindow (list string) Scenario.full5 false false
            (Main.mkUi "" "720p" false "") None None [] [] [] [] [])) = Some a' /\
    Main.runs (list string) a'
    = map (fun x => (x, [Retry.Invoke None])) Scenario.five_urls.
Proof.
  assert (Hdl : forall (url : string) (w : list string),
             exists w', instant_download url w = (Ok tt, w', false))
    by (intros url w; eexists; reflexivity).
  destruct (pump_downloads_every_item_once (list string) instant_download
              Scenario.quiet_sleep Scenario.makedirs Scenario.no_title Scenario.urlparse
              Scenario.parse_qs Scenario._resolve_playlist_download_path 5 false None Hdl
              Scenario.full5 (Main.mkUi "" "720p" false "") None None [] 15%nat)
    as [a' [Hloop [Hruns _]]].
  - reflexivity.
  - reflexivity.
  - reflexivity.
  - vm_compute. discriminate.
  - reflexivity.
  - reflexivity.
  - reflexivity.
  - vm_compute. repeat constructor.
  - vm_compute. repeat constructor.
  - exists a'. split; [exact Hloop|exact Hruns].
Defined.

(** * A failed download in batch mode *)

Section FailedItem.

Variable W : Type.
Variable urlparse : string -> option Batch.ParseResult.
Variable parse_qs : string -> string -> option (list string).
Variable _resolve_playlist_download_path : option Batch.Info.t -> string -> string.
Variable get_max_concurrent_downloads : Z.
Variable get_disable_cookies : bool.
Variable show_cookie_detection_dialog : option (string * string).

Local Abbreviation on_download_failed :=
  (Main.on_download_failed W urlparse parse_qs _resolve_playlist_download_path
     get_max_concurrent_downloads get_disable_cookies show_cookie_detection_dialog).

(** X19. A thread that fails emits [download_failed] and then
    [finished]. In batch mode with items still waiting, and for an error
    other than the sign-in check, the two slots together count the one
    item once as failed and once as successful and ask twice for the next
    item; the queue and the cursor stay as they are. *)
Theorem failed_item_is_counted_twice (error_message : string) (a : Main.MainWindow W) :
  Py.contains "Sign in to confirm you're not a bot" error_message = false ->
  Batch.is_batch_mode (Main.batch_manager W a) = true ->
  Batch.is_batch_complete (Main.batch_manager W a) = false ->
  let a' := Main.on_download_finished W (on_download_failed error_message a) in
  Batch.failed_downloads (Main.batch_manager W a')
  = Batch.failed_downloads (Main.batch_manager W a) + 1 /\
  Batch.successful_downloads (Main.batch_manager W a')
  = Batch.successful_downloads (Main.batch_manager W a) + 1 /\
  Main.pending W a'
  = (Main.pending W a
     ++ [Main.TimerStartBatchDownload; Main.TimerStartBatchDownload])%list /\
  Batch.batch_queue (Main.batch_manager W a') = Batch.batch_queue (Main.batch_manager W a) /\
  Batch.current_batch_index (Main.batch_manager W a')
  = Batch.current_batch_index (Main.batch_manager W a) /\
  Main.is_downloading W a' = false.
Proof.
  intros Hbot Hmode Hmore. destruct a as [m d b v cookie thread pending w runs c u].
  cbn [Main.batch_manager Main.pending] in *.
  unfold Main.on_download_failed. rewrite Hbot.
  unfold Main.fail_and_continue, Main.set_is_downloading, Main.set_batch_manager.
  cbn [Main.batch_manager Main.is_downloading Main._block_batch_after_cancel Main.ui
       Main.current_cookie_file Main.thread Main.pending Main.world Main.runs
       Main.completed Main.uncaught].
  rewrite Hmode.
  change (Batch.is_batch_complete (Batch.mark_download_completed false m))
    with (Batch.is_batch_complete m).
  rewrite Hmore. cbn [negb].
  unfold Main.post, Main.set_pending.
  cbn [Main.batch_manager Main.is_downloading Main._block_batch_after_cancel Main.ui
       Main.current_cookie_file Main.thread Main.pending Main.world Main.runs
       Main.completed Main.uncaught].
  rewrite (finished_with_more_to_do W (Batch.mark_download_completed false m)
             false b v cookie thread _ w runs c u Hmode Hmore).
  cbn [Main.batch_manager Main.pending Main.is_downloading].
  rewrite <- app_assoc. repeat split.
Qed.

End FailedItem.

Lemma failed_item_is_counted_twice_witness :
  let a := Main.mkMainWindow (list string) Scenario.abcd true false
             (Main.mkUi "" "720p" false "") None None [] [] [] [] [] in
  let a' := Main.on_download_finished (list string)
              (Main.on_download_failed (list string) Scenario.urlparse Scenario.parse_qs
                 Scenario._resolve_playlist_download_path 5 false None
                 "ERROR: Video unavailable" a) in
  Batch.failed_downloads (Main.batch_manager (list string) a')
  = Batch.failed_downloads Scenario.abcd + 1 /\
  Batch.successful_downloads (Main.batch_manager (list string) a')
  = Batch.successful_downloads Scenario.abcd + 1.
Proof.
  destruct (failed_item_is_counted_twice (list string) Scenario.urlparse Scenario.parse_qs
              Scenario._resolve_playlist_download_path 5 false None
              "ERROR: Video unavailable"
              (Main.mkMainWindow (list string) Scenario.abcd true false
                 (Main.mkUi "" "720p" false "") None None [] [] [] [] []))
    as [Hf [Hs _]]; try reflexivity.
  split; [exact Hf|exact Hs].
Defined.

(** * Trimming and restarting *)

Lemma nth_error_firstn_lt {A : Type} (l : list A) (k n : nat) :
  (n < k)%nat -> nth_error (firstn k l) n = nth_error l n.
Proof.
  revert l n; induction k as [|k IH]; intros l n H; [lia|].
  destruct l as [|x l]; [destruct n; reflexivity|].
  destruct n as [|n]; [reflexivity|]. simpl. apply IH. lia.
Qed.

(** X20. Trimming the queue to a limit that is not negative keeps its first
    [limit] items. The item under the cursor stays the next one when the
    cursor is below the limit; otherwise nothing is left to hand out and
    the batch is complete. *)
Theorem trim_keeps_or_ends_the_batch (limit : Z) (m : Batch.BatchModeManager) :
  cursor_in_range m ->
  0 <= limit ->
  let m' := Batch.trim_queue_to_limit (Some limit) m in
  Batch.batch_queue m' = firstn (Z.to_nat limit) (Batch.batch_queue m) /\
  (Batch.current_batch_index m < limit ->
   Py.getitem (Batch.batch_queue m') (Batch.current_batch_index m')
   = Py.getitem (Batch.batch_queue m) (Batch.current_batch_index m)) /\
  (limit <= Batch.current_batch_index m -> Batch.is_batch_complete m' = true).
Proof.
  unfold cursor_in_range. intros Hc Hlim. unfold Batch.trim_queue_to_limit.
  replace (limit <? 0) with false by (symmetry; apply Z.ltb_ge; lia).
  cbn [Batch.batch_queue Batch.set_playlist_max_items].
  destruct (limit <? Py.len (Batch.batch_queue m)) eqn:E;
    [apply Z.ltb_lt in E|apply Z.ltb_ge in E].
  - assert (Hlen : Py.len (Batch.take limit (Batch.batch_queue m)) = limit)
      by (rewrite len_take by lia; lia).
    cbn [Batch.batch_queue Batch.set_batch_queue Batch.current_batch_index Batch.emit
         Batch.playlist_current_index Batch.set_playlist_max_items].
    rewrite Hlen.
    destruct (limit <? Batch.current_batch_index m) eqn:E2;
      [apply Z.ltb_lt in E2|apply Z.ltb_ge in E2];
      match goal with
      | |- context [if ?c then _ else _] => destruct c
      end;
      unfold Batch.is_batch_complete;
      cbn [Batch.batch_queue Batch.set_batch_queue Batch.current_batch_index Batch.emit
           Batch.set_current_batch_index Batch.set_playlist_current_index
           Batch.set_playlist_max_items];
      rewrite ?Hlen;
      (split; [reflexivity|split; [intros Hlt|intros Hge]]);
      try lia; try (apply Z.leb_le; lia);
      rewrite !getitem_nth by lia; unfold Batch.take;
      apply nth_error_firstn_lt; lia.
  - cbn [Batch.batch_queue Batch.current_batch_index Batch.set_playlist_max_items].
    split; [|split].
    + symmetry. apply firstn_all2. unfold Py.len in E. lia.
    + reflexivity.
    + intros Hge. unfold Batch.is_batch_complete.
      cbn [Batch.batch_queue Batch.current_batch_index Batch.set_playlist_max_items].
      apply Z.leb_le. lia.
Qed.

Lemma trim_keeps_or_ends_the_batch_witness :
  Batch.batch_queue (Batch.trim_queue_to_limit (Some 3) Scenario.abcd)
  = firstn 3 (Batch.batch_queue Scenario.abcd).
Proof.
  assert (Hc : cursor_in_range Scenario.abcd)
    by (unfold cursor_in_range; vm_compute; split; intros H; discriminate H).
  assert (Hl : 0 <= 3) by lia.
  destruct (trim_keeps_or_ends_the_batch 3 Scenario.abcd Hc Hl) as [H _].
  exact H.
Defined.

Section Restart.

Variable urlparse : string -> option Batch.ParseResult.
Variable parse_qs : string -> string -> option (list string).
Variable _resolve_playlist_download_path : option Batch.Info.t -> string -> string.

Local Abbreviation dequeue_n := (dequeue_n _resolve_playlist_download_path).

(** X21. After [restart_batch] the whole queue is handed out again: for a
    queue of plain addresses in batch mode, wherever the cursor stood, as
    many calls of [get_next_batch_item] as the queue has items return
    them all, in order, with both counters back at zero, and the batch is
    complete afterwards. *)
Theorem restart_batch_replays_the_queue (m : Batch.BatchModeManager) :
  Batch.is_batch_mode m = true ->
  Forall (plain_url urlparse parse_qs) (Batch.batch_queue m) ->
  let m' := Batch.restart_batch m in
  let n := List.length (Batch.batch_queue m) in
  map Scenario.source_url (fst (dequeue_n n m')) = map Some (Batch.batch_queue m) /\
  Batch.is_batch_complete (snd (dequeue_n n m')) = true /\
  Batch.successful_downloads m' = 0 /\
  Batch.failed_downloads m' = 0.
Proof.
  intros Hmode Hplain m' n.
  destruct (dequeue_plain urlparse parse_qs _resolve_playlist_download_path
              (Batch.batch_queue m) [] m')
    as [Hurls [Hq [Hc _]]]; try assumption; try reflexivity.
  split; [exact Hurls|]. split; [|split; reflexivity].
  unfold Batch.is_batch_complete. fold n in Hq, Hc. rewrite Hq, Hc.
  apply Z.leb_refl.
Qed.

End Restart.

Lemma restart_batch_replays_the_queue_witness :
  map Scenario.source_url
    (fst (dequeue_n Scenario._resolve_playlist_download_path 3
            (Batch.restart_batch Scenario.three_dispatched)))
  = map Some (Batch.batch_queue Scenario.three_dispatched).
Proof.
  destruct (restart_batch_replays_the_queue Scenario.urlparse Scenario.parse_qs
              Scenario._resolve_playlist_download_path Scenario.three_dispatched)
    as [H _].
  - reflexivity.
  - vm_compute. repeat constructor.
  - exact H.
Defined.
